(** * FoldingNet trainer: a shallow embedding of [trainer.py]

    The class [Trainer] drives an externally built model, optimizer,
    scheduler and two data loaders.  The collaborators are opaque to the
    trainer, so they are gathered in the interface [Framework]; the
    methods [train], [train_epoch], [evaluate] and [_snapshot] are
    translated statement by statement into a monad that threads the
    mutable state, collects the observable effects as a trace of events
    and stops at the first Python exception.

    Modelling choices:
    - Python integers are [Z]; [%] is [Z.modulo] with a zero divisor
      raising; floats are the abstract type [float] of the interface,
      with the comparison [flt] the code uses on them; nothing is
      assumed of [flt], so the type may have a nan;
    - a [DataLoader] yields the same batches on every pass (no
      shuffling between passes);
    - the calls into the model, the optimizer and the scheduler do not
      raise, [loss.backward()] included: autograd is taken to be on
      while [train_epoch] runs; the exceptions modelled are those of the
      trainer's own statements: division by zero, indexing an empty
      list, reading an unbound local and [view] with a wrong number of
      elements (the samples are taken to be contiguous tensors);
    - [self.train_hist] exists in every state: a [train_epoch] called
      before any [train] is not modelled;
    - [print] lines are events that carry the values printed, not the
      formatted text;
    - [__init__] only stores its arguments and [_load_pretrain] is not
      called by the other methods: a [Trainer] record stands for the
      object after construction. *)

From Stdlib Require Import List ZArith Ascii String Bool Lia QArith DecimalString.
From Stdlib Require DecimalPos DecimalZ.
Import ListNotations.
Local Open Scope Z_scope.

(** ** Python values *)

(** The exceptions the trainer's own statements can raise. *)
Inductive exn : Type :=
| ZeroDivisionError   (* [x % 0], [x / 0] *)
| UnboundLocalError   (* a local read before any assignment *)
| IndexError          (* [l[i]] out of range *)
| RuntimeError.       (* [Tensor.view] with a shape of another size *)

Inductive result (A : Type) : Type :=
| Ok (a : A)
| Raise (e : exn).
Arguments Ok {A} a.
Arguments Raise {A} e.

(** [range(n)]: empty when [n <= 0]. *)
Definition range (n : Z) : list Z := map Z.of_nat (seq 0 (Z.to_nat n)).

(** [enumerate(xs)]. *)
Definition enumerate {A : Type} (xs : list A) : list (Z * A) :=
  combine (range (Z.of_nat (List.length xs))) xs.

(** [a % b] on Python integers: the sign follows the divisor, as for
    [Z.modulo], and a zero divisor raises. *)
Definition py_mod (a b : Z) : result Z :=
  if b =? 0 then Raise ZeroDivisionError else Ok (a mod b).

(** [str(z)] for an integer. *)
Definition str_int (z : Z) : string := NilZero.string_of_int (Z.to_int z).

(** The argument of [_snapshot] is the string ['best'] or an epoch
    number; [str] is applied to it. *)
Inductive Tag : Type :=
| TagStr (s : string)
| TagInt (z : Z).

Definition str (t : Tag) : string :=
  match t with
  | TagStr s => s
  | TagInt z => str_int z
  end.

Definition starts_with_slash (s : string) : bool :=
  match s with
  | String c _ => Ascii.eqb c "/"%char
  | EmptyString => false
  end.

Fixpoint ends_with_slash (s : string) : bool :=
  match s with
  | EmptyString => false
  | String c EmptyString => Ascii.eqb c "/"%char
  | String _ rest => ends_with_slash rest
  end.

(** [os.path.join(a, b)] on a POSIX system. *)
Definition path_join (a b : string) : string :=
  if starts_with_slash b then b
  else if (String.eqb a "" || ends_with_slash a)%bool then (a ++ b)%string
  else (a ++ "/" ++ b)%string.

(** ** Tensors and loaders *)

(** A tensor: its shape, the device it lives on and its contents. *)
Record Tensor (storage : Type) : Type := mkTensor {
  shape : list Z;
  on_gpu : bool;
  data : storage
}.
Arguments mkTensor {storage} shape on_gpu data.
Arguments shape {storage} t.
Arguments on_gpu {storage} t.
Arguments data {storage} t.

(** [t.cuda()] and [t.cpu()]: the same tensor on the other device. *)
Definition cuda {storage : Type} (t : Tensor storage) : Tensor storage :=
  mkTensor (shape t) true (data t).

Definition cpu {storage : Type} (t : Tensor storage) : Tensor storage :=
  mkTensor (shape t) false (data t).

Definition prod_dims (dims : list Z) : Z := fold_right Z.mul 1 dims.

Definition numel {storage : Type} (t : Tensor storage) : Z := prod_dims (shape t).

(** [t.view(dims)] for a contiguous tensor: the same storage under
    another shape; it raises when the number of elements differs.  (On
    a tensor that is not contiguous PyTorch can raise also when the
    numbers agree; strides are not modelled.) *)
Definition view {storage : Type} (dims : list Z) (t : Tensor storage)
  : result (Tensor storage) :=
  if numel t =? prod_dims dims then Ok (mkTensor dims (on_gpu t) (data t))
  else Raise RuntimeError.

(** A [DataLoader]: the dataset it wraps ([loader.dataset], indexable)
    and the batches one pass over it yields, the same on every pass.
    Each element is a pair of points and a label. *)
Record DataLoader (storage label : Type) : Type := mkLoader {
  loader_dataset : list (Tensor storage * label);
  batches : list (Tensor storage * label)
}.
Arguments mkLoader {storage label} loader_dataset batches.
Arguments loader_dataset {storage label} d.
Arguments batches {storage label} d.

(** ** The collaborators *)

(** What the trainer receives from outside: floating-point values with
    the operations used on them, the network (model parameters with the
    optimizer and scheduler state) and the calls made into it, and the
    wall clock. *)
Class Framework : Type := {
  float : Type;
  flt : float -> float -> bool;            (* [a < b] *)
  fsub : float -> float -> float;          (* [a - b] *)
  of_int : Z -> float;                     (* an integer literal as a float *)
  np_mean : list float -> float;           (* [np.mean] *)
  storage : Type;
  label : Type;
  Net : Type;
  forward : Net -> bool -> Tensor storage -> Tensor storage;
                                           (* [model(pts)], by [model.training] *)
  get_loss : Net -> Tensor storage -> Tensor storage -> float;
  zero_grad : Net -> Net;                  (* [optimizer.zero_grad()] *)
  backward : Net -> Tensor storage -> Tensor storage -> Net;
                                           (* [loss.backward()] *)
  optimizer_step : Net -> Net;             (* [optimizer.step()] *)
  scheduler_step : Net -> Net;
  get_lr : Net -> float;                   (* [optimizer.param_groups[0]['lr']] *)
  index0 : Tensor storage -> Tensor storage;  (* [t[0]] *)
  figure : Type;
  draw_pts : Tensor storage -> figure;     (* the axes [draw_pts] returns *)
  clock : nat -> float                     (* the n-th reading of [time.time()] *)
}.

Section Trainer.
Context {fw : Framework}.

Abbreviation tensor := (Tensor storage).
Abbreviation loader := (DataLoader storage label).

(** ** The trainer object *)

(** The attributes set once by [__init__] and only read afterwards. *)
Record Trainer : Type := mkTrainer {
  epoch : Z;
  num_points : Z;
  batch_size : Z;
  dataset : string;
  save_dir : string;
  result_dir : string;
  gpu_mode : bool;
  verbose : bool;
  scheduler_interval : Z;
  snapshot_interval : Z;
  train_loader : loader;
  test_loader : loader
}.

(** [self.train_hist]: a dictionary with three fixed keys. *)
Record TrainHist : Type := mkHist {
  hist_loss : list float;
  per_epoch_time : list float;
  total_time : list float
}.

(** The result dictionary of [evaluate], with its single key ['loss']. *)
Record Res : Type := mkRes { loss : float }.

(** What changes during a run: the network, the mode set by
    [model.train()] and [model.eval()], the autograd switch of the
    process (the trainer never writes it), the history and the number of
    clock readings made so far. *)
Record State : Type := mkState {
  net : Net;
  training : bool;
  grad_enabled : bool;
  train_hist : TrainHist;
  ticks : nat
}.

(** Lines written by [print]; the text is kept as its arguments. *)
Inductive Message : Type :=
| MsgTrainingStart
| MsgProgress (ep it num_batch : Z) (l elapsed : float)
| MsgEpoch (ep : Z) (l t : float)
| MsgSummary (avg : float) (epochs : Z) (total : float)
| MsgFinish
| MsgSaved (path : string).

(** The observable effects, in the order they happen. *)
Inductive event : Type :=
| EvPrint (m : Message)
| EvForward (mode grad : bool) (input : tensor)   (* [self.model(pts)] *)
| EvGetLoss (grad : bool) (l : float)             (* [self.model.get_loss] *)
| EvOptimizerStep
| EvSchedulerStep
| EvSavefig (path : string) (fig : figure)
| EvTorchSave (t : Tag) (path : string) (params : Net)
| EvAddScalar (name : string) (v : float) (step : Z)
| EvEvaluate (ep : Z)                             (* [evaluate] is entered *)
| EvEvaluated (ep : Z) (r : Res).                 (* [evaluate] returns [r] *)

(** ** The monad *)

Record Outcome (A : Type) : Type := mkOutcome {
  emitted : list event;
  final : State;
  value : result A
}.
Arguments mkOutcome {A} emitted final value.
Arguments emitted {A} o.
Arguments final {A} o.
Arguments value {A} o.

Definition M (A : Type) : Type := State -> Outcome A.

Definition ret {A : Type} (a : A) : M A :=
  fun s => mkOutcome [] s (Ok a).

Definition bind {A B : Type} (m : M A) (f : A -> M B) : M B :=
  fun s =>
    let o := m s in
    match value o with
    | Ok a =>
        let o' := f a (final o) in
        mkOutcome (emitted o ++ emitted o') (final o') (value o')
    | Raise e => mkOutcome (emitted o) (final o) (Raise e)
    end.

Definition raise {A : Type} (e : exn) : M A :=
  fun s => mkOutcome [] s (Raise e).

Definition emit (ev : event) : M unit :=
  fun s => mkOutcome [ev] s (Ok tt).

Definition get : M State :=
  fun s => mkOutcome [] s (Ok s).

Definition modify (f : State -> State) : M unit :=
  fun s => mkOutcome [] (f s) (Ok tt).

Definition lift {A : Type} (r : result A) : M A :=
  match r with
  | Ok a => ret a
  | Raise e => raise e
  end.

Notation "x <- m ;; k" := (bind m (fun x => k))
  (at level 61, m at next level, right associativity).
Notation "m ;; k" := (bind m (fun _ => k))
  (at level 61, right associativity).

(** A run of [m] from [s] that completes: it emits [T], ends in [s']
    and returns [a]. *)
Definition runs {A : Type} (m : M A) (s : State) (T : list event) (s' : State) (a : A)
  : Prop :=
  m s = mkOutcome T s' (Ok a).

(** A [for] loop whose body updates the local variables [acc]. *)
Fixpoint for_each {X Acc : Type} (xs : list X) (body : X -> Acc -> M Acc) (acc : Acc)
  : M Acc :=
  match xs with
  | [] => ret acc
  | x :: rest => acc' <- body x acc ;; for_each rest body acc'
  end.

(** ** Calls into the collaborators *)

Definition set_training (b : bool) : M unit :=
  modify (fun s => mkState (net s) b (grad_enabled s) (train_hist s) (ticks s)).

Definition set_net (n : Net) : M unit :=
  modify (fun s => mkState n (training s) (grad_enabled s) (train_hist s) (ticks s)).

Definition set_train_hist (h : TrainHist) : M unit :=
  modify (fun s => mkState (net s) (training s) (grad_enabled s) h (ticks s)).

(** [time.time()] *)
Definition time_time : M float :=
  s <- get ;;
  modify (fun s => mkState (net s) (training s) (grad_enabled s) (train_hist s) (S (ticks s))) ;;
  ret (clock (ticks s)).

(** [self.model(pts)] *)
Definition call_model (pts : tensor) : M tensor :=
  s <- get ;;
  emit (EvForward (training s) (grad_enabled s) pts) ;;
  ret (forward (net s) (training s) pts).

(** [self.model.get_loss(pts, output)] *)
Definition call_get_loss (pts output : tensor) : M float :=
  s <- get ;;
  let l := get_loss (net s) pts output in
  emit (EvGetLoss (grad_enabled s) l) ;;
  ret l.

(** [self.optimizer.zero_grad()] *)
Definition call_zero_grad : M unit :=
  s <- get ;;
  set_net (zero_grad (net s)).

(** [loss.backward()], for a loss computed with autograd on.  (With
    autograd off PyTorch raises here; the switch [grad_enabled] is only
    recorded in the events of the forward passes and the losses.) *)
Definition call_backward (pts output : tensor) : M unit :=
  s <- get ;;
  set_net (backward (net s) pts output).

(** [self.optimizer.step()] *)
Definition call_optimizer_step : M unit :=
  s <- get ;;
  set_net (optimizer_step (net s)) ;;
  emit EvOptimizerStep.

(** [self.scheduler.step()] *)
Definition call_scheduler_step : M unit :=
  s <- get ;;
  set_net (scheduler_step (net s)) ;;
  emit EvSchedulerStep.

(** [if self.gpu_mode: pts = pts.cuda()] *)
Definition to_device (self : Trainer) (pts : tensor) : tensor :=
  if gpu_mode self then cuda pts else pts.

(** [l[0]] *)
Definition first {A : Type} (l : list A) : M A :=
  match l with
  | x :: _ => ret x
  | [] => raise IndexError
  end.

(** [l[-1]] *)
Definition last_item {A : Type} (l : list A) : M A :=
  match rev l with
  | x :: _ => ret x
  | [] => raise IndexError
  end.

(** [int(a / b)]: true division, then truncation towards zero.  The
    quotient is taken exactly; the float quotient of Python can be
    rounded to another integer for operands above 2^53. *)
Definition int_div (a b : Z) : result Z :=
  if b =? 0 then Raise ZeroDivisionError else Ok (Z.quot a b).

(** ** The methods of [Trainer] *)

(** The body of the batch loop of [train_epoch]: [x] is the pair of
    [iter] and the batch that [enumerate] yields, [loss_buf] the list
    the loop appends to. *)
Definition train_batch (self : Trainer) (ep num_batch : Z) (epoch_start_time : float)
           (x : Z * (tensor * label)) (loss_buf : list float) : M (list float) :=
  let iter := fst x in
  let pts := to_device self (fst (snd x)) in
  (* forward *)
  call_zero_grad ;;
  output <- call_model pts ;;
  l <- call_get_loss pts output ;;
  (* backward *)
  call_backward pts output ;;
  call_optimizer_step ;;
  let loss_buf := loss_buf ++ [l] in
  (if ((iter + 1) mod 10 =? 0) && verbose self then
     now <- time_time ;;
     emit (EvPrint (MsgProgress (ep + 1) (iter + 1) num_batch l
                                (fsub now epoch_start_time)))
   else ret tt) ;;
  ret loss_buf.

(** [train_epoch(self, epoch, verbose)].  The parameter [verbose] is
    not read: the progress line tests [self.verbose]. *)
Definition train_epoch (self : Trainer) (ep : Z) (verbose0 : bool) : M unit :=
  epoch_start_time <- time_time ;;
  num_batch <- lift (int_div (Z.of_nat (List.length (loader_dataset (train_loader self))))
                             (batch_size self)) ;;
  loss_buf <- for_each (enumerate (batches (train_loader self)))
                       (train_batch self ep num_batch epoch_start_time) [] ;;
  (* finish one epoch *)
  now <- time_time ;;
  let epoch_time := fsub now epoch_start_time in
  s <- get ;;
  set_train_hist (mkHist (hist_loss (train_hist s))
                         (per_epoch_time (train_hist s) ++ [epoch_time])
                         (total_time (train_hist s))) ;;
  s <- get ;;
  set_train_hist (mkHist (hist_loss (train_hist s) ++ [np_mean loss_buf])
                         (per_epoch_time (train_hist s))
                         (total_time (train_hist s))) ;;
  emit (EvPrint (MsgEpoch (ep + 1) (np_mean loss_buf) epoch_time)).

(** The body of the loss loop of [evaluate]. *)
Definition eval_batch (self : Trainer) (x : Z * (tensor * label)) (loss_buf : list float)
  : M (list float) :=
  let pts := to_device self (fst (snd x)) in
  output <- call_model pts ;;
  l <- call_get_loss pts output ;;
  ret (loss_buf ++ [l]).

(** [evaluate(self, epoch)] *)
Definition evaluate (self : Trainer) (ep : Z) : M Res :=
  emit (EvEvaluate ep) ;;
  set_training false ;;
  loss_buf <- for_each (enumerate (batches (train_loader self))) (eval_batch self) [] ;;
  (* show the reconstructed image from test set *)
  sample <- first (loader_dataset (test_loader self)) ;;
  let pts := to_device self (fst sample) in
  v <- lift (view [1; 2048; 3] pts) ;;
  out <- call_model v ;;
  let reconstructed_pl := index0 out in
  let ax1 := draw_pts (cpu pts) in
  let ax2 := draw_pts (cpu reconstructed_pl) in
  emit (EvSavefig (result_dir self ++ "test_" ++ str_int ep ++ ".png") ax2) ;;
  (if ep =? 10 then emit (EvSavefig (result_dir self ++ "test_0.png") ax1)
   else ret tt) ;;
  (* show image from train set *)
  sample <- first (loader_dataset (train_loader self)) ;;
  let pts := to_device self (fst sample) in
  v <- lift (view [1; 2048; 3] pts) ;;
  out <- call_model v ;;
  let reconstructed_pl := index0 out in
  let ax1 := draw_pts (cpu pts) in
  let ax2 := draw_pts (cpu reconstructed_pl) in
  emit (EvSavefig (result_dir self ++ "train_" ++ str_int ep ++ ".png") ax2) ;;
  emit (EvSavefig (result_dir self ++ "train_" ++ str_int ep ++ "_origin.png") ax1) ;;
  set_training true ;;
  let res := mkRes (np_mean loss_buf) in
  emit (EvEvaluated ep res) ;;
  ret res.

(** [_snapshot(self, epoch)] *)
Definition _snapshot (self : Trainer) (ep : Tag) : M unit :=
  let save_dir := path_join (save_dir self) (dataset self) in
  let path := (save_dir ++ "_" ++ str ep ++ ".pkl")%string in
  s <- get ;;
  emit (EvTorchSave ep path (net s)) ;;
  emit (EvPrint (MsgSaved path)).

(** The local variables of [train] that the loop assigns.  [res] is
    unbound until the first [evaluate] returns. *)
Record Locals : Type := mkLocals {
  best_loss : float;
  res : option Res
}.

(** Reading the local [res]. *)
Definition read_res (loc : Locals) : M Res :=
  match res loc with
  | Some r => ret r
  | None => raise UnboundLocalError
  end.

(** One iteration of the loop of [train].  [self.writer] is the
    [SummaryWriter] that [__init__] builds, an object, hence true. *)
Definition train_body (self : Trainer) (ep : Z) (loc : Locals) : M Locals :=
  train_epoch self ep (verbose self) ;;
  loc <- (if ((ep + 1) mod 10 =? 0) || (ep =? 0) then
            r <- evaluate self (ep + 1) ;;
            if flt (loss r) (best_loss loc) then
              _snapshot self (TagStr "best") ;;
              ret (mkLocals (loss r) (Some r))
            else ret (mkLocals (best_loss loc) (Some r))
          else ret loc) ;;
  m <- lift (py_mod ep (scheduler_interval self)) ;;
  (if m =? 0 then call_scheduler_step else ret tt) ;;
  m <- lift (py_mod (ep + 1) (snapshot_interval self)) ;;
  (if m =? 0 then _snapshot self (TagInt (ep + 1)) else ret tt) ;;
  s <- get ;;
  l <- last_item (hist_loss (train_hist s)) ;;
  emit (EvAddScalar "Train Loss" l ep) ;;
  emit (EvAddScalar "Learning Rate" (get_lr (net s)) ep) ;;
  r <- read_res loc ;;
  emit (EvAddScalar "Test Loss" (loss r) ep) ;;
  ret loc.

(** [train(self)] *)
Definition train (self : Trainer) : M unit :=
  set_train_hist (mkHist [] [] []) ;;
  let best_loss := of_int 1000000000 in
  emit (EvPrint MsgTrainingStart) ;;
  start_time <- time_time ;;
  set_training true ;;
  for_each (range (epoch self)) (train_body self) (mkLocals best_loss None) ;;
  (* finish all epoch *)
  now <- time_time ;;
  s <- get ;;
  set_train_hist (mkHist (hist_loss (train_hist s))
                         (per_epoch_time (train_hist s))
                         (total_time (train_hist s) ++ [fsub now start_time])) ;;
  s <- get ;;
  total <- first (total_time (train_hist s)) ;;
  emit (EvPrint (MsgSummary (np_mean (per_epoch_time (train_hist s))) (epoch self) total)) ;;
  emit (EvPrint MsgFinish).

End Trainer.

Arguments mkOutcome {fw A} emitted final value.
Arguments emitted {fw A} o.
Arguments final {fw A} o.
Arguments value {fw A} o.

(** ** What a run shows *)

Section Observations.
Context {fw : Framework}.

Abbreviation tensor := (Tensor storage).
Abbreviation loader := (DataLoader storage label).

(** The loss of the network [n], in mode [mode], on the points [pts]. *)
Definition batch_loss (n : Net) (mode : bool) (pts : tensor) : float :=
  get_loss n pts (forward n mode pts).

(** The losses of one pass over [l] with the network of [s] in
    evaluation mode. *)
Definition eval_losses (self : Trainer) (s : State) (l : loader) : list float :=
  map (fun b => batch_loss (net s) false (to_device self (fst b))) (batches l).

(** The events of one step of the loss loop of [evaluate]. *)
Definition eval_batch_events (self : Trainer) (s : State) (b : tensor * label)
  : list event :=
  let pts := to_device self (fst b) in
  [EvForward (training s) (grad_enabled s) pts;
   EvGetLoss (grad_enabled s) (batch_loss (net s) (training s) pts)].

(** The state while [evaluate] runs, after [self.model.eval()]. *)
Definition eval_state (s : State) : State :=
  mkState (net s) false (grad_enabled s) (train_hist s) (ticks s).

(** [pts.view(1, 2048, 3)] when it succeeds. *)
Definition reshaped (pts : tensor) : tensor :=
  mkTensor [1; 2048; 3] (on_gpu pts) (data pts).

(** The reconstruction [self.model(pts.view(1, 2048, 3))[0]], drawn. *)
Definition reconstruction (s : State) (pts : tensor) : figure :=
  draw_pts (cpu (index0 (forward (net s) false (reshaped pts)))).

(** The events of the test-set picture of [evaluate], for the first
    test sample [pts] (already on the device). *)
Definition test_figures (self : Trainer) (s : State) (ep : Z) (pts : tensor)
  : list event :=
  [EvForward false (grad_enabled s) (reshaped pts);
   EvSavefig (result_dir self ++ "test_" ++ str_int ep ++ ".png") (reconstruction s pts)]
  ++ (if ep =? 10
      then [EvSavefig (result_dir self ++ "test_0.png") (draw_pts (cpu pts))]
      else []).

(** The events of the train-set picture. *)
Definition train_figures (self : Trainer) (s : State) (ep : Z) (pts : tensor)
  : list event :=
  [EvForward false (grad_enabled s) (reshaped pts);
   EvSavefig (result_dir self ++ "train_" ++ str_int ep ++ ".png") (reconstruction s pts);
   EvSavefig (result_dir self ++ "train_" ++ str_int ep ++ "_origin.png")
             (draw_pts (cpu pts))].

(** The events [train_epoch] can emit: forward passes, losses,
    optimizer steps and its two kinds of printed lines. *)
Definition training_event (ev : event) : bool :=
  match ev with
  | EvPrint (MsgProgress _ _ _ _ _) | EvPrint (MsgEpoch _ _ _) => true
  | EvForward _ _ _ | EvGetLoss _ _ | EvOptimizerStep => true
  | _ => false
  end.

(** The epoch tags with which [evaluate] was entered, in order. *)
Definition evaluate_calls (T : list event) : list Z :=
  flat_map (fun ev => match ev with EvEvaluate ep => [ep] | _ => [] end) T.

(** The results [evaluate] returned, in order. *)
Definition evaluate_results (T : list event) : list Res :=
  flat_map (fun ev => match ev with EvEvaluated _ r => [r] | _ => [] end) T.

(** The epoch numbers of the numbered checkpoints written, in order. *)
Definition epoch_snapshots (T : list event) : list Z :=
  flat_map (fun ev => match ev with EvTorchSave (TagInt z) _ _ => [z] | _ => [] end) T.

(** The tags of the checkpoints written, in order. *)
Definition snapshot_tags (T : list event) : list Tag :=
  flat_map (fun ev => match ev with EvTorchSave t _ _ => [t] | _ => [] end) T.

(** One entry per call of [scheduler.step()]. *)
Definition scheduler_steps (T : list event) : list unit :=
  flat_map (fun ev => match ev with EvSchedulerStep => [tt] | _ => [] end) T.

(** The paths of the pictures written, in order. *)
Definition savefig_paths (T : list event) : list string :=
  flat_map (fun ev => match ev with EvSavefig p _ => [p] | _ => [] end) T.

(** The scalars logged under [name], as pairs of value and step. *)
Definition scalars (name : string) (T : list event) : list (float * Z) :=
  flat_map (fun ev => match ev with
                      | EvAddScalar n v step => if String.eqb n name then [(v, step)] else []
                      | _ => []
                      end) T.

(** The trainer with another [num_points]. *)
Definition with_num_points (self : Trainer) (n : Z) : Trainer :=
  mkTrainer (epoch self) n (batch_size self) (dataset self) (save_dir self)
            (result_dir self) (gpu_mode self) (verbose self) (scheduler_interval self)
            (snapshot_interval self) (train_loader self) (test_loader self).

(** The autograd switch under which a forward pass or a loss was
    computed is [g]; other events pass. *)
Definition grad_is (g : bool) (ev : event) : Prop :=
  match ev with
  | EvForward _ g' _ | EvGetLoss g' _ => g' = g
  | _ => True
  end.

(** The autograd switch under which each forward pass and each loss
    of [T] was computed, in order. *)
Definition autograd_flags (T : list event) : list bool :=
  flat_map (fun ev => match ev with
                      | EvForward _ g _ | EvGetLoss g _ => [g]
                      | _ => []
                      end) T.

(** A forward pass ran with the model in evaluation mode; other events
    pass. *)
Definition in_eval_mode (ev : event) : Prop :=
  match ev with
  | EvForward mode _ _ => mode = false
  | _ => True
  end.

(** From every state with [Inv], the computation [m], whether it
    returns or raises, ends in a state with [Inv] and emits only events
    with [Q]. *)
Definition preserves {A : Type} (Inv : State -> Prop) (Q : event -> Prop) (m : M A)
  : Prop :=
  forall s, Inv s -> Inv (final (m s)) /\ Forall Q (emitted (m s)).

(** The computation [m] leaves the autograd switch at [g] and computes
    every forward pass and loss under it. *)
Definition grad_kept {A : Type} (g : bool) (m : M A) : Prop :=
  preserves (fun s => grad_enabled s = g) (grad_is g) m.

(** The pictures expected of [evaluate] with the tag [e], in the order
    they are written: the test reconstruction, the test original when
    [e] is 10, the train reconstruction and the train original.  The
    directory is prefixed as it is, no separator is added. *)
Definition pictures (self : Trainer) (e : Z) : list string :=
  [(result_dir self ++ "test_" ++ str_int e ++ ".png")%string]
  ++ (if e =? 10 then [(result_dir self ++ "test_0.png")%string] else [])
  ++ [(result_dir self ++ "train_" ++ str_int e ++ ".png")%string;
      (result_dir self ++ "train_" ++ str_int e ++ "_origin.png")%string].

(** The dataset of the loader has a first sample, of 1 * 2048 * 3
    numbers. *)
Definition has_sample (l : loader) : Prop :=
  exists t rest, loader_dataset l = t :: rest /\ numel (fst t) = 1 * 2048 * 3.

(** The configurations with which no statement of [train] raises: the
    three divisors are not zero and both datasets start with a sample
    that [view(1, 2048, 3)] accepts. *)
Definition well_configured (self : Trainer) : Prop :=
  batch_size self <> 0 /\
  scheduler_interval self <> 0 /\
  snapshot_interval self <> 0 /\
  has_sample (test_loader self) /\
  has_sample (train_loader self).

(** Among the floats of [l] the comparison [<] behaves as on numbers:
    it is transitive, and what is below [b] is below everything that is
    not below [b].  Floats that are not nan, finite or infinite, are
    so; a nan among them can break the second condition, since nothing
    is below it and it is below nothing. *)
Definition ordered (l : list float) : Prop :=
  (forall a b c : float,
      In a l -> In b l -> In c l -> flt a b = true -> flt b c = true -> flt a c = true) /\
  (forall a b c : float,
      In a l -> In b l -> In c l -> flt a b = true -> flt c b = false -> flt a c = true).

(** A float that [<] tells from some float.  A nan is none: every
    comparison with it is false. *)
Definition is_number (x : float) : Prop :=
  exists y : float, flt x y = true \/ flt y x = true.

(** The comparison of a float type that orders its numbers, as the one
    of the IEEE floats does: [<] is transitive, and what is below [b] is
    below every number that is not below [b]. *)
Definition numbers_ordered : Prop :=
  (forall a b c : float, flt a b = true -> flt b c = true -> flt a c = true) /\
  (forall a b c : float,
      is_number c -> flt a b = true -> flt c b = false -> flt a c = true).

(** The "best" checkpoint is among the checkpoints written. *)
Definition best_saved (T : list event) : Prop := In (TagStr "best") (snapshot_tags T).

(** The result [evaluate] returned last in [T], if any. *)
Definition last_result (T : list event) : option Res := hd_error (rev (evaluate_results T)).

(** The events that show the control flow of [train]: calls and
    returns of [evaluate], checkpoints, scheduler steps and logged
    scalars. *)
Definition control_event (ev : event) : bool :=
  match ev with
  | EvEvaluate _ | EvEvaluated _ _ | EvTorchSave _ _ _ | EvSchedulerStep
  | EvAddScalar _ _ _ => true
  | _ => false
  end.

Definition skeleton (T : list event) : list event := filter control_event T.

(** The file [_snapshot] writes for the tag [t]. *)
Definition snapshot_path (self : Trainer) (t : Tag) : string :=
  (path_join (save_dir self) (dataset self) ++ "_" ++ str t ++ ".pkl")%string.

(** The test of line 55: [(epoch + 1) % 10 == 0 or epoch == 0]. *)
Definition evaluation_due (ep : Z) : bool := ((ep + 1) mod 10 =? 0) || (ep =? 0).

(** The iterations of a loop started with the locals [acc] in the state
    [s]: the loop variable of each and the events it emitted.  The list
    stops after an iteration that raises. *)
Fixpoint loop_iterations {X Acc : Type} (xs : list X) (body : X -> Acc -> M Acc)
         (acc : Acc) (s : State) : list (X * list event) :=
  match xs with
  | [] => []
  | x :: rest =>
      let o := body x acc s in
      (x, emitted o) ::
      match value o with
      | Ok acc' => loop_iterations rest body acc' (final o)
      | Raise _ => []
      end
  end.

(** The state in which the loop of [train] starts: the history is
    reset, the clock has been read once and the model is in training
    mode. *)
Definition train_start (s : State) : State :=
  mkState (net s) true (grad_enabled s) (mkHist [] [] []) (S (ticks s)).

(** The locals with which the loop of [train] starts. *)
Definition initial_locals : Locals := mkLocals (of_int 1000000000) None.

(** The iterations of the loop of a call of [train] in the state [s]. *)
Definition train_iterations (self : Trainer) (s : State) : list (Z * list event) :=
  loop_iterations (range (epoch self)) (train_body self) initial_locals (train_start s).

(** The floats that the test of line 57, [res['loss'] < best_loss],
    compares in a call of [train] in the state [s]: the initial
    [best_loss] and the losses that [evaluate] returns. *)
Definition compared_losses (self : Trainer) (s : State) : list float :=
  of_int 1000000000 :: map loss (evaluate_results (emitted (train self s))).

End Observations.

(** ** What a run does to the network and the files

    Further observations: the failing runs, the updates of an epoch,
    the checks of the first iteration, the files written. *)

Section Effects.
Context {fw : Framework}.

(** A run of [m] from [s] that raises [e]: it has emitted [T] and left
    the state [s'] when the exception leaves [m]. *)
Definition fails {A : Type} (m : M A) (s : State) (T : list event) (s' : State) (e : exn)
  : Prop :=
  m s = mkOutcome T s' (Raise e).

(** One update of [train_epoch], on the batch [b], of the network [n]
    with the model in mode [mode]: [zero_grad], the forward pass, the
    backward pass of its loss and the optimizer step. *)
Definition update (self : Trainer) (mode : bool) (n : Net) (b : Tensor storage * label)
  : Net :=
  let pts := to_device self (fst b) in
  let n0 := zero_grad n in
  optimizer_step (backward n0 pts (forward n0 mode pts)).

(** The loss [train_epoch] appends to [loss_buf] for the batch [b]: the
    one the network has before the update. *)
Definition update_loss (self : Trainer) (mode : bool) (n : Net)
           (b : Tensor storage * label) : float :=
  batch_loss (zero_grad n) mode (to_device self (fst b)).

(** The losses of one pass of updates over the batches [bs]. *)
Fixpoint epoch_losses (self : Trainer) (mode : bool) (n : Net)
         (bs : list (Tensor storage * label)) : list float :=
  match bs with
  | [] => []
  | b :: rest => update_loss self mode n b :: epoch_losses self mode (update self mode n b) rest
  end.

(** One entry per call of [optimizer.step()]. *)
Definition optimizer_steps (T : list event) : list unit :=
  flat_map (fun ev => match ev with EvOptimizerStep => [tt] | _ => [] end) T.

(** The mode of the model in each forward pass, in order. *)
Definition forward_modes (T : list event) : list bool :=
  flat_map (fun ev => match ev with EvForward mode _ _ => [mode] | _ => [] end) T.

(** The batch numbers of the progress lines printed, in order. *)
Definition progress_lines (T : list event) : list Z :=
  flat_map (fun ev => match ev with
                      | EvPrint (MsgProgress _ it _ _ _) => [it]
                      | _ => []
                      end) T.

(** The epoch numbers of the end-of-epoch lines printed, in order. *)
Definition epoch_lines (T : list event) : list Z :=
  flat_map (fun ev => match ev with
                      | EvPrint (MsgEpoch ep _ _) => [ep]
                      | _ => []
                      end) T.

(** What [evaluate] asks of the dataset of a loader: a first sample,
    [dataset[0]], that [view(1, 2048, 3)] accepts. *)
Definition check_sample (l : DataLoader storage label) : result unit :=
  match loader_dataset l with
  | [] => Raise IndexError
  | sample :: _ =>
      match view [1; 2048; 3] (fst sample) with
      | Ok _ => Ok tt
      | Raise e => Raise e
      end
  end.

(** The network after one pass of updates over the train loader, made
    in mode [mode] from the network [n]. *)
Definition epoch_net (self : Trainer) (mode : bool) (n : Net) : Net :=
  fold_left (update self mode) (batches (train_loader self)) n.

(** The loss of one such pass: the mean that [train_epoch] records. *)
Definition epoch_loss (self : Trainer) (mode : bool) (n : Net) : float :=
  np_mean (epoch_losses self mode n (batches (train_loader self))).

(** The loss [evaluate] returns for the network [n]. *)
Definition evaluated_loss (self : Trainer) (n : Net) : float :=
  np_mean (map (fun b => batch_loss n false (to_device self (fst b)))
               (batches (train_loader self))).

(** The network after the scheduler step of the iteration [ep], which
    is taken when [ep % scheduler_interval == 0]. *)
Definition stepped (self : Trainer) (ep : Z) (n : Net) : Net :=
  if ep mod scheduler_interval self =? 0 then scheduler_step n else n.

(** The network after the iterations [eps] of the loop of [train]. *)
Definition trained (self : Trainer) (n : Net) (eps : list Z) : Net :=
  fold_left (fun n ep => stepped self ep (epoch_net self true n)) eps n.

(** The checkpoints written: tag, file and parameters, in order. *)
Definition saves (T : list event) : list (Tag * string * Net) :=
  flat_map (fun ev => match ev with EvTorchSave t p n => [(t, p, n)] | _ => [] end) T.

(** The control events of the iteration [ep] of the loop of [train]
    that starts with the network [n] in mode [mode] and the locals
    [loc], and ends with [res] bound to [r']. *)
Definition iteration_skeleton (self : Trainer) (ep : Z) (mode : bool) (n : Net)
           (loc : Locals) (r' : Res) : list event :=
  let n1 := epoch_net self mode n in
  let n2 := stepped self ep n1 in
  (if evaluation_due ep then
     [EvEvaluate (ep + 1); EvEvaluated (ep + 1) (mkRes (evaluated_loss self n1))]
     ++ (if flt (evaluated_loss self n1) (best_loss loc)
         then [EvTorchSave (TagStr "best") (snapshot_path self (TagStr "best")) n1]
         else [])
   else [])
  ++ (if ep mod scheduler_interval self =? 0 then [EvSchedulerStep] else [])
  ++ (if (ep + 1) mod snapshot_interval self =? 0
      then [EvTorchSave (TagInt (ep + 1)) (snapshot_path self (TagInt (ep + 1))) n2]
      else [])
  ++ [EvAddScalar "Train Loss" (epoch_loss self mode n) ep;
      EvAddScalar "Learning Rate" (get_lr n2) ep;
      EvAddScalar "Test Loss" (loss r') ep].

(** The statements of the first iteration of the loop of [train] that
    can raise, in the order in which they are executed: the division by
    the batch size, the two samples of [evaluate], the two remainders. *)
Definition configuration_check (self : Trainer) : result unit :=
  if batch_size self =? 0 then Raise ZeroDivisionError
  else match check_sample (test_loader self) with
       | Raise e => Raise e
       | Ok _ =>
           match check_sample (train_loader self) with
           | Raise e => Raise e
           | Ok _ =>
               if scheduler_interval self =? 0 then Raise ZeroDivisionError
               else if snapshot_interval self =? 0 then Raise ZeroDivisionError
               else Ok tt
           end
       end.

(** The checkpoints written to the file [p]: tag and parameters, in
    order.  The last one is what the file holds afterwards. *)
Definition writes_to (p : string) (T : list event) : list (Tag * Net) :=
  flat_map (fun ev => match ev with
                      | EvTorchSave t q n => if String.eqb q p then [(t, n)] else []
                      | _ => []
                      end) T.


End Effects.

(** ** A deterministic stub of the collaborators

    Floats are exact rationals.  A tensor's storage holds the loss the
    stub model reports for it, the network counts the optimizer steps
    made so far, and the clock advances by one second per reading.
    ([np.mean] of an empty list is nan in NumPy; the rationals have no
    nan, and the loaders used with the stub below are never empty.) *)
Module Stub.

Definition qlt (a b : Q) : bool := negb (Qle_bool b a).

Definition mean (l : list Q) : Q :=
  Qred (fold_right Qplus 0%Q l / inject_Z (Z.of_nat (List.length l))).

#[export] Instance fw : Framework := {|
  float := Q;
  flt := qlt;
  fsub := fun a b => Qred (a - b);
  of_int := inject_Z;
  np_mean := mean;
  storage := Q;
  label := unit;
  Net := nat;
  forward := fun _ _ t => t;
  get_loss := fun _ pts _ => data pts;
  zero_grad := fun n => n;
  backward := fun n _ _ => n;
  optimizer_step := S;
  scheduler_step := fun n => n;
  get_lr := fun _ => 1%Q;
  index0 := fun t => mkTensor (tl (shape t)) (on_gpu t) (data t);
  figure := Tensor Q;
  draw_pts := fun t => t;
  clock := fun n => inject_Z (Z.of_nat n)
|}.

(** A point cloud of [n] three-dimensional points whose loss is [q]. *)
Definition cloud (n : Z) (q : Q) : Tensor Q * unit := (mkTensor [n; 3] false q, tt).

(** A batch of [b] such clouds. *)
Definition batch (b n : Z) (q : Q) : Tensor Q * unit :=
  (mkTensor [b; n; 3] false q, tt).

(** A loader over one sample, yielding one batch per listed loss. *)
Definition stub_loader (n : Z) (losses : list Q) : DataLoader Q unit :=
  mkLoader [cloud n (hd 0%Q losses)] (map (batch 1 n) losses).

Definition stub_trainer (epochs k m : Z) (train_losses test_losses : list Q) : Trainer :=
  mkTrainer epochs 2048 1 "shapenet" "snapshot" "results/" false false k m
            (stub_loader 2048 train_losses) (stub_loader 2048 test_losses).

(** The state of a fresh process: an untrained network in training
    mode, autograd switched on (the default of PyTorch). *)
Definition start : State := mkState 0%nat true true (mkHist [] [] []) 0%nat.

(** Runs of 2, 12 and 90 epochs; the batches of the train loader have
    the losses 3 and 1, the one of the test loader the loss 7. *)
Definition run2 : Trainer := stub_trainer 2 1 1 [3%Q; 1%Q] [7%Q].
Definition run12 : Trainer := stub_trainer 12 5 4 [3%Q; 1%Q] [7%Q].
Definition run90 : Trainer := stub_trainer 90 30 25 [3%Q; 1%Q] [7%Q].

(** A run of one epoch whose loss is 2000000000. *)
Definition huge_loss : Trainer := stub_trainer 1 1 1 [2000000000%Q] [7%Q].

(** The iterations of a run in which [evaluate] was entered. *)
Definition evaluations (its : list (Z * list event)) : list (Z * list event) :=
  filter (fun it => match evaluate_calls (snd it) with [] => false | _ => true end) its.

End Stub.

(** ** Further configurations of the stub *)
Module Cases.

(** A trainer of the stub with every attribute given. *)
Definition trainer (epochs batch : Z) (gpu verb : bool) (k m : Z)
           (train_set test_set : DataLoader Q unit) : Trainer :=
  @mkTrainer Stub.fw epochs 2048 batch "shapenet" "snapshot" "results/" gpu verb k m
             train_set test_set.

Definition train_set : DataLoader Q unit := Stub.stub_loader 2048 [3%Q; 1%Q].
Definition test_set : DataLoader Q unit := Stub.stub_loader 2048 [7%Q].

(** A batch size of zero. *)
Definition no_batch_size : Trainer := trainer 3 0 false false 1 1 train_set test_set.

(** A scheduler interval of zero. *)
Definition no_scheduler_interval : Trainer := trainer 3 1 false false 0 1 train_set test_set.

(** No epoch to run, and nothing else that is right. *)
Definition no_epochs : Trainer :=
  trainer 0 0 false false 0 0 (mkLoader [] []) (mkLoader [] []).

(** An empty test set. *)
Definition empty_test_set : Trainer :=
  trainer 3 1 false false 1 1 train_set (mkLoader [] []).

(** A train set whose first sample holds 1024 points. *)
Definition short_sample : Trainer :=
  trainer 3 1 false false 1 1
          (mkLoader [Stub.cloud 1024 3%Q] (map (Stub.batch 1 2048) [3%Q; 1%Q])) test_set.



End Cases.

(** ** A stub whose floats have a nan

    The floats are the rationals and nan, which is [None]: every
    comparison with nan is false, arithmetic on nan gives nan, and the
    mean of no number is nan, as for NumPy.  The loss the model reports
    for a tensor depends on the number of optimizer steps made so far,
    so that the evaluations of one run return different losses. *)
Module NanStub.

Definition lt (a b : option Q) : bool :=
  match a, b with
  | Some x, Some y => Stub.qlt x y
  | _, _ => false
  end.

Definition sub (a b : option Q) : option Q :=
  match a, b with
  | Some x, Some y => Some (Qred (x - y))
  | _, _ => None
  end.

Definition add (a b : option Q) : option Q :=
  match a, b with
  | Some x, Some y => Some (x + y)%Q
  | _, _ => None
  end.

Definition mean (l : list (option Q)) : option Q :=
  match l, fold_right add (Some 0%Q) l with
  | _ :: _, Some t => Some (Qred (t / inject_Z (Z.of_nat (List.length l))))
  | _, _ => None
  end.

#[export] Instance fw : Framework := {|
  float := option Q;
  flt := lt;
  fsub := sub;
  of_int := fun z => Some (inject_Z z);
  np_mean := mean;
  storage := nat -> option Q;
  label := unit;
  Net := nat;
  forward := fun _ _ t => t;
  get_loss := fun n pts _ => data pts n;
  zero_grad := fun n => n;
  backward := fun n _ _ => n;
  optimizer_step := S;
  scheduler_step := fun n => n;
  get_lr := fun _ => Some 1%Q;
  index0 := fun t => mkTensor (tl (shape t)) (on_gpu t) (data t);
  figure := Tensor (nat -> option Q);
  draw_pts := fun t => t;
  clock := fun n => Some (inject_Z (Z.of_nat n))
|}.

(** The loss of a tensor as the training goes on: [early] before the
    fifth optimizer step, [mid] before the fifteenth, [late] after. *)
Definition losses (early mid late : option Q) : nat -> option Q :=
  fun n => if (n <? 5)%nat then early else if (n <? 15)%nat then mid else late.

(** A run of 20 epochs over one batch of one cloud of 2048 points: the
    evaluations of the epochs 1, 10 and 20 find the network after 1, 10
    and 20 optimizer steps, hence the losses [early], [mid] and [late]. *)
Definition run (early mid late : option Q) : Trainer :=
  let l := mkLoader [(mkTensor [2048; 3] false (losses early mid late), tt)]
                    [(mkTensor [1; 2048; 3] false (losses early mid late), tt)] in
  mkTrainer 20 2048 1 "shapenet" "snapshot" "results/" false false 5 7 l l.

Definition start : State := mkState 0%nat true true (mkHist [] [] []) 0%nat.

(** The evaluations return 5, 3 and 4. *)
Definition numbers : Trainer := run (Some 5%Q) (Some 3%Q) (Some 4%Q).

(** The evaluations return 5, nan and 3. *)
Definition with_nan : Trainer := run (Some 5%Q) None (Some 3%Q).

(** What the iterations in which [evaluate] was entered show: the
    index, the losses returned and the tags of the checkpoints. *)
Definition evaluations (its : list (Z * list event))
  : list (Z * list (option Q) * list Tag) :=
  flat_map (fun it => match evaluate_calls (snd it) with
                      | [] => []
                      | _ => [(fst it, map loss (evaluate_results (snd it)),
                               snapshot_tags (snd it))]
                      end) its.

End NanStub.

(** * Reasoning about runs *)

Section Runs.
Context {fw : Framework}.

Lemma runs_intro {A : Type} (m : M A) (s : State) (a : A) :
  value (m s) = Ok a -> runs m s (emitted (m s)) (final (m s)) a.
Proof.
  unfold runs. destruct (m s) as [T s' v]; simpl. intros ->. reflexivity.
Qed.

Lemma runs_value {A : Type} (m : M A) s T s' (a : A) :
  runs m s T s' a -> value (m s) = Ok a.
Proof. unfold runs. intros ->. reflexivity. Qed.

Lemma runs_emitted {A : Type} (m : M A) s T s' (a : A) :
  runs m s T s' a -> emitted (m s) = T.
Proof. unfold runs. intros ->. reflexivity. Qed.

Lemma runs_final {A : Type} (m : M A) s T s' (a : A) :
  runs m s T s' a -> final (m s) = s'.
Proof. unfold runs. intros ->. reflexivity. Qed.

Lemma runs_bind {A B : Type} (m : M A) (f : A -> M B) s T s' (b : B) :
  runs (bind m f) s T s' b ->
  exists a T1 s1 T2,
    runs m s T1 s1 a /\ runs (f a) s1 T2 s' b /\ T = T1 ++ T2.
Proof.
  unfold runs, bind. destruct (m s) as [T1 s1 [a | e]]; simpl.
  - destruct (f a s1) as [T2 s2 v] eqn:Hf; simpl. intros H. inversion H; subst.
    exists a, T1, s1, T2. rewrite Hf. auto.
  - discriminate.
Qed.

Lemma bind_runs {A B : Type} (m : M A) (f : A -> M B) s T1 s1 a T2 s' (b : B) :
  runs m s T1 s1 a -> runs (f a) s1 T2 s' b -> runs (bind m f) s (T1 ++ T2) s' b.
Proof.
  unfold runs, bind. intros -> . simpl. intros ->. reflexivity.
Qed.

Lemma runs_ret {A : Type} (a a' : A) s T s' :
  runs (ret a) s T s' a' -> T = [] /\ s' = s /\ a' = a.
Proof. unfold runs, ret. intros H. inversion H. auto. Qed.

Lemma runs_raise {A : Type} (e : exn) s T s' (a : A) :
  runs (raise e) s T s' a -> False.
Proof. unfold runs, raise. discriminate. Qed.

Lemma runs_emit (ev : event) s T s' u :
  runs (emit ev) s T s' u -> T = [ev] /\ s' = s.
Proof. unfold runs, emit. intros H. inversion H. auto. Qed.

Lemma runs_get s T s' s0 :
  runs get s T s' s0 -> T = [] /\ s' = s /\ s0 = s.
Proof. unfold runs, get. intros H. inversion H. auto. Qed.

Lemma runs_modify (f : State -> State) s T s' u :
  runs (modify f) s T s' u -> T = [] /\ s' = f s.
Proof. unfold runs, modify. intros H. inversion H. auto. Qed.

Lemma runs_lift {A : Type} (r : result A) s T s' (a : A) :
  runs (lift r) s T s' a -> r = Ok a /\ T = [] /\ s' = s.
Proof.
  destruct r as [x | e]; simpl; intros H.
  - apply runs_ret in H. destruct H as (-> & -> & ->). auto.
  - apply runs_raise in H. contradiction.
Qed.

Lemma runs_first {A : Type} (l : list A) s T s' (a : A) :
  runs (first l) s T s' a -> (exists rest, l = a :: rest) /\ T = [] /\ s' = s.
Proof.
  destruct l as [| x rest]; simpl; intros H.
  - apply runs_raise in H. contradiction.
  - apply runs_ret in H. destruct H as (-> & -> & ->). eauto.
Qed.

Lemma for_each_nil {X Acc : Type} (body : X -> Acc -> M Acc) (acc : Acc) :
  for_each [] body acc = ret acc.
Proof. reflexivity. Qed.

Lemma for_each_cons {X Acc : Type} (x : X) (xs : list X) (body : X -> Acc -> M Acc)
      (acc : Acc) :
  for_each (x :: xs) body acc = bind (body x acc) (fun acc' => for_each xs body acc').
Proof. reflexivity. Qed.

Lemma runs_time_time s T s' (t : float) :
  runs time_time s T s' t ->
  T = [] /\
  s' = mkState (net s) (training s) (grad_enabled s) (train_hist s) (S (ticks s)) /\
  t = clock (ticks s).
Proof. unfold runs, time_time, bind, get, modify, ret. simpl. intros H. inversion H. auto. Qed.

Lemma runs_set_training (b : bool) s T s' u :
  runs (set_training b) s T s' u ->
  T = [] /\ s' = mkState (net s) b (grad_enabled s) (train_hist s) (ticks s).
Proof. unfold runs, set_training, modify. intros H. inversion H. auto. Qed.

Lemma runs_set_train_hist (h : TrainHist) s T s' u :
  runs (set_train_hist h) s T s' u ->
  T = [] /\ s' = mkState (net s) (training s) (grad_enabled s) h (ticks s).
Proof. unfold runs, set_train_hist, modify. intros H. inversion H. auto. Qed.

Lemma runs_call_model (pts : Tensor storage) s T s' out :
  runs (call_model pts) s T s' out ->
  T = [EvForward (training s) (grad_enabled s) pts] /\ s' = s /\
  out = forward (net s) (training s) pts.
Proof. unfold runs, call_model, bind, get, emit, ret. simpl. intros H. inversion H. auto. Qed.

Lemma runs_call_get_loss (pts output : Tensor storage) s T s' l :
  runs (call_get_loss pts output) s T s' l ->
  T = [EvGetLoss (grad_enabled s) (get_loss (net s) pts output)] /\ s' = s /\
  l = get_loss (net s) pts output.
Proof. unfold runs, call_get_loss, bind, get, emit, ret. simpl. intros H. inversion H. auto. Qed.

Lemma runs_call_zero_grad s T s' u :
  runs call_zero_grad s T s' u ->
  T = [] /\
  s' = mkState (zero_grad (net s)) (training s) (grad_enabled s) (train_hist s) (ticks s).
Proof. unfold runs, call_zero_grad, set_net, bind, get, modify. simpl. intros H. inversion H. auto. Qed.

Lemma runs_call_backward (pts output : Tensor storage) s T s' u :
  runs (call_backward pts output) s T s' u ->
  T = [] /\
  s' = mkState (backward (net s) pts output) (training s) (grad_enabled s)
               (train_hist s) (ticks s).
Proof. unfold runs, call_backward, set_net, bind, get, modify. simpl. intros H. inversion H. auto. Qed.

Lemma runs_call_optimizer_step s T s' u :
  runs call_optimizer_step s T s' u ->
  T = [EvOptimizerStep] /\
  s' = mkState (optimizer_step (net s)) (training s) (grad_enabled s)
               (train_hist s) (ticks s).
Proof.
  unfold runs, call_optimizer_step, set_net, bind, get, modify, emit. simpl.
  intros H. inversion H. auto.
Qed.

Lemma runs_call_scheduler_step s T s' u :
  runs call_scheduler_step s T s' u ->
  T = [EvSchedulerStep] /\
  s' = mkState (scheduler_step (net s)) (training s) (grad_enabled s)
               (train_hist s) (ticks s).
Proof.
  unfold runs, call_scheduler_step, set_net, bind, get, modify, emit. simpl.
  intros H. inversion H. auto.
Qed.

Lemma runs_snapshot (self : Trainer) (t : Tag) s T s' u :
  runs (_snapshot self t) s T s' u ->
  s' = s /\
  T = [EvTorchSave t (snapshot_path self t) (net s);
       EvPrint (MsgSaved (snapshot_path self t))].
Proof.
  unfold runs, _snapshot, snapshot_path, bind, get, emit. simpl.
  intros H. inversion H. auto.
Qed.

Lemma runs_last_item {A : Type} (l : list A) s T s' (a : A) :
  runs (last_item l) s T s' a -> (exists front, l = front ++ [a]) /\ T = [] /\ s' = s.
Proof.
  unfold last_item. destruct (rev l) as [| x rest] eqn:E; intros H.
  - apply runs_raise in H. contradiction.
  - apply runs_ret in H. destruct H as (-> & -> & ->).
    split; [| auto]. exists (rev rest).
    rewrite <- (rev_involutive l), E. reflexivity.
Qed.

Lemma runs_read_res (loc : Locals) s T s' (r : Res) :
  runs (read_res loc) s T s' r -> res loc = Some r /\ T = [] /\ s' = s.
Proof.
  unfold read_res. destruct (res loc) as [r0 |]; intros H.
  - apply runs_ret in H. destruct H as (-> & -> & ->). auto.
  - apply runs_raise in H. contradiction.
Qed.

Lemma runs_py_mod (a b m : Z) : py_mod a b = Ok m -> b <> 0 /\ m = a mod b.
Proof.
  unfold py_mod. destruct (Z.eqb_spec b 0); [discriminate |].
  intros H. inversion H. auto.
Qed.

End Runs.

(** Inversion of a completed run, statement by statement. *)
Ltac run_step H :=
  match type of H with
  | runs (bind _ _) _ _ _ _ =>
      let a := fresh "a" in
      let T1 := fresh "T" in
      let s1 := fresh "s" in
      let T2 := fresh "T" in
      let H1 := fresh "Hrun" in
      let H2 := fresh "Hrun" in
      let HT := fresh "HT" in
      apply runs_bind in H;
      destruct H as (a & T1 & s1 & T2 & H1 & H2 & HT);
      run_step H1; run_step H2
  | runs (ret _) _ _ _ _ =>
      apply runs_ret in H; destruct H as (? & ? & ?)
  | runs (raise _) _ _ _ _ =>
      apply runs_raise in H; contradiction
  | runs (emit _) _ _ _ _ =>
      apply runs_emit in H; destruct H as (? & ?)
  | runs get _ _ _ _ =>
      apply runs_get in H; destruct H as (? & ? & ?)
  | runs (modify _) _ _ _ _ =>
      apply runs_modify in H; destruct H as (? & ?)
  | runs (lift _) _ _ _ _ =>
      apply runs_lift in H; destruct H as (? & ? & ?)
  | runs (first _) _ _ _ _ =>
      apply runs_first in H; destruct H as ((? & ?) & ? & ?)
  | runs time_time _ _ _ _ =>
      apply runs_time_time in H; destruct H as (? & ? & ?)
  | runs (set_training _) _ _ _ _ =>
      apply runs_set_training in H; destruct H as (? & ?)
  | runs (set_train_hist _) _ _ _ _ =>
      apply runs_set_train_hist in H; destruct H as (? & ?)
  | runs (call_model _) _ _ _ _ =>
      apply runs_call_model in H; destruct H as (? & ? & ?)
  | runs (call_get_loss _ _) _ _ _ _ =>
      apply runs_call_get_loss in H; destruct H as (? & ? & ?)
  | runs call_zero_grad _ _ _ _ =>
      apply runs_call_zero_grad in H; destruct H as (? & ?)
  | runs (call_backward _ _) _ _ _ _ =>
      apply runs_call_backward in H; destruct H as (? & ?)
  | runs call_optimizer_step _ _ _ _ =>
      apply runs_call_optimizer_step in H; destruct H as (? & ?)
  | runs call_scheduler_step _ _ _ _ =>
      apply runs_call_scheduler_step in H; destruct H as (? & ?)
  | runs (_snapshot _ _) _ _ _ _ =>
      apply runs_snapshot in H; destruct H as (? & ?)
  | runs (last_item _) _ _ _ _ =>
      apply runs_last_item in H; destruct H as ((? & ?) & ? & ?)
  | runs (read_res _) _ _ _ _ =>
      apply runs_read_res in H; destruct H as (? & ? & ?)
  | _ => idtac
  end.

Section Evaluate.
Context {fw : Framework}.

Lemma length_range (n : Z) : List.length (range n) = Z.to_nat n.
Proof. unfold range. rewrite length_map, length_seq. reflexivity. Qed.

Lemma map_snd_enumerate {A : Type} (xs : list A) : map snd (enumerate xs) = xs.
Proof.
  unfold enumerate.
  assert (H : forall (l : list Z) (ys : list A),
             List.length l = List.length ys -> map snd (combine l ys) = ys).
  { induction l as [| z l IH]; destruct ys as [| y ys]; simpl; try discriminate; auto.
    intros H. f_equal. apply IH. lia. }
  apply H. rewrite length_range. lia.
Qed.

(** The loss loop of [evaluate] never raises and leaves the state as it
    is: it emits a forward pass and a loss per batch. *)
Lemma evaluate_loop (self : Trainer) (xs : list (Z * (Tensor storage * label)))
      (acc : list float) (s : State) :
  for_each xs (eval_batch self) acc s
  = mkOutcome (flat_map (eval_batch_events self s) (map snd xs)) s
              (Ok (acc ++ map (fun b => batch_loss (net s) (training s)
                                           (to_device self (fst b))) (map snd xs))).
Proof.
  revert acc. induction xs as [| [iter [pts lbl]] xs IH]; intros acc; simpl.
  - unfold ret. rewrite app_nil_r. reflexivity.
  - unfold bind at 1. cbn -[for_each flat_map map]. rewrite IH. simpl.
    rewrite <- app_assoc. reflexivity.
Qed.

Lemma numel_to_device (self : Trainer) (pts : Tensor storage) :
  numel (to_device self pts) = numel pts.
Proof. unfold to_device. destruct (gpu_mode self); reflexivity. Qed.

Lemma view_ok (dims : list Z) (t v : Tensor storage) :
  view dims t = Ok v ->
  numel t = prod_dims dims /\ v = mkTensor dims (on_gpu t) (data t).
Proof.
  unfold view. destruct (Z.eqb_spec (numel t) (prod_dims dims)); [| discriminate].
  intros H. inversion H. auto.
Qed.

(** What a completed call of [evaluate] did: both first samples exist
    and hold 6144 numbers, the trace is the loss loop over the batches of
    the train loader followed by the two pictures, the only change of
    state is that the model ends in training mode, and the result is the
    mean of the losses of the loop. *)
Lemma evaluate_spec (self : Trainer) (ep : Z) s T s' (r : Res) :
  runs (evaluate self ep) s T s' r ->
  exists ts rest_test tr rest_train,
    loader_dataset (test_loader self) = ts :: rest_test /\
    loader_dataset (train_loader self) = tr :: rest_train /\
    numel (fst ts) = 6144 /\
    numel (fst tr) = 6144 /\
    T = EvEvaluate ep
        :: flat_map (eval_batch_events self (eval_state s)) (batches (train_loader self))
        ++ test_figures self s ep (to_device self (fst ts))
        ++ train_figures self s ep (to_device self (fst tr))
        ++ [EvEvaluated ep r] /\
    s' = mkState (net s) true (grad_enabled s) (train_hist s) (ticks s) /\
    r = mkRes (np_mean (eval_losses self s (train_loader self))).
Proof.
  unfold evaluate. intros H.
  apply runs_bind in H. destruct H as (u0 & T0 & s0 & T0' & H0 & H & ->).
  run_step H0. subst.
  apply runs_bind in H. destruct H as (u1 & T1 & s1 & T1' & H1 & H & ->).
  unfold set_training in H1. run_step H1. subst.
  apply runs_bind in H. destruct H as (buf & T2 & s2 & T2' & H2 & H & ->).
  unfold runs in H2. rewrite evaluate_loop in H2. inversion H2; subst; clear H2.
  rewrite map_snd_enumerate in *.
  run_step H. subst.
  repeat match goal with
         | Hv : view _ _ = Ok _ |- _ => apply view_ok in Hv; destruct Hv as (? & ?)
         end.
  rewrite numel_to_device in *. subst.
  unfold call_model, call_get_loss, set_training in *.
  repeat match goal with
         | Hr : runs _ _ _ _ _ |- _ => progress (run_step Hr)
         end.
  unfold test_figures, train_figures, reconstruction, reshaped.
  destruct (ep =? 10);
    repeat match goal with
           | Hr : runs _ _ _ _ _ |- _ => progress (run_step Hr)
           end;
    subst; simpl in *;
    match goal with
    | H1 : loader_dataset (test_loader self) = _,
      H2 : loader_dataset (train_loader self) = _ |- _ =>
        eexists _, _, _, _; split; [exact H1 | split; [exact H2 |]]
    end;
    (split; [assumption |]); (split; [assumption |]);
    (split; [| split; reflexivity]);
    f_equal; rewrite ?app_nil_r, <- ?app_assoc; reflexivity.
Qed.

End Evaluate.

Section TrainEpoch.
Context {fw : Framework}.

(** One step of the batch loop of [train_epoch]. *)
Lemma train_batch_spec (self : Trainer) (ep num_batch : Z) (t0 : float)
      (x : Z * (Tensor storage * label)) (loss_buf : list float) s T s'
      (acc' : list float) :
  runs (train_batch self ep num_batch t0 x loss_buf) s T s' acc' ->
  Forall (fun ev => training_event ev = true) T /\
  train_hist s' = train_hist s /\
  training s' = training s /\
  grad_enabled s' = grad_enabled s.
Proof.
  unfold train_batch. cbv zeta. intros H.
  apply runs_bind in H. destruct H as (? & ? & ? & ? & Hz & H & ->).
  apply runs_bind in H. destruct H as (? & ? & ? & ? & Hm & H & ->).
  apply runs_bind in H. destruct H as (? & ? & ? & ? & Hl & H & ->).
  apply runs_bind in H. destruct H as (? & ? & ? & ? & Hb & H & ->).
  apply runs_bind in H. destruct H as (? & ? & ? & ? & Ho & H & ->).
  apply runs_bind in H. destruct H as (? & ? & ? & ? & Hp & H & ->).
  run_step Hz. run_step Hm. run_step Hl. run_step Hb. run_step Ho. run_step H.
  destruct (((fst x + 1) mod 10 =? 0) && verbose self); run_step Hp; subst;
    (split; [repeat (apply Forall_cons; [reflexivity |]); apply Forall_nil
            | repeat split; reflexivity]).
Qed.

(** The batch loop of [train_epoch] emits training events only and
    touches neither the history nor the two mode switches. *)
Lemma train_epoch_loop (self : Trainer) (ep num_batch : Z) (t0 : float)
      (xs : list (Z * (Tensor storage * label))) :
  forall (acc : list float) s T s' (acc' : list float),
    runs (for_each xs (train_batch self ep num_batch t0) acc) s T s' acc' ->
    Forall (fun ev => training_event ev = true) T /\
    train_hist s' = train_hist s /\
    training s' = training s /\
    grad_enabled s' = grad_enabled s.
Proof.
  induction xs as [| x xs IH]; intros acc s T s' acc' H.
  - rewrite for_each_nil in H. run_step H. subst. repeat split. apply Forall_nil.
  - rewrite for_each_cons in H.
    apply runs_bind in H. destruct H as (acc1 & T1 & s1 & T2 & Hbody & Hrest & ->).
    apply IH in Hrest. destruct Hrest as (HT2 & Hh & Htr & Hg).
    apply train_batch_spec in Hbody. destruct Hbody as (HT1 & Hh1 & Htr1 & Hg1).
    split; [apply Forall_app; split; assumption |].
    rewrite Hh, Hh1, Htr, Htr1, Hg, Hg1. repeat split; reflexivity.
Qed.

(** A completed [train_epoch]: the batch size is not zero, only training
    events were emitted, and each of the two per-epoch lists of the
    history has one more entry. *)
Lemma train_epoch_spec (self : Trainer) (ep : Z) (v : bool) s T s' u :
  runs (train_epoch self ep v) s T s' u ->
  batch_size self <> 0 /\
  Forall (fun ev => training_event ev = true) T /\
  (exists l t,
      train_hist s' = mkHist (hist_loss (train_hist s) ++ [l])
                             (per_epoch_time (train_hist s) ++ [t])
                             (total_time (train_hist s))) /\
  training s' = training s /\
  grad_enabled s' = grad_enabled s.
Proof.
  unfold train_epoch. intros H.
  apply runs_bind in H. destruct H as (t0 & T0 & s0 & T0' & H0 & H & ->).
  apply runs_bind in H. destruct H as (nb & T1 & s1 & T1' & H1 & H & ->).
  apply runs_bind in H. destruct H as (buf & T2 & s2 & T2' & H2 & H & ->).
  apply train_epoch_loop in H2. destruct H2 as (HT2 & Hh & Htr & Hg).
  run_step H0. run_step H1. run_step H. subst.
  split.
  { intros Hz. rewrite Hz in *. discriminate. }
  split.
  { repeat (apply Forall_app; split); try apply Forall_nil; try assumption.
    repeat constructor. }
  cbn [train_hist net training grad_enabled ticks hist_loss per_epoch_time total_time].
  rewrite Hh, Htr, Hg.
  cbn [train_hist net training grad_enabled ticks hist_loss per_epoch_time total_time].
  eauto.
Qed.

End TrainEpoch.

Section TrainBody.
Context {fw : Framework}.

Lemma skeleton_app (T1 T2 : list event) : skeleton (T1 ++ T2) = skeleton T1 ++ skeleton T2.
Proof. apply filter_app. Qed.

Lemma skeleton_training (T : list event) :
  Forall (fun ev => training_event ev = true) T -> skeleton T = [].
Proof.
  induction 1 as [| ev T Hev _ IH]; [reflexivity |].
  unfold skeleton in *. cbn [filter]. rewrite IH.
  destruct ev as [m | | | | | | | | |]; try discriminate; try reflexivity.
Qed.

Lemma skeleton_eval_batches (self : Trainer) (s : State)
      (bs : list (Tensor storage * label)) :
  skeleton (flat_map (eval_batch_events self s) bs) = [].
Proof.
  induction bs as [| b bs IH]; [reflexivity |].
  cbn [flat_map]. rewrite skeleton_app, IH. reflexivity.
Qed.

(** Of the events of a completed [evaluate], the skeleton keeps the call
    and the return. *)
Lemma evaluate_skeleton (self : Trainer) (ep : Z) s T s' (r : Res) :
  runs (evaluate self ep) s T s' r ->
  skeleton T = [EvEvaluate ep; EvEvaluated ep r] /\
  train_hist s' = train_hist s /\
  grad_enabled s' = grad_enabled s /\
  r = mkRes (np_mean (eval_losses self s (train_loader self))).
Proof.
  intros H. apply evaluate_spec in H.
  destruct H as (ts & rt & tr & rtr & _ & _ & _ & _ & -> & -> & Hr).
  split; [| split; [reflexivity | split; [reflexivity | exact Hr]]].
  change (EvEvaluate ep :: ?l) with ([EvEvaluate ep] ++ l).
  rewrite !skeleton_app, skeleton_eval_batches.
  unfold test_figures. destruct (ep =? 10); reflexivity.
Qed.

(** What one completed iteration of the loop of [train] did.  The three
    divisors are not zero; the history has one more loss and one more
    epoch time; the skeleton of its trace is, in order: when an
    evaluation is due, the call and return of [evaluate] and the "best"
    checkpoint if the loss is below [best_loss]; the scheduler step if
    due; the numbered checkpoint if due; the three scalars.  Afterwards
    [res] is bound. *)
Lemma train_body_spec (self : Trainer) (ep : Z) (loc : Locals) s T s' (loc' : Locals) :
  runs (train_body self ep loc) s T s' loc' ->
  batch_size self <> 0 /\
  scheduler_interval self <> 0 /\
  snapshot_interval self <> 0 /\
  (exists l t,
      train_hist s' = mkHist (hist_loss (train_hist s) ++ [l])
                             (per_epoch_time (train_hist s) ++ [t])
                             (total_time (train_hist s))) /\
  grad_enabled s' = grad_enabled s /\
  exists Se n1 l lr r',
    skeleton T =
      Se
      ++ (if ep mod scheduler_interval self =? 0 then [EvSchedulerStep] else [])
      ++ (if (ep + 1) mod snapshot_interval self =? 0
          then [EvTorchSave (TagInt (ep + 1)) (snapshot_path self (TagInt (ep + 1))) n1]
          else [])
      ++ [EvAddScalar "Train Loss" l ep; EvAddScalar "Learning Rate" lr ep;
          EvAddScalar "Test Loss" (loss r') ep] /\
    res loc' = Some r' /\
    if evaluation_due ep then
      exists r n0,
        Se = EvEvaluate (ep + 1) :: EvEvaluated (ep + 1) r
             :: (if flt (loss r) (best_loss loc)
                 then [EvTorchSave (TagStr "best") (snapshot_path self (TagStr "best")) n0]
                 else []) /\
        loc' = mkLocals (if flt (loss r) (best_loss loc) then loss r else best_loss loc)
                        (Some r)
    else Se = [] /\ loc' = loc.
Proof.
  unfold train_body, evaluation_due. intros H.
  apply runs_bind in H. destruct H as (u0 & T0 & s0 & T0' & Htrain & H & ->).
  apply runs_bind in H. destruct H as (loc1 & T1 & s1 & T1' & Heval & H & ->).
  apply runs_bind in H. destruct H as (m & T2 & s2 & T2' & Hm & H & ->).
  apply runs_bind in H. destruct H as (u3 & T3 & s3 & T3' & Hsched & H & ->).
  apply runs_bind in H. destruct H as (m' & T4 & s4 & T4' & Hm' & H & ->).
  apply runs_bind in H. destruct H as (u5 & T5 & s5 & T5' & Hsnap & H & ->).
  apply train_epoch_spec in Htrain.
  destruct Htrain as (Hbs & HT0 & (l0 & t0 & Hhist0) & _ & Hg0).
  run_step Hm. run_step Hm'.
  match goal with Hx : py_mod ep _ = Ok _ |- _ =>
    apply runs_py_mod in Hx; destruct Hx as (HK & ->) end.
  match goal with Hx : py_mod (ep + 1) _ = Ok _ |- _ =>
    apply runs_py_mod in Hx; destruct Hx as (HM & ->) end.
  run_step H. subst.
  (* the three conditionals *)
  assert (Hs : exists Se,
             skeleton T1 = Se /\ train_hist s1 = train_hist s0 /\
             grad_enabled s1 = grad_enabled s0 /\
             if ((ep + 1) mod 10 =? 0) || (ep =? 0) then
               exists r n0,
                 Se = EvEvaluate (ep + 1) :: EvEvaluated (ep + 1) r
                      :: (if flt (loss r) (best_loss loc)
                          then [EvTorchSave (TagStr "best")
                                            (snapshot_path self (TagStr "best")) n0]
                          else []) /\
                 loc1 = mkLocals (if flt (loss r) (best_loss loc)
                                  then loss r else best_loss loc) (Some r)
             else Se = [] /\ loc1 = loc).
  { destruct (((ep + 1) mod 10 =? 0) || (ep =? 0)).
    - apply runs_bind in Heval. destruct Heval as (r & Te & se & Te' & He & Hb & ->).
      apply evaluate_skeleton in He. destruct He as (Hsk & Hh & Hg & _).
      destruct (flt (loss r) (best_loss loc)) eqn:Hlt; run_step Hb; subst.
      + eexists. split; [| split; [exact Hh | split; [exact Hg |]]].
        * rewrite !skeleton_app, Hsk. reflexivity.
        * exists r, (net se). rewrite Hlt. split; reflexivity.
      + eexists. split; [| split; [exact Hh | split; [exact Hg |]]].
        * rewrite !skeleton_app, Hsk. reflexivity.
        * exists r, (net se). rewrite Hlt. split; reflexivity.
    - run_step Heval. subst. exists []. repeat split; reflexivity. }
  destruct Hs as (Se & HSe & Hh1 & Hg1 & Hcase).
  assert (Hs3 : skeleton T3 = (if ep mod scheduler_interval self =? 0
                               then [EvSchedulerStep] else []) /\
                train_hist s3 = train_hist s1 /\ grad_enabled s3 = grad_enabled s1).
  { destruct (ep mod scheduler_interval self =? 0); run_step Hsched; subst;
      repeat split; reflexivity. }
  destruct Hs3 as (HS3 & Hh3 & Hg3).
  assert (Hs5 : skeleton T5 = (if (ep + 1) mod snapshot_interval self =? 0
                               then [EvTorchSave (TagInt (ep + 1))
                                       (snapshot_path self (TagInt (ep + 1))) (net s3)]
                               else []) /\
                s5 = s3).
  { destruct ((ep + 1) mod snapshot_interval self =? 0); run_step Hsnap; subst;
      repeat split; reflexivity. }
  destruct Hs5 as (HS5 & ->).
  split; [exact Hbs |]. split; [exact HK |]. split; [exact HM |].
  split. { exists l0, t0. rewrite Hh3, Hh1. exact Hhist0. }
  split. { rewrite Hg3, Hg1. exact Hg0. }
  match goal with Hr : res loc1 = Some ?r |- _ =>
    exists Se, (net s3); eexists _, _, r; split; [| split; [exact Hr | exact Hcase]]
  end.
  rewrite !skeleton_app, (skeleton_training _ HT0), HSe, HS3, HS5.
  reflexivity.
Qed.

End TrainBody.

Section Train.
Context {fw : Framework}.

Lemma loop_iterations_cons {X Acc : Type} (x : X) (xs : list X) (body : X -> Acc -> M Acc)
      (acc : Acc) s T1 s1 (acc1 : Acc) :
  runs (body x acc) s T1 s1 acc1 ->
  loop_iterations (x :: xs) body acc s = (x, T1) :: loop_iterations xs body acc1 s1.
Proof. unfold runs. intros H. cbn [loop_iterations]. rewrite H. reflexivity. Qed.

(** The trace of a completed loop is the concatenation of the traces of
    its iterations, one per element. *)
Lemma for_each_iterations {X Acc : Type} (body : X -> Acc -> M Acc) (xs : list X) :
  forall (acc : Acc) s T s' (acc' : Acc),
    runs (for_each xs body acc) s T s' acc' ->
    T = List.concat (map snd (loop_iterations xs body acc s)) /\
    map fst (loop_iterations xs body acc s) = xs.
Proof.
  induction xs as [| x xs IH]; intros acc s T s' acc' H.
  - rewrite for_each_nil in H. run_step H. subst. split; reflexivity.
  - rewrite for_each_cons in H.
    apply runs_bind in H. destruct H as (acc1 & T1 & s1 & T2 & Hbody & Hrest & ->).
    rewrite (loop_iterations_cons _ _ _ _ _ _ _ _ Hbody).
    apply IH in Hrest. destruct Hrest as (-> & Hfst).
    cbn [map List.concat fst snd]. rewrite Hfst. split; reflexivity.
Qed.

(** A property of every completed iteration holds of every iteration of
    a completed loop. *)
Lemma for_each_iterations_all {X Acc : Type} (body : X -> Acc -> M Acc)
      (P : X -> list event -> Prop) :
  (forall x acc s T s' acc', runs (body x acc) s T s' acc' -> P x T) ->
  forall xs (acc : Acc) s T s' (acc' : Acc),
    runs (for_each xs body acc) s T s' acc' ->
    forall x evs, In (x, evs) (loop_iterations xs body acc s) -> P x evs.
Proof.
  intros HP. induction xs as [| x xs IH]; intros acc s T s' acc' H y evs Hin.
  - contradiction.
  - rewrite for_each_cons in H.
    apply runs_bind in H. destruct H as (acc1 & T1 & s1 & T2 & Hbody & Hrest & ->).
    rewrite (loop_iterations_cons _ _ _ _ _ _ _ _ Hbody) in Hin.
    destruct Hin as [Heq | Hin].
    + inversion Heq; subst. eapply HP. exact Hbody.
    + eapply IH; eassumption.
Qed.

(** A completed [train]: the prelude, the loop over [range(self.epoch)]
    from the initial locals, the summary.  The loop leaves a history to
    which the total time is appended. *)
Lemma train_spec (self : Trainer) s T s' u :
  runs (train self) s T s' u ->
  exists Tloop s1 loc1 total avg,
    runs (for_each (range (epoch self)) (train_body self) initial_locals)
         (train_start s) Tloop s1 loc1 /\
    T = [EvPrint MsgTrainingStart] ++ Tloop
        ++ [EvPrint (MsgSummary avg (epoch self) total); EvPrint MsgFinish] /\
    train_hist s' = mkHist (hist_loss (train_hist s1)) (per_epoch_time (train_hist s1))
                           (total_time (train_hist s1) ++ [fsub (clock (ticks s1)) (clock (ticks s))]).
Proof.
  unfold train. intros H.
  apply runs_bind in H. destruct H as (? & ? & ? & ? & H0 & H & ->).
  apply runs_bind in H. destruct H as (? & ? & ? & ? & H1 & H & ->).
  apply runs_bind in H. destruct H as (? & ? & ? & ? & H2 & H & ->).
  apply runs_bind in H. destruct H as (? & ? & ? & ? & H3 & H & ->).
  apply runs_bind in H. destruct H as (loc1 & Tloop & s1 & ? & Hloop & H & ->).
  run_step H0. run_step H1. run_step H2. run_step H3. subst.
  run_step H. subst.
  eexists Tloop, s1, loc1, _, _. split; [exact Hloop |].
  split; reflexivity.
Qed.

(** ** Observations of one iteration *)

Lemma flat_map_skeleton {A : Type} (f : event -> list A) (T : list event) :
  (forall ev, control_event ev = false -> f ev = []) ->
  flat_map f T = flat_map f (skeleton T).
Proof.
  intros Hf. induction T as [| ev T IH]; [reflexivity |].
  unfold skeleton in *. cbn [flat_map filter].
  destruct (control_event ev) eqn:E.
  - cbn [flat_map]. rewrite IH. reflexivity.
  - rewrite (Hf ev E), IH. reflexivity.
Qed.

Lemma evaluate_calls_skeleton (T : list event) :
  evaluate_calls T = evaluate_calls (skeleton T).
Proof. apply flat_map_skeleton. intros [m | | | | | | | | |]; try discriminate; reflexivity. Qed.

Lemma epoch_snapshots_skeleton (T : list event) :
  epoch_snapshots T = epoch_snapshots (skeleton T).
Proof. apply flat_map_skeleton. intros [m | | | | | | | | |]; try discriminate; reflexivity. Qed.

Lemma scheduler_steps_skeleton (T : list event) :
  scheduler_steps T = scheduler_steps (skeleton T).
Proof. apply flat_map_skeleton. intros [m | | | | | | | | |]; try discriminate; reflexivity. Qed.

(** In a completed iteration [evaluate] is entered once, with
    [epoch + 1], when an evaluation is due, and not at all otherwise. *)
Lemma body_evaluate_calls (self : Trainer) (ep : Z) (loc : Locals) s T s' (loc' : Locals) :
  runs (train_body self ep loc) s T s' loc' ->
  evaluate_calls T = if evaluation_due ep then [ep + 1] else [].
Proof.
  intros H. apply train_body_spec in H.
  destruct H as (_ & _ & _ & _ & _ & Se & n1 & l & lr & r' & HT & _ & Hcase).
  rewrite evaluate_calls_skeleton, HT. unfold evaluate_calls. rewrite !flat_map_app.
  destruct (evaluation_due ep).
  - destruct Hcase as (r & n0 & -> & _).
    destruct (flt (loss r) (best_loss loc));
      destruct (ep mod scheduler_interval self =? 0);
      destruct ((ep + 1) mod snapshot_interval self =? 0); reflexivity.
  - destruct Hcase as (-> & _).
    destruct (ep mod scheduler_interval self =? 0);
      destruct ((ep + 1) mod snapshot_interval self =? 0); reflexivity.
Qed.

(** In a completed iteration the numbered checkpoint is written once,
    for [epoch + 1], when [(epoch + 1) % snapshot_interval == 0], and not
    at all otherwise. *)
Lemma body_epoch_snapshots (self : Trainer) (ep : Z) (loc : Locals) s T s'
      (loc' : Locals) :
  runs (train_body self ep loc) s T s' loc' ->
  snapshot_interval self <> 0 /\
  epoch_snapshots T = if (ep + 1) mod snapshot_interval self =? 0 then [ep + 1] else [].
Proof.
  intros H. apply train_body_spec in H.
  destruct H as (_ & _ & HM & _ & _ & Se & n1 & l & lr & r' & HT & _ & Hcase).
  split; [exact HM |].
  rewrite epoch_snapshots_skeleton, HT. unfold epoch_snapshots. rewrite !flat_map_app.
  destruct (evaluation_due ep).
  - destruct Hcase as (r & n0 & -> & _).
    destruct (flt (loss r) (best_loss loc));
      destruct (ep mod scheduler_interval self =? 0);
      destruct ((ep + 1) mod snapshot_interval self =? 0); reflexivity.
  - destruct Hcase as (-> & _).
    destruct (ep mod scheduler_interval self =? 0);
      destruct ((ep + 1) mod snapshot_interval self =? 0); reflexivity.
Qed.

(** In a completed iteration the scheduler is stepped once when
    [epoch % scheduler_interval == 0], and not at all otherwise. *)
Lemma body_scheduler_steps (self : Trainer) (ep : Z) (loc : Locals) s T s'
      (loc' : Locals) :
  runs (train_body self ep loc) s T s' loc' ->
  scheduler_interval self <> 0 /\
  scheduler_steps T = if ep mod scheduler_interval self =? 0 then [tt] else [].
Proof.
  intros H. apply train_body_spec in H.
  destruct H as (_ & HK & _ & _ & _ & Se & n1 & l & lr & r' & HT & _ & Hcase).
  split; [exact HK |].
  rewrite scheduler_steps_skeleton, HT. unfold scheduler_steps. rewrite !flat_map_app.
  destruct (evaluation_due ep).
  - destruct Hcase as (r & n0 & -> & _).
    destruct (flt (loss r) (best_loss loc));
      destruct (ep mod scheduler_interval self =? 0);
      destruct ((ep + 1) mod snapshot_interval self =? 0); reflexivity.
  - destruct Hcase as (-> & _).
    destruct (ep mod scheduler_interval self =? 0);
      destruct ((ep + 1) mod snapshot_interval self =? 0); reflexivity.
Qed.

(** ** Arithmetic of the loop tests *)

Lemma in_range (n e : Z) : In e (range n) <-> 0 <= e < n.
Proof.
  unfold range. rewrite in_map_iff. split.
  - intros (k & <- & Hk). apply in_seq in Hk. lia.
  - intros He. exists (Z.to_nat e). split; [lia |]. apply in_seq. lia.
Qed.

Lemma evaluation_due_spec (e : Z) :
  evaluation_due e = true <-> e = 0 \/ (10 | e + 1).
Proof.
  unfold evaluation_due. rewrite orb_true_iff, !Z.eqb_eq.
  rewrite (Z.mod_divide (e + 1) 10) by lia. tauto.
Qed.

Lemma mod_eqb_divide (a b : Z) : b <> 0 -> (a mod b =? 0) = true <-> (b | a).
Proof. intros Hb. rewrite Z.eqb_eq. apply Z.mod_divide. exact Hb. Qed.

(** ** From iterations to the whole run *)

Lemma in_flat_map_concat {A : Type} (f : event -> list A) (its : list (Z * list event))
      (a : A) :
  In a (flat_map f (List.concat (map snd its))) <->
  exists e evs, In (e, evs) its /\ In a (flat_map f evs).
Proof.
  induction its as [| [e evs] its IH].
  - simpl. split; [contradiction | intros (? & ? & [] & _)].
  - cbn [map List.concat snd]. rewrite flat_map_app, in_app_iff, IH. split.
    + intros [H | (e' & evs' & Hin & H)].
      * exists e, evs. split; [left; reflexivity | exact H].
      * exists e', evs'. split; [right; exact Hin | exact H].
    + intros (e' & evs' & [Heq | Hin] & H).
      * inversion Heq; subst. left. exact H.
      * right. exists e', evs'. split; assumption.
Qed.

Lemma in_map_fst {A B : Type} (l : list (A * B)) (a : A) :
  In a (map fst l) <-> exists b, In (a, b) l.
Proof.
  rewrite in_map_iff. split.
  - intros ([a' b] & <- & H). exists b. exact H.
  - intros (b & H). exists (a, b). split; [reflexivity | exact H].
Qed.

End Train.

(** * The claims *)

Section Claims.
Context {fw : Framework}.

(** A completed call of [train], seen as its loop: the loop completes
    from the initial locals, its trace is that of its iterations, there
    is one iteration per element of [range(self.epoch)], and the trace
    of [train] is the loop's between the first and the last two printed
    lines. *)
Lemma train_completes_inv (self : Trainer) (s : State) :
  value (train self s) = Ok tt ->
  exists Tloop s1 loc1 total avg,
    runs (for_each (range (epoch self)) (train_body self) initial_locals)
         (train_start s) Tloop s1 loc1 /\
    Tloop = List.concat (map snd (train_iterations self s)) /\
    map fst (train_iterations self s) = range (epoch self) /\
    emitted (train self s)
    = [EvPrint MsgTrainingStart] ++ Tloop
      ++ [EvPrint (MsgSummary avg (epoch self) total); EvPrint MsgFinish] /\
    train_hist (final (train self s))
    = mkHist (hist_loss (train_hist s1)) (per_epoch_time (train_hist s1))
             (total_time (train_hist s1) ++ [fsub (clock (ticks s1)) (clock (ticks s))]).
Proof.
  intros Hok. apply runs_intro in Hok. apply train_spec in Hok.
  destruct Hok as (Tloop & s1 & loc1 & total & avg & Hloop & HT & Hh).
  destruct (for_each_iterations _ _ _ _ _ _ _ Hloop) as (HTloop & Hfst).
  exists Tloop, s1, loc1, total, avg. unfold train_iterations. auto.
Qed.

(** C5.  In a run of [train] that completes, the loop has one iteration
    for each zero-based index of [range(N)]; [evaluate] is entered in the
    iteration with index [e] if and only if [e = 0] or [e + 1] is a
    multiple of 10, and then with the tag [e + 1]; over the whole run the
    tags with which [evaluate] is entered are exactly the one-based
    epochs [t] with [1 <= t <= N] and [t = 1] or [t] a multiple of 10. *)
Theorem evaluate_exactly_when_due (self : Trainer) (s : State) :
  value (train self s) = Ok tt ->
  map fst (train_iterations self s) = range (epoch self) /\
  (forall e evs,
      In (e, evs) (train_iterations self s) ->
      (evaluate_calls evs <> [] <-> e = 0 \/ (10 | e + 1)) /\
      (forall t, In t (evaluate_calls evs) -> t = e + 1)) /\
  (forall t,
      In t (evaluate_calls (emitted (train self s))) <->
      1 <= t <= epoch self /\ (t = 1 \/ (10 | t))).
Proof.
  intros Hok. apply train_completes_inv in Hok.
  destruct Hok as (Tloop & s1 & loc1 & total & avg & Hloop & HTloop & Hfst & HT & _).
  assert (Hiter : forall e evs,
             In (e, evs) (train_iterations self s) ->
             evaluate_calls evs = if evaluation_due e then [e + 1] else []).
  { intros e evs Hin. unfold train_iterations in Hin.
    eapply (for_each_iterations_all (train_body self)
              (fun e evs => evaluate_calls evs = if evaluation_due e then [e + 1] else []));
      [| exact Hloop | exact Hin].
    intros x acc s0 T s0' acc' Hb. eapply body_evaluate_calls. exact Hb. }
  split; [exact Hfst |]. split.
  - intros e evs Hin. rewrite (Hiter e evs Hin).
    destruct (evaluation_due e) eqn:Hdue.
    + split.
      * split; [intros _; apply evaluation_due_spec; exact Hdue | discriminate].
      * intros t [<- | []]. reflexivity.
    + split.
      * split; [intros Hne; contradiction Hne; reflexivity |].
        intros Hd. apply evaluation_due_spec in Hd. congruence.
      * intros t [].
  - intros t. rewrite HT. unfold evaluate_calls at 1. rewrite !flat_map_app.
    cbn [flat_map app]. rewrite app_nil_r, HTloop.
    rewrite in_flat_map_concat. split.
    + intros (e & evs & Hin & Ht).
      assert (He : In e (range (epoch self))).
      { rewrite <- Hfst. apply in_map_fst. exists evs. exact Hin. }
      apply in_range in He.
      change (In t (evaluate_calls evs)) in Ht. rewrite (Hiter e evs Hin) in Ht.
      destruct (evaluation_due e) eqn:Hdue; [| contradiction].
      destruct Ht as [<- | []]. apply evaluation_due_spec in Hdue.
      split; [lia |]. destruct Hdue as [-> | Hd]; [left; reflexivity | right; exact Hd].
    + intros (Hrange & Hcase).
      assert (He : In (t - 1) (range (epoch self))) by (apply in_range; lia).
      rewrite <- Hfst in He. apply in_map_fst in He. destruct He as (evs & Hin).
      exists (t - 1), evs. split; [exact Hin |].
      change (In t (evaluate_calls evs)). rewrite (Hiter _ evs Hin).
      assert (Hdue : evaluation_due (t - 1) = true).
      { apply evaluation_due_spec. replace (t - 1 + 1) with t by lia.
        destruct Hcase as [-> | Hd]; [left; reflexivity | right; exact Hd]. }
      rewrite Hdue. left. lia.
Qed.

(** C7.  In a run of [train] that completes, the numbered checkpoint is
    written in the iteration with index [e] if and only if [e + 1] is a
    multiple of the snapshot interval, and then under the number
    [e + 1]; over the whole run the numbers of the checkpoints written
    are exactly the one-based epochs [t <= N] that are multiples of the
    interval. *)
Theorem snapshot_exactly_at_multiples (self : Trainer) (s : State) :
  value (train self s) = Ok tt ->
  (forall e evs,
      In (e, evs) (train_iterations self s) ->
      (epoch_snapshots evs <> [] <-> (snapshot_interval self | e + 1)) /\
      (forall t, In t (epoch_snapshots evs) -> t = e + 1)) /\
  (forall t,
      In t (epoch_snapshots (emitted (train self s))) <->
      1 <= t <= epoch self /\ (snapshot_interval self | t)).
Proof.
  intros Hok. apply train_completes_inv in Hok.
  destruct Hok as (Tloop & s1 & loc1 & total & avg & Hloop & HTloop & Hfst & HT & _).
  assert (Hiter : forall e evs,
             In (e, evs) (train_iterations self s) ->
             snapshot_interval self <> 0 /\
             epoch_snapshots evs
             = if (e + 1) mod snapshot_interval self =? 0 then [e + 1] else []).
  { intros e evs Hin. unfold train_iterations in Hin.
    eapply (for_each_iterations_all (train_body self)
              (fun e evs =>
                 snapshot_interval self <> 0 /\
                 epoch_snapshots evs
                 = if (e + 1) mod snapshot_interval self =? 0 then [e + 1] else []));
      [| exact Hloop | exact Hin].
    intros x acc s0 T s0' acc' Hb. eapply body_epoch_snapshots. exact Hb. }
  split.
  - intros e evs Hin. destruct (Hiter e evs Hin) as (HM & ->).
    destruct ((e + 1) mod snapshot_interval self =? 0) eqn:Hdue.
    + split.
      * split; [intros _; apply mod_eqb_divide; assumption | discriminate].
      * intros t [<- | []]. reflexivity.
    + split.
      * split; [intros Hne; contradiction Hne; reflexivity |].
        intros Hd. apply (mod_eqb_divide _ _ HM) in Hd. congruence.
      * intros t [].
  - intros t. rewrite HT. unfold epoch_snapshots at 1. rewrite !flat_map_app.
    cbn [flat_map app]. rewrite app_nil_r, HTloop.
    rewrite in_flat_map_concat. split.
    + intros (e & evs & Hin & Ht).
      assert (He : In e (range (epoch self))).
      { rewrite <- Hfst. apply in_map_fst. exists evs. exact Hin. }
      apply in_range in He.
      change (In t (epoch_snapshots evs)) in Ht.
      destruct (Hiter e evs Hin) as (HM & Heq). rewrite Heq in Ht.
      destruct ((e + 1) mod snapshot_interval self =? 0) eqn:Hdue; [| contradiction].
      destruct Ht as [<- | []]. apply (mod_eqb_divide _ _ HM) in Hdue.
      split; [lia | exact Hdue].
    + intros (Hrange & Hd).
      assert (He : In (t - 1) (range (epoch self))) by (apply in_range; lia).
      rewrite <- Hfst in He. apply in_map_fst in He. destruct He as (evs & Hin).
      exists (t - 1), evs. split; [exact Hin |].
      change (In t (epoch_snapshots evs)).
      destruct (Hiter _ evs Hin) as (HM & ->).
      replace (t - 1 + 1) with t by lia.
      apply (mod_eqb_divide _ _ HM) in Hd. rewrite Hd. left. reflexivity.
Qed.

Lemma flat_map_iterations {A : Type} (f : event -> list A) (g : Z -> list A)
      (its : list (Z * list event)) :
  (forall e evs, In (e, evs) its -> flat_map f evs = g e) ->
  flat_map f (List.concat (map snd its)) = flat_map g (map fst its).
Proof.
  induction its as [| [e evs] its IH]; intros H; [reflexivity |].
  cbn [map List.concat snd fst flat_map]. rewrite flat_map_app.
  rewrite (H e evs) by (left; reflexivity).
  rewrite IH; [reflexivity |]. intros e' evs' Hin. apply H. right. exact Hin.
Qed.

Lemma length_flat_map_filter (c : Z -> bool) (xs : list Z) :
  List.length (flat_map (fun e => if c e then [tt] else []) xs)
  = List.length (filter c xs).
Proof.
  induction xs as [| x xs IH]; [reflexivity |].
  cbn [flat_map filter]. rewrite length_app, IH.
  destruct (c x); reflexivity.
Qed.

(** Dividing by [a] the predecessor of [n] gives one less than dividing
    [n] when [a] divides [n], and the same otherwise. *)
Lemma div_pred (n a : Z) :
  0 < a -> n / a = (n - 1) / a + (if n mod a =? 0 then 1 else 0).
Proof.
  intros Ha. pose proof (Z.div_mod n a ltac:(lia)) as Hn.
  pose proof (Z.mod_pos_bound n a Ha) as Hr.
  destruct (n mod a =? 0) eqn:E.
  - apply Z.eqb_eq in E.
    assert (H : n / a - 1 = (n - 1) / a).
    { apply (Z.div_unique (n - 1) a (n / a - 1) (a - 1)); [lia | nia]. }
    lia.
  - apply Z.eqb_neq in E.
    assert (H : n / a = (n - 1) / a).
    { apply (Z.div_unique (n - 1) a (n / a) (n mod a - 1)); lia. }
    lia.
Qed.

Lemma mod_abs_eqb (n k : Z) : k <> 0 -> (n mod k =? 0) = (n mod Z.abs k =? 0).
Proof.
  intros Hk. destruct (n mod k =? 0) eqn:E; symmetry.
  - apply Z.eqb_eq. apply Z.mod_divide; [lia |]. apply Z.divide_abs_l.
    apply Z.mod_divide; [exact Hk |]. apply Z.eqb_eq. exact E.
  - apply Z.eqb_neq. intros H. apply Z.eqb_neq in E. apply E.
    apply Z.mod_divide; [exact Hk |]. apply Z.divide_abs_l.
    apply Z.mod_divide; [lia | exact H].
Qed.

(** How many multiples of [k] there are among 0, ..., [n - 1]. *)
Lemma count_multiples (k n : Z) :
  k <> 0 ->
  Z.of_nat (List.length (filter (fun e => e mod k =? 0) (range n)))
  = if 0 <? n then (n - 1) / Z.abs k + 1 else 0.
Proof.
  intros Hk.
  assert (Hseq : forall m : nat,
             Z.of_nat (List.length (filter (fun e => e mod k =? 0)
                                           (map Z.of_nat (seq 0 m))))
             = match m with
               | O => 0
               | S m' => Z.of_nat m' / Z.abs k + 1
               end).
  { induction m as [| m IH]; [reflexivity |].
    rewrite seq_S, map_app, filter_app, length_app, Nat2Z.inj_add, IH.
    cbn [Nat.add map filter]. rewrite (mod_abs_eqb _ _ Hk).
    destruct m as [| m'].
    - rewrite Zmod_0_l, Zdiv_0_l. reflexivity.
    - rewrite (div_pred (Z.of_nat (S m')) (Z.abs k)) by lia.
      replace (Z.of_nat (S m') - 1) with (Z.of_nat m') by lia.
      destruct (Z.of_nat (S m') mod Z.abs k =? 0); cbn [List.length]; lia. }
  unfold range. rewrite Hseq.
  destruct (Z.ltb_spec 0 n) as [Hn | Hn].
  - destruct (Z.to_nat n) as [| m'] eqn:E; [lia |].
    replace (Z.of_nat m') with (n - 1) by lia. reflexivity.
  - replace (Z.to_nat n) with 0%nat by lia. reflexivity.
Qed.

(** C8.  In a run of [train] that completes, the loop has one iteration
    for each zero-based index 0, ..., [N - 1]; the scheduler is stepped
    in the iteration with index [e] if and only if [e] is a multiple of
    the scheduler interval [K], and then once.  So the iterations with a
    scheduler step are exactly the [e] with [0 <= e < N] that are
    multiples of [K]: the iteration 0 when there is one, and every
    [K]-th after it; over the whole run the scheduler is stepped
    [(N - 1) / |K| + 1] times when [N > 0] (the division rounding down)
    and never otherwise. *)
Theorem scheduler_steps_exactly_at_multiples (self : Trainer) (s : State) :
  value (train self s) = Ok tt ->
  map fst (train_iterations self s) = range (epoch self) /\
  (forall e, 0 <= e < epoch self -> exists evs, In (e, evs) (train_iterations self s)) /\
  (forall e evs,
      In (e, evs) (train_iterations self s) ->
      0 <= e < epoch self /\
      (scheduler_steps evs <> [] <-> (scheduler_interval self | e)) /\
      (List.length (scheduler_steps evs) <= 1)%nat) /\
  (forall e,
      (exists evs, In (e, evs) (train_iterations self s) /\ scheduler_steps evs = [tt]) <->
      0 <= e < epoch self /\ (scheduler_interval self | e)) /\
  (0 < epoch self ->
   exists evs, In (0, evs) (train_iterations self s) /\ scheduler_steps evs = [tt]) /\
  Z.of_nat (List.length (scheduler_steps (emitted (train self s))))
  = (if 0 <? epoch self
     then (epoch self - 1) / Z.abs (scheduler_interval self) + 1
     else 0).
Proof.
  intros Hok. apply train_completes_inv in Hok.
  destruct Hok as (Tloop & s1 & loc1 & total & avg & Hloop & HTloop & Hfst & HT & _).
  assert (Hiter : forall e evs,
             In (e, evs) (train_iterations self s) ->
             scheduler_interval self <> 0 /\
             scheduler_steps evs
             = if e mod scheduler_interval self =? 0 then [tt] else []).
  { intros e evs Hin. unfold train_iterations in Hin.
    eapply (for_each_iterations_all (train_body self)
              (fun e evs =>
                 scheduler_interval self <> 0 /\
                 scheduler_steps evs
                 = if e mod scheduler_interval self =? 0 then [tt] else []));
      [| exact Hloop | exact Hin].
    intros x acc s0 T s0' acc' Hb. eapply body_scheduler_steps. exact Hb. }
  assert (Hidx : forall e evs, In (e, evs) (train_iterations self s) -> 0 <= e < epoch self).
  { intros e evs Hin. apply in_range. rewrite <- Hfst. apply in_map_fst.
    exists evs. exact Hin. }
  assert (Hex : forall e, 0 <= e < epoch self ->
                          exists evs, In (e, evs) (train_iterations self s)).
  { intros e He. apply in_map_fst. rewrite Hfst. apply in_range. exact He. }
  assert (Hexact : forall e,
             (exists evs, In (e, evs) (train_iterations self s) /\ scheduler_steps evs = [tt])
             <-> 0 <= e < epoch self /\ (scheduler_interval self | e)).
  { intros e. split.
    - intros (evs & Hin & Hst). split; [exact (Hidx e evs Hin) |].
      destruct (Hiter e evs Hin) as (HK & Heq). rewrite Heq in Hst.
      apply (mod_eqb_divide _ _ HK).
      destruct (e mod scheduler_interval self =? 0); [reflexivity | discriminate Hst].
    - intros (He & Hd). destruct (Hex e He) as (evs & Hin).
      exists evs. split; [exact Hin |].
      destruct (Hiter e evs Hin) as (HK & ->).
      apply (mod_eqb_divide _ _ HK) in Hd. rewrite Hd. reflexivity. }
  split; [exact Hfst |]. split; [exact Hex |]. split; [| split; [exact Hexact |]; split].
  - intros e evs Hin. split; [exact (Hidx e evs Hin) |].
    destruct (Hiter e evs Hin) as (HK & ->).
    destruct (e mod scheduler_interval self =? 0) eqn:Hdue.
    + split; [| simpl; lia].
      split; [intros _; apply mod_eqb_divide; assumption | discriminate].
    + split; [| simpl; lia].
      split; [intros Hne; contradiction Hne; reflexivity |].
      intros Hd. apply (mod_eqb_divide _ _ HK) in Hd. congruence.
  - intros HN. apply Hexact. split; [lia | apply Z.divide_0_r].
  - destruct (Z.ltb_spec 0 (epoch self)) as [HN | HN].
    + destruct (Hex 0 ltac:(lia)) as (evs0 & Hin0).
      destruct (Hiter 0 evs0 Hin0) as (HK & _).
      rewrite HT. unfold scheduler_steps at 1. rewrite !flat_map_app.
      cbn [flat_map app]. rewrite app_nil_r, HTloop.
      rewrite (flat_map_iterations _
                 (fun e => if e mod scheduler_interval self =? 0 then [tt] else [])).
      * rewrite Hfst, length_flat_map_filter, (count_multiples _ _ HK).
        destruct (Z.ltb_spec 0 (epoch self)); [reflexivity | lia].
      * intros e evs Hin. apply (Hiter e evs Hin).
    + rewrite HT. unfold scheduler_steps at 1. rewrite !flat_map_app.
      cbn [flat_map app]. rewrite app_nil_r, HTloop.
      assert (Hnil : train_iterations self s = []).
      { destruct (train_iterations self s) as [| [e evs] its] eqn:E; [reflexivity |].
        exfalso. assert (He : 0 <= e < epoch self).
        { apply (Hidx e evs). left. reflexivity. }
        lia. }
      rewrite Hnil. reflexivity.
Qed.

(** A completed loop of [train] adds one loss and one epoch time per
    iteration and leaves the list of total times alone. *)
Lemma train_loop_history (self : Trainer) (xs : list Z) :
  forall (loc : Locals) s T s' (loc' : Locals),
    runs (for_each xs (train_body self) loc) s T s' loc' ->
    List.length (hist_loss (train_hist s'))
    = (List.length (hist_loss (train_hist s)) + List.length xs)%nat /\
    List.length (per_epoch_time (train_hist s'))
    = (List.length (per_epoch_time (train_hist s)) + List.length xs)%nat /\
    total_time (train_hist s') = total_time (train_hist s).
Proof.
  induction xs as [| x xs IH]; intros loc s T s' loc' H.
  - rewrite for_each_nil in H. run_step H. subst. cbn [List.length].
    repeat split; lia.
  - rewrite for_each_cons in H.
    apply runs_bind in H. destruct H as (loc1 & T1 & s1 & T2 & Hbody & Hrest & ->).
    apply IH in Hrest. destruct Hrest as (Hl & Hp & Ht).
    apply train_body_spec in Hbody.
    destruct Hbody as (_ & _ & _ & (l & t & Hh) & _).
    rewrite Hl, Hp, Ht, Hh. cbn [hist_loss per_epoch_time total_time List.length].
    rewrite !length_app. cbn [List.length]. repeat split; lia.
Qed.

(** C9.  When [train] completes, the history holds exactly N losses, N
    epoch times and one total time (N = [self.epoch], none when it is
    negative); and every completed iteration of its loop, like every
    completed [train_epoch], adds exactly one entry to each of the first
    two lists and none to the third. *)
Theorem history_has_one_entry_per_epoch (self : Trainer) (s : State) :
  value (train self s) = Ok tt ->
  (List.length (hist_loss (train_hist (final (train self s)))) = Z.to_nat (epoch self) /\
   List.length (per_epoch_time (train_hist (final (train self s)))) = Z.to_nat (epoch self) /\
   List.length (total_time (train_hist (final (train self s)))) = 1%nat) /\
  (forall ep loc s0,
      (exists loc', value (train_body self ep loc s0) = Ok loc') ->
      let h := train_hist s0 in
      let h' := train_hist (final (train_body self ep loc s0)) in
      List.length (hist_loss h') = S (List.length (hist_loss h)) /\
      List.length (per_epoch_time h') = S (List.length (per_epoch_time h)) /\
      total_time h' = total_time h) /\
  (forall ep v s0,
      value (train_epoch self ep v s0) = Ok tt ->
      let h := train_hist s0 in
      let h' := train_hist (final (train_epoch self ep v s0)) in
      List.length (hist_loss h') = S (List.length (hist_loss h)) /\
      List.length (per_epoch_time h') = S (List.length (per_epoch_time h)) /\
      total_time h' = total_time h).
Proof.
  intros Hok. split; [| split].
  - apply train_completes_inv in Hok.
    destruct Hok as (Tloop & s1 & loc1 & total & avg & Hloop & _ & _ & _ & Hh).
    apply train_loop_history in Hloop. destruct Hloop as (Hl & Hp & Ht).
    rewrite Hh. cbn [hist_loss per_epoch_time total_time].
    rewrite Hl, Hp, Ht, length_app, length_range. cbn. repeat split; lia.
  - intros ep loc s0 (loc' & Hb) h h'. subst h h'.
    apply runs_intro in Hb. apply train_body_spec in Hb.
    destruct Hb as (_ & _ & _ & (l & t & Hh) & _).
    rewrite Hh. cbn [hist_loss per_epoch_time total_time].
    rewrite !length_app. cbn [List.length]. repeat split; lia.
  - intros ep v s0 Hb h h'. subst h h'.
    apply runs_intro in Hb. apply train_epoch_spec in Hb.
    destruct Hb as (_ & _ & (l & t & Hh) & _).
    rewrite Hh. cbn [hist_loss per_epoch_time total_time].
    rewrite !length_app. cbn [List.length]. repeat split; lia.
Qed.

(** C10.  A call of [evaluate] that returns has found a first sample in
    the test set and in the train set, each with 1 * 2048 * 3 numbers:
    a sample of [n] three-dimensional points has [n = 2048].  Both are
    passed to the model under the shape (1, 2048, 3).  [num_points] plays
    no part: with any other value [evaluate] does the same. *)
Theorem evaluate_needs_2048_points (self : Trainer) (ep : Z) (s : State) :
  (exists r, value (evaluate self ep s) = Ok r) ->
  (exists ts tr,
      hd_error (loader_dataset (test_loader self)) = Some ts /\
      hd_error (loader_dataset (train_loader self)) = Some tr /\
      numel (fst ts) = 1 * 2048 * 3 /\
      numel (fst tr) = 1 * 2048 * 3 /\
      (forall n, shape (fst ts) = [n; 3] -> n = 2048) /\
      (forall n, shape (fst tr) = [n; 3] -> n = 2048) /\
      In (EvForward false (grad_enabled s) (reshaped (to_device self (fst ts))))
         (emitted (evaluate self ep s)) /\
      In (EvForward false (grad_enabled s) (reshaped (to_device self (fst tr))))
         (emitted (evaluate self ep s)) /\
      shape (reshaped (to_device self (fst ts))) = [1; 2048; 3] /\
      shape (reshaped (to_device self (fst tr))) = [1; 2048; 3]) /\
  (forall n, evaluate (with_num_points self n) ep s = evaluate self ep s).
Proof.
  intros (r & Hok). split; [| intros n; reflexivity].
  apply runs_intro in Hok. apply evaluate_spec in Hok.
  destruct Hok as (ts & rt & tr & rtr & Hts & Htr & Hnts & Hntr & HT & _ & _).
  exists ts, tr. rewrite Hts, Htr, HT.
  split; [reflexivity |]. split; [reflexivity |].
  split; [exact Hnts |]. split; [exact Hntr |].
  split. { intros n Hn. unfold numel in Hnts. rewrite Hn in Hnts. cbn in Hnts. lia. }
  split. { intros n Hn. unfold numel in Hntr. rewrite Hn in Hntr. cbn in Hntr. lia. }
  split. { right. apply in_or_app. right. apply in_or_app. left. left. reflexivity. }
  split. { right. apply in_or_app. right. apply in_or_app. right.
           apply in_or_app. left. left. reflexivity. }
  split; reflexivity.
Qed.

(** ** The autograd switch *)

Lemma preserves_ret {A : Type} Inv Q (a : A) : preserves Inv Q (ret a).
Proof. intros s Hs. split; [exact Hs | constructor]. Qed.

Lemma preserves_raise {A : Type} Inv Q (e : exn) : preserves Inv Q (@raise fw A e).
Proof. intros s Hs. split; [exact Hs | constructor]. Qed.

Lemma preserves_lift {A : Type} Inv Q (r : result A) : preserves Inv Q (lift r).
Proof. destruct r; [apply preserves_ret | apply preserves_raise]. Qed.

Lemma preserves_first {A : Type} Inv Q (l : list A) : preserves Inv Q (first l).
Proof. destruct l; [apply preserves_raise | apply preserves_ret]. Qed.

Lemma preserves_last_item {A : Type} Inv Q (l : list A) : preserves Inv Q (last_item l).
Proof.
  unfold last_item. destruct (rev l); [apply preserves_raise | apply preserves_ret].
Qed.

Lemma preserves_read_res Inv Q (loc : Locals) : preserves Inv Q (read_res loc).
Proof.
  unfold read_res. destruct (res loc); [apply preserves_ret | apply preserves_raise].
Qed.

Lemma preserves_emit Inv (Q : event -> Prop) (ev : event) :
  Q ev -> preserves Inv Q (emit ev).
Proof. intros Hev s Hs. split; [exact Hs | repeat constructor; exact Hev]. Qed.

Lemma preserves_get Inv Q : preserves Inv Q get.
Proof. intros s Hs. split; [exact Hs | constructor]. Qed.

Lemma preserves_modify (Inv : State -> Prop) Q (f : State -> State) :
  (forall s, Inv s -> Inv (f s)) -> preserves Inv Q (modify f).
Proof. intros Hf s Hs. split; [apply Hf; exact Hs | constructor]. Qed.

Lemma preserves_bind {A B : Type} Inv Q (m : M A) (f : A -> M B) :
  preserves Inv Q m -> (forall a, preserves Inv Q (f a)) -> preserves Inv Q (bind m f).
Proof.
  intros Hm Hf s Hs. destruct (Hm s Hs) as (Hi & HT). unfold bind.
  destruct (value (m s)) as [a | e]; cbn [final emitted].
  - destruct (Hf a (final (m s)) Hi) as (Hi' & HT').
    split; [exact Hi' | apply Forall_app; split; assumption].
  - split; assumption.
Qed.

Lemma preserves_for_each {X Acc : Type} Inv Q (body : X -> Acc -> M Acc) (xs : list X) :
  (forall x acc, preserves Inv Q (body x acc)) ->
  forall acc, preserves Inv Q (for_each xs body acc).
Proof.
  intros Hb. induction xs as [| x xs IH]; intros acc.
  - rewrite for_each_nil. apply preserves_ret.
  - rewrite for_each_cons. apply preserves_bind; [apply Hb | exact IH].
Qed.

(** Nothing in the trainer writes the autograd switch. *)

Lemma call_model_grad g (pts : Tensor storage) : grad_kept g (call_model pts).
Proof.
  intros s Hs. unfold call_model, bind, get, emit, ret. cbn.
  split; [exact Hs | repeat constructor; exact Hs].
Qed.

Lemma call_get_loss_grad g (pts output : Tensor storage) :
  grad_kept g (call_get_loss pts output).
Proof.
  intros s Hs. unfold call_get_loss, bind, get, emit, ret. cbn.
  split; [exact Hs | repeat constructor; exact Hs].
Qed.

Lemma set_training_grad g (b : bool) : grad_kept g (set_training b).
Proof. unfold grad_kept. apply preserves_modify. intros s Hs. exact Hs. Qed.

Lemma eval_batch_grad g (self : Trainer) x (acc : list float) :
  grad_kept g (eval_batch self x acc).
Proof.
  unfold grad_kept, eval_batch. cbv zeta.
  apply preserves_bind; [apply call_model_grad | intros output].
  apply preserves_bind; [apply call_get_loss_grad | intros l].
  apply preserves_ret.
Qed.

Lemma evaluate_grad g (self : Trainer) (ep : Z) : grad_kept g (evaluate self ep).
Proof.
  unfold grad_kept, evaluate.
  repeat first
    [ apply preserves_ret
    | apply preserves_lift
    | apply preserves_first
    | apply set_training_grad
    | apply call_model_grad
    | apply call_get_loss_grad
    | apply preserves_emit; exact I
    | apply preserves_for_each; intros; apply eval_batch_grad
    | apply preserves_bind; [| intros ?]
    | match goal with |- preserves _ _ (if ?c then _ else _) => destruct c end ].
Qed.

(** The loss [evaluate] returns is the mean, over the batches of the
    train loader, of the loss of the current network in evaluation mode;
    the test loader plays no part in it. *)
Lemma evaluate_loss_spec (self : Trainer) (ep : Z) (s : State) (r : Res) :
  value (evaluate self ep s) = Ok r ->
  loss r = np_mean (eval_losses self s (train_loader self)).
Proof.
  intros Hok. apply runs_intro in Hok. apply evaluate_spec in Hok.
  destruct Hok as (ts & rt & tr & rtr & _ & _ & _ & _ & _ & _ & ->). reflexivity.
Qed.

(** C4, as amended.  [evaluate] switches the model to evaluation mode
    and leaves the autograd switch as it finds it: whether the call
    returns or raises, every forward pass and every loss in it is
    computed under the value the switch has on entry, which is also its
    value on exit; and in a call that returns every forward pass ran in
    evaluation mode. *)
Theorem evaluate_keeps_grad_switch (self : Trainer) (ep : Z) (s : State) :
  Forall (grad_is (grad_enabled s)) (emitted (evaluate self ep s)) /\
  grad_enabled (final (evaluate self ep s)) = grad_enabled s /\
  (forall r, value (evaluate self ep s) = Ok r ->
             Forall in_eval_mode (emitted (evaluate self ep s))).
Proof.
  destruct (evaluate_grad (grad_enabled s) self ep s eq_refl) as (Hg & HT).
  split; [exact HT |]. split; [exact Hg |].
  intros r Hok. apply runs_intro in Hok. apply evaluate_spec in Hok.
  destruct Hok as (ts & rt & tr & rtr & _ & _ & _ & _ & -> & _ & _).
  constructor; [exact I |].
  apply Forall_app. split.
  { apply Forall_forall. intros ev Hin. apply in_flat_map in Hin.
    destruct Hin as (b & _ & [<- | [<- | []]]); [reflexivity | exact I]. }
  apply Forall_app. split.
  { unfold test_figures. destruct (ep =? 10); repeat constructor. }
  repeat constructor.
Qed.

(** ** The pictures *)

Lemma evaluate_savefig (self : Trainer) (ep : Z) s T s' (r : Res) :
  runs (evaluate self ep) s T s' r -> savefig_paths T = pictures self ep.
Proof.
  intros H. apply evaluate_spec in H.
  destruct H as (ts & rt & tr & rtr & _ & _ & _ & _ & -> & _ & _).
  unfold savefig_paths. cbn [flat_map app]. rewrite !flat_map_app.
  assert (Hb : forall bs, flat_map
            (fun ev => match ev with EvSavefig p _ => [p] | _ => [] end)
            (flat_map (eval_batch_events self (eval_state s)) bs) = []).
  { induction bs as [| b bs IH]; [reflexivity |].
    cbn [flat_map]. rewrite flat_map_app, IH. reflexivity. }
  rewrite Hb. unfold pictures, test_figures, train_figures.
  destruct (ep =? 10); reflexivity.
Qed.

Lemma savefig_paths_app (T1 T2 : list event) :
  savefig_paths (T1 ++ T2) = savefig_paths T1 ++ savefig_paths T2.
Proof. apply flat_map_app. Qed.

Lemma savefig_training (T : list event) :
  Forall (fun ev => training_event ev = true) T -> savefig_paths T = [].
Proof.
  induction 1 as [| ev T Hev _ IH]; [reflexivity |].
  unfold savefig_paths in *. cbn [flat_map]. rewrite IH.
  destruct ev as [m | | | | | | | | |]; try discriminate; reflexivity.
Qed.

(** A completed iteration of the loop of [train] writes the pictures of
    [evaluate] with the tag [epoch + 1] when an evaluation is due, and
    none otherwise. *)
Lemma body_savefig (self : Trainer) (ep : Z) (loc : Locals) s T s' (loc' : Locals) :
  runs (train_body self ep loc) s T s' loc' ->
  savefig_paths T = if evaluation_due ep then pictures self (ep + 1) else [].
Proof.
  unfold train_body, evaluation_due. intros H.
  apply runs_bind in H. destruct H as (u0 & T0 & s0 & T0' & Htrain & H & ->).
  apply runs_bind in H. destruct H as (loc1 & T1 & s1 & T1' & Heval & H & ->).
  apply runs_bind in H. destruct H as (m & T2 & s2 & T2' & Hm & H & ->).
  apply runs_bind in H. destruct H as (u3 & T3 & s3 & T3' & Hsched & H & ->).
  apply runs_bind in H. destruct H as (m' & T4 & s4 & T4' & Hm' & H & ->).
  apply runs_bind in H. destruct H as (u5 & T5 & s5 & T5' & Hsnap & H & ->).
  apply train_epoch_spec in Htrain. destruct Htrain as (_ & HT0 & _).
  run_step Hm. run_step Hm'. run_step H. subst.
  assert (Hp1 : savefig_paths T1
               = if ((ep + 1) mod 10 =? 0) || (ep =? 0)
                 then pictures self (ep + 1) else []).
  { destruct (((ep + 1) mod 10 =? 0) || (ep =? 0)).
    - apply runs_bind in Heval. destruct Heval as (r & Te & se & Te' & He & Hb & ->).
      apply evaluate_savefig in He. rewrite savefig_paths_app, He.
      destruct (flt (loss r) (best_loss loc)); run_step Hb; subst;
        cbn [savefig_paths flat_map app]; rewrite ?app_nil_r; reflexivity.
    - run_step Heval. subst. reflexivity. }
  assert (Hp3 : savefig_paths T3 = []).
  { destruct (m =? 0); run_step Hsched; subst; reflexivity. }
  assert (Hp5 : savefig_paths T5 = []).
  { destruct (m' =? 0); run_step Hsnap; subst; reflexivity. }
  rewrite !savefig_paths_app, (savefig_training _ HT0), Hp1, Hp3, Hp5.
  cbn [savefig_paths flat_map app]. rewrite !app_nil_r. reflexivity.
Qed.

(** C6, as amended.  A call of [evaluate] with the tag [e] that returns
    writes the pictures of [pictures], in that order and no others: the
    test reconstruction [result_dir + "test_<e>.png"]; the test original
    [result_dir + "test_0.png"] exactly when [e] is 10; the train
    reconstruction [result_dir + "train_<e>.png"] and the train original
    [result_dir + "train_<e>_origin.png"].  In a run of [train] that
    completes, the iteration with index [i] writes the pictures of the
    tag [i + 1] when an evaluation is due in it and none otherwise; the
    tag 10 is that of the iteration 9, in which the second evaluation of
    the run is due: before it one is due in the iteration 0 only. *)
Theorem evaluate_pictures (self : Trainer) (s : State) :
  (forall e, (exists r, value (evaluate self e s) = Ok r) ->
             savefig_paths (emitted (evaluate self e s)) = pictures self e) /\
  (value (train self s) = Ok tt ->
   forall i evs,
     In (i, evs) (train_iterations self s) ->
     savefig_paths evs = if evaluation_due i then pictures self (i + 1) else []) /\
  (evaluation_due 9 = true /\
   forall i, 0 <= i < 9 -> (evaluation_due i = true <-> i = 0)).
Proof.
  split; [| split].
  - intros e (r & Hok). apply runs_intro in Hok. eapply evaluate_savefig. exact Hok.
  - intros Hok i evs Hin. apply train_completes_inv in Hok.
    destruct Hok as (Tloop & s1 & loc1 & total & avg & Hloop & _).
    unfold train_iterations in Hin.
    eapply (for_each_iterations_all (train_body self)
              (fun i evs => savefig_paths evs
                            = if evaluation_due i then pictures self (i + 1) else []));
      [| exact Hloop | exact Hin].
    intros x acc s0 T s0' acc' Hb. eapply body_savefig. exact Hb.
  - split; [reflexivity |]. intros i Hi. rewrite evaluation_due_spec. split.
    + intros [H0 | (k & Hk)]; [exact H0 | lia].
    + intros ->. left. reflexivity.
Qed.

(** ** The best checkpoint *)

Lemma evaluate_results_skeleton (T : list event) :
  evaluate_results T = evaluate_results (skeleton T).
Proof. apply flat_map_skeleton. intros [m | | | | | | | | |]; try discriminate; reflexivity. Qed.

Lemma snapshot_tags_skeleton (T : list event) :
  snapshot_tags T = snapshot_tags (skeleton T).
Proof. apply flat_map_skeleton. intros [m | | | | | | | | |]; try discriminate; reflexivity. Qed.

(** In a completed iteration with an evaluation due, [evaluate] returns
    one result, the "best" checkpoint is written exactly when its loss
    is below [best_loss], and [best_loss] becomes the smaller of the
    two; in the other iterations nothing of this happens. *)
Lemma body_best (self : Trainer) (ep : Z) (loc : Locals) s T s' (loc' : Locals) :
  runs (train_body self ep loc) s T s' loc' ->
  if evaluation_due ep then
    exists r,
      evaluate_results T = [r] /\
      (best_saved T <-> flt (loss r) (best_loss loc) = true) /\
      best_loss loc' = (if flt (loss r) (best_loss loc) then loss r else best_loss loc)
  else
    evaluate_results T = [] /\ ~ best_saved T /\ best_loss loc' = best_loss loc.
Proof.
  intros H. apply train_body_spec in H.
  destruct H as (_ & _ & _ & _ & _ & Se & n1 & l & lr & r' & HT & _ & Hcase).
  unfold best_saved. rewrite evaluate_results_skeleton, snapshot_tags_skeleton, HT.
  unfold evaluate_results, snapshot_tags. rewrite !flat_map_app.
  destruct (evaluation_due ep).
  - destruct Hcase as (r & n0 & -> & ->). exists r. cbn [best_loss].
    destruct (flt (loss r) (best_loss loc));
      destruct (ep mod scheduler_interval self =? 0);
      destruct ((ep + 1) mod snapshot_interval self =? 0); cbn;
      (split; [reflexivity |]); (split; [| reflexivity]);
      split; intros Hx; try reflexivity; try discriminate;
      try (left; reflexivity);
      repeat (destruct Hx as [Hx | Hx]; [discriminate Hx |]); contradiction.
  - destruct Hcase as (-> & ->).
    destruct (ep mod scheduler_interval self =? 0);
      destruct ((ep + 1) mod snapshot_interval self =? 0); cbn;
      (split; [reflexivity |]); (split; [| reflexivity]);
      intros Hx; repeat (destruct Hx as [Hx | Hx]; [discriminate Hx |]); contradiction.
Qed.

Lemma evaluate_results_app (T1 T2 : list event) :
  evaluate_results (T1 ++ T2) = evaluate_results T1 ++ evaluate_results T2.
Proof. apply flat_map_app. Qed.

(** The loop of [train], started with any [best_loss]: the "best"
    checkpoint is written in an iteration exactly when [evaluate]
    returned there a loss below the starting [best_loss] and below every
    loss returned in the earlier iterations.  Only the starting
    [best_loss] and the losses of the loop are compared, so [<] need be
    an order on these alone. *)
Lemma train_loop_best (self : Trainer) (l : list float) (Hord : ordered l) (xs : list Z) :
  forall (loc : Locals) s T s' (loc' : Locals),
    runs (for_each xs (train_body self) loc) s T s' loc' ->
    In (best_loss loc) l ->
    (forall r, In r (evaluate_results T) -> In (loss r) l) ->
    forall pre e evs post,
      loop_iterations xs (train_body self) loc s = pre ++ (e, evs) :: post ->
      (best_saved evs <->
       exists r,
         evaluate_results evs = [r] /\
         flt (loss r) (best_loss loc) = true /\
         forall e' evs' r',
           In (e', evs') pre -> In r' (evaluate_results evs') ->
           flt (loss r) (loss r') = true).
Proof.
  destruct Hord as (Htrans & Htot).
  induction xs as [| x xs IH]; intros loc s T s' loc' H Hbl HT pre e evs post Hsplit.
  - destruct pre; discriminate Hsplit.
  - rewrite for_each_cons in H.
    apply runs_bind in H. destruct H as (loc1 & T1 & s1 & T2 & Hbody & Hrest & ->).
    rewrite (loop_iterations_cons _ _ _ _ _ _ _ _ Hbody) in Hsplit.
    pose proof (body_best _ _ _ _ _ _ _ Hbody) as Hb.
    destruct pre as [| p pre].
    + (* the first iteration of the loop *)
      cbn [app] in Hsplit. inversion Hsplit; subst. clear Hsplit.
      destruct (evaluation_due e).
      * destruct Hb as (r & Hres & Hiff & _). rewrite Hiff, Hres. split.
        -- intros Hlt. exists r. split; [reflexivity |]. split; [exact Hlt |].
           intros e' evs' r' [].
        -- intros (r0 & Heq & Hlt & _). inversion Heq; subst. exact Hlt.
      * destruct Hb as (Hres & Hno & _). rewrite Hres. split.
        -- intros Hbest. contradiction.
        -- intros (r0 & Heq & _). discriminate Heq.
    + (* a later iteration *)
      cbn [app] in Hsplit. inversion Hsplit as [[Hp Hrest']]. subst p.
      assert (HT1 : forall r, In r (evaluate_results T1) -> In (loss r) l).
      { intros r Hr. apply HT. rewrite evaluate_results_app. apply in_or_app. left. exact Hr. }
      assert (HT2 : forall r, In r (evaluate_results T2) -> In (loss r) l).
      { intros r Hr. apply HT. rewrite evaluate_results_app. apply in_or_app. right. exact Hr. }
      assert (Hbl1 : In (best_loss loc1) l).
      { destruct (evaluation_due x).
        - destruct Hb as (r1 & Hres1 & _ & ->).
          destruct (flt (loss r1) (best_loss loc)); [| exact Hbl].
          apply HT1. rewrite Hres1. left. reflexivity.
        - destruct Hb as (_ & _ & ->). exact Hbl. }
      assert (Hevs : forall r, In r (evaluate_results evs) -> In (loss r) l).
      { intros r Hr. apply HT2.
        destruct (for_each_iterations _ _ _ _ _ _ _ Hrest) as (-> & _).
        apply in_flat_map_concat. exists e, evs. split; [| exact Hr].
        rewrite Hrest'. apply in_or_app. right. left. reflexivity. }
      rewrite (IH _ _ _ _ _ Hrest Hbl1 HT2 _ _ _ _ Hrest'). clear IH.
      split.
      * intros (r & Hres & Hlt & Hpre). exists r. split; [exact Hres |].
        assert (Hr : In (loss r) l) by (apply Hevs; rewrite Hres; left; reflexivity).
        destruct (evaluation_due x).
        -- destruct Hb as (r1 & Hres1 & _ & Hbest). rewrite Hbest in Hlt.
           assert (Hr1 : In (loss r1) l) by (apply HT1; rewrite Hres1; left; reflexivity).
           destruct (flt (loss r1) (best_loss loc)) eqn:H1.
           ++ split; [exact (Htrans _ _ _ Hr Hr1 Hbl Hlt H1) |].
              intros e' evs' r' [Heq | Hin] Hr'.
              ** inversion Heq; subst. rewrite Hres1 in Hr'.
                 destruct Hr' as [<- | []]. exact Hlt.
              ** eapply Hpre; eassumption.
           ++ split; [exact Hlt |].
              intros e' evs' r' [Heq | Hin] Hr'.
              ** inversion Heq; subst. rewrite Hres1 in Hr'.
                 destruct Hr' as [<- | []]. exact (Htot _ _ _ Hr Hbl Hr1 Hlt H1).
              ** eapply Hpre; eassumption.
        -- destruct Hb as (Hres1 & _ & Hbest). rewrite Hbest in Hlt.
           split; [exact Hlt |].
           intros e' evs' r' [Heq | Hin] Hr'.
           ++ inversion Heq; subst. rewrite Hres1 in Hr'. contradiction.
           ++ eapply Hpre; eassumption.
      * intros (r & Hres & Hlt & Hpre). exists r. split; [exact Hres |].
        split.
        -- destruct (evaluation_due x).
           ++ destruct Hb as (r1 & Hres1 & _ & ->).
              destruct (flt (loss r1) (best_loss loc)); [| exact Hlt].
              apply (Hpre x T1 r1); [left; reflexivity |].
              rewrite Hres1. left. reflexivity.
           ++ destruct Hb as (_ & _ & ->). exact Hlt.
        -- intros e' evs' r' Hin Hr'. apply (Hpre e' evs' r'); [right; exact Hin | exact Hr'].
Qed.

(** Where [<] orders the numbers, floats of which none is nan are
    ordered: the proviso of C3 holds of every run whose losses are
    numbers. *)
Lemma numbers_are_ordered (l : list float) :
  numbers_ordered -> Forall is_number l -> ordered l.
Proof.
  intros (Htrans & Htot) Hl. rewrite Forall_forall in Hl. split.
  - intros a b c _ _ _. apply Htrans.
  - intros a b c _ _ Hc. apply Htot. apply Hl. exact Hc.
Qed.

(** C3, as amended.  In a run of [train] that completes, and in which
    the losses compared are numbers (none is nan), the "best" checkpoint
    is written in an iteration if and only if [evaluate] returned in it
    a loss that is strictly below 1000000000 and strictly below every
    loss that [evaluate] returned in the earlier iterations.  The
    proviso bears on the losses of this run and the initial [best_loss]
    only: the float type may have a nan. *)
Theorem best_checkpoint_iff_new_minimum (self : Trainer) (s : State) :
  value (train self s) = Ok tt ->
  ordered (compared_losses self s) ->
  forall pre e evs post,
    train_iterations self s = pre ++ (e, evs) :: post ->
    (best_saved evs <->
     exists r,
       evaluate_results evs = [r] /\
       flt (loss r) (of_int 1000000000) = true /\
       forall e' evs' r',
         In (e', evs') pre -> In r' (evaluate_results evs') ->
         flt (loss r) (loss r') = true).
Proof.
  intros Hok Hord pre e evs post Hsplit. apply train_completes_inv in Hok.
  destruct Hok as (Tloop & s1 & loc1 & total & avg & Hloop & _ & _ & HT & _).
  refine (train_loop_best self _ Hord _ _ _ _ _ _ Hloop _ _ _ _ _ _ Hsplit).
  - left. reflexivity.
  - intros r Hr. right. apply in_map. rewrite HT, !evaluate_results_app.
    apply in_or_app. right. apply in_or_app. left. exact Hr.
Qed.

(** ** Which exceptions can be raised *)

Lemma raises_bind {A B : Type} (m : M A) (f : A -> M B) s (e : exn) :
  value (bind m f s) = Raise e ->
  value (m s) = Raise e \/
  exists a T1 s1, runs m s T1 s1 a /\ value (f a s1) = Raise e.
Proof.
  unfold bind. destruct (value (m s)) as [a | e0] eqn:Hm; cbn [value]; intros H.
  - right. exists a, (emitted (m s)), (final (m s)).
    split; [apply runs_intro; exact Hm | exact H].
  - left. inversion H. reflexivity.
Qed.

Lemma raises_lift {A : Type} (r : result A) s (e : exn) :
  value (lift r s) = Raise e -> r = Raise e.
Proof. destruct r; cbn; [discriminate | intros H; exact H]. Qed.

Lemma raises_first {A : Type} (l : list A) s (e : exn) :
  value (first l s) = Raise e -> e = IndexError.
Proof. destruct l; cbn; [intros H; inversion H; reflexivity | discriminate]. Qed.

Lemma raises_last_item {A : Type} (l : list A) s (e : exn) :
  value (last_item l s) = Raise e -> e = IndexError.
Proof.
  unfold last_item. destruct (rev l); cbn; [intros H; inversion H; reflexivity | discriminate].
Qed.

Lemma raises_read_res (loc : Locals) s (e : exn) :
  value (read_res loc s) = Raise e -> res loc = None.
Proof. unfold read_res. destruct (res loc); cbn; [discriminate | reflexivity]. Qed.

Lemma raises_py_mod (a b : Z) (e : exn) : py_mod a b = Raise e -> e = ZeroDivisionError.
Proof. unfold py_mod. destruct (b =? 0); intros H; inversion H; reflexivity. Qed.

Lemma raises_int_div (a b : Z) (e : exn) : int_div a b = Raise e -> e = ZeroDivisionError.
Proof. unfold int_div. destruct (b =? 0); intros H; inversion H; reflexivity. Qed.

Lemma raises_view (dims : list Z) (t : Tensor storage) (e : exn) :
  view dims t = Raise e -> e = RuntimeError.
Proof. unfold view. destruct (numel t =? prod_dims dims); intros H; inversion H; reflexivity. Qed.

Lemma raises_for_each {X Acc : Type} (body : X -> Acc -> M Acc) (e : exn) (xs : list X) :
  forall acc s,
    value (for_each xs body acc s) = Raise e ->
    exists x acc0 s0, value (body x acc0 s0) = Raise e.
Proof.
  induction xs as [| x xs IH]; intros acc s H.
  - rewrite for_each_nil in H. discriminate H.
  - rewrite for_each_cons in H. apply raises_bind in H.
    destruct H as [H | (a & T1 & s1 & _ & H)]; [eauto | eapply IH; exact H].
Qed.

Lemma total_time_time s (e : exn) : value (time_time s) = Raise e -> False.
Proof. discriminate. Qed.

Lemma total_set_training (b : bool) s (e : exn) :
  value (set_training b s) = Raise e -> False.
Proof. discriminate. Qed.

Lemma total_set_train_hist (h : TrainHist) s (e : exn) :
  value (set_train_hist h s) = Raise e -> False.
Proof. discriminate. Qed.

Lemma total_call_model (pts : Tensor storage) s (e : exn) :
  value (call_model pts s) = Raise e -> False.
Proof. discriminate. Qed.

Lemma total_call_get_loss (pts output : Tensor storage) s (e : exn) :
  value (call_get_loss pts output s) = Raise e -> False.
Proof. discriminate. Qed.

Lemma total_call_zero_grad s (e : exn) : value (call_zero_grad s) = Raise e -> False.
Proof. discriminate. Qed.

Lemma total_call_backward (pts output : Tensor storage) s (e : exn) :
  value (call_backward pts output s) = Raise e -> False.
Proof. discriminate. Qed.

Lemma total_call_optimizer_step s (e : exn) :
  value (call_optimizer_step s) = Raise e -> False.
Proof. discriminate. Qed.

Lemma total_call_scheduler_step s (e : exn) :
  value (call_scheduler_step s) = Raise e -> False.
Proof. discriminate. Qed.

Lemma total_snapshot (self : Trainer) (t : Tag) s (e : exn) :
  value (_snapshot self t s) = Raise e -> False.
Proof. discriminate. Qed.

Lemma total_emit (ev : event) s (e : exn) : value (emit ev s) = Raise e -> False.
Proof. discriminate. Qed.

Lemma total_ret {A : Type} (a : A) s (e : exn) : value (ret a s) = Raise e -> False.
Proof. discriminate. Qed.

Lemma total_get s (e : exn) : value (get s) = Raise e -> False.
Proof. discriminate. Qed.

End Claims.

(** Analysis of a run that raises, statement by statement. *)
Ltac raise_step H :=
  match type of H with
  | value (bind _ _ _) = Raise _ =>
      let Hrun := fresh "Hrun" in
      apply raises_bind in H; destruct H as [H | (? & ? & ? & Hrun & H)];
      [raise_step H | run_step Hrun; raise_step H]
  | value ((if ?c then _ else _) _) = Raise _ =>
      destruct c eqn:?; raise_step H
  | value (ret _ _) = Raise _ => exfalso; exact (total_ret _ _ _ H)
  | value (emit _ _) = Raise _ => exfalso; exact (total_emit _ _ _ H)
  | value (get _) = Raise _ => exfalso; exact (total_get _ _ H)
  | value (time_time _) = Raise _ => exfalso; exact (total_time_time _ _ H)
  | value (set_training _ _) = Raise _ => exfalso; exact (total_set_training _ _ _ H)
  | value (set_train_hist _ _) = Raise _ => exfalso; exact (total_set_train_hist _ _ _ H)
  | value (call_model _ _) = Raise _ => exfalso; exact (total_call_model _ _ _ H)
  | value (call_get_loss _ _ _) = Raise _ =>
      exfalso; exact (total_call_get_loss _ _ _ _ H)
  | value (call_zero_grad _) = Raise _ => exfalso; exact (total_call_zero_grad _ _ H)
  | value (call_backward _ _ _) = Raise _ =>
      exfalso; exact (total_call_backward _ _ _ _ H)
  | value (call_optimizer_step _) = Raise _ =>
      exfalso; exact (total_call_optimizer_step _ _ H)
  | value (call_scheduler_step _) = Raise _ =>
      exfalso; exact (total_call_scheduler_step _ _ H)
  | value (_snapshot _ _ _) = Raise _ => exfalso; exact (total_snapshot _ _ _ _ H)
  | value (lift _ _) = Raise _ => apply raises_lift in H
  | value (first (_ :: _) _) = Raise _ => discriminate H
  | _ => idtac
  end.

Section Exceptions.
Context {fw : Framework}.

Lemma train_batch_total (self : Trainer) (ep num_batch : Z) (t0 : float)
      (x : Z * (Tensor storage * label)) (acc : list float) s (e : exn) :
  value (train_batch self ep num_batch t0 x acc s) = Raise e -> False.
Proof.
  unfold train_batch. cbv zeta. intros H. raise_step H.
Qed.

Lemma eval_batch_total (self : Trainer) (x : Z * (Tensor storage * label))
      (acc : list float) s (e : exn) :
  value (eval_batch self x acc s) = Raise e -> False.
Proof.
  unfold eval_batch. cbv zeta. intros H. raise_step H.
Qed.

(** [train_epoch] can only raise for a batch size of zero. *)
Lemma train_epoch_raises (self : Trainer) (ep : Z) (v : bool) s (e : exn) :
  value (train_epoch self ep v s) = Raise e -> e = ZeroDivisionError.
Proof.
  unfold train_epoch. intros H. raise_step H.
  - eapply raises_int_div. exact H.
  - apply raises_for_each in H. destruct H as (? & ? & ? & H).
    apply train_batch_total in H. contradiction.
Qed.

(** [evaluate] can only raise for an empty dataset or a first sample of
    another size. *)
Lemma evaluate_raises (self : Trainer) (ep : Z) s (e : exn) :
  value (evaluate self ep s) = Raise e -> e = IndexError \/ e = RuntimeError.
Proof.
  unfold evaluate. intros H. raise_step H;
    try (left; eapply raises_first; exact H);
    try (right; eapply raises_view; exact H).
  apply raises_for_each in H. destruct H as (? & ? & ? & H).
  apply eval_batch_total in H. contradiction.
Qed.

End Exceptions.

Section TestLoss.
Context {fw : Framework}.

(** An iteration of the loop of [train] raises [UnboundLocalError] only
    if no evaluation is due in it and [res] is unbound when it starts. *)
Lemma train_body_unbound (self : Trainer) (ep : Z) (loc : Locals) s :
  value (train_body self ep loc s) = Raise UnboundLocalError ->
  evaluation_due ep = false /\ res loc = None.
Proof.
  unfold train_body, evaluation_due. intros H. raise_step H.
  all: try (apply train_epoch_raises in H; discriminate H).
  all: try (apply evaluate_raises in H; destruct H as [H | H]; discriminate H).
  all: try (apply raises_py_mod in H; discriminate H).
  all: try (apply raises_last_item in H; discriminate H).
  apply raises_read_res in H.
  match goal with
  | Hif : runs (if _ then _ else _) _ _ _ ?l, Hres : res ?l = None |- _ =>
      destruct (((ep + 1) mod 10 =? 0) || (ep =? 0));
      [ apply runs_bind in Hif; destruct Hif as (r & ? & ? & ? & _ & Hif & _);
        destruct (flt (loss r) (best_loss loc)); run_step Hif; subst; discriminate Hres
      | run_step Hif; subst; auto ]
  end.
Qed.

(** The loop of [train] does not raise [UnboundLocalError] when [res]
    is bound at its start or an evaluation is due in its first
    iteration. *)
Lemma train_loop_unbound (self : Trainer) (xs : list Z) :
  forall (loc : Locals) s,
    res loc <> None \/ match xs with [] => True | x :: _ => evaluation_due x = true end ->
    value (for_each xs (train_body self) loc s) <> Raise UnboundLocalError.
Proof.
  induction xs as [| x xs IH]; intros loc s Hstart H.
  - rewrite for_each_nil in H. discriminate H.
  - rewrite for_each_cons in H. apply raises_bind in H.
    destruct H as [H | (loc1 & T1 & s1 & Hbody & H)].
    + apply train_body_unbound in H. destruct H as (Hdue & Hres).
      destruct Hstart as [Hb | Hd]; [contradiction | congruence].
    + apply train_body_spec in Hbody.
      destruct Hbody as (_ & _ & _ & _ & _ & Se & n1 & l & lr & r' & _ & Hres & _).
      apply (IH loc1 s1); [| exact H]. left. rewrite Hres. discriminate.
Qed.

Lemma range_head (n : Z) : range n = [] \/ exists rest, range n = 0 :: rest.
Proof.
  unfold range. destruct (Z.to_nat n) as [| k]; [left; reflexivity |].
  right. cbn [seq map]. eexists. reflexivity.
Qed.

(** No call of [train] raises [UnboundLocalError]. *)
Lemma train_never_unbound (self : Trainer) (s : State) :
  value (train self s) <> Raise UnboundLocalError.
Proof.
  unfold train. intros H. raise_step H.
  - revert H. apply train_loop_unbound.
    destruct (range_head (epoch self)) as [-> | (rest & ->)]; right;
      [exact I | reflexivity].
  - apply raises_first in H. discriminate H.
Qed.

Lemma scalars_skeleton (name : string) (T : list event) :
  scalars name T = scalars name (skeleton T).
Proof. apply flat_map_skeleton. intros [m | | | | | | | | |]; try discriminate; reflexivity. Qed.

(** A completed iteration logs one "Test Loss": the loss of the result
    bound to [res] at its end, which is the result of this iteration's
    [evaluate] when an evaluation is due and the earlier binding
    otherwise. *)
Lemma body_test_loss (self : Trainer) (ep : Z) (loc : Locals) s T s' (loc' : Locals) :
  runs (train_body self ep loc) s T s' loc' ->
  exists r,
    res loc' = Some r /\
    scalars "Test Loss" T = [(loss r, ep)] /\
    if evaluation_due ep then evaluate_results T = [r]
    else evaluate_results T = [] /\ res loc' = res loc.
Proof.
  intros H. apply train_body_spec in H.
  destruct H as (_ & _ & _ & _ & _ & Se & n1 & l & lr & r' & HT & Hres & Hcase).
  exists r'. split; [exact Hres |].
  rewrite scalars_skeleton, evaluate_results_skeleton, HT.
  unfold scalars, evaluate_results. rewrite !flat_map_app.
  destruct (evaluation_due ep).
  - destruct Hcase as (r & n0 & -> & ->). cbn [res] in Hres. inversion Hres; subst r'.
    destruct (flt (loss r) (best_loss loc));
      destruct (ep mod scheduler_interval self =? 0);
      destruct ((ep + 1) mod snapshot_interval self =? 0); split; reflexivity.
  - destruct Hcase as (-> & ->).
    destruct (ep mod scheduler_interval self =? 0);
      destruct ((ep + 1) mod snapshot_interval self =? 0);
      (split; [reflexivity | split; reflexivity]).
Qed.

Lemma last_result_app (T1 T2 : list event) :
  last_result (T1 ++ T2)
  = match last_result T2 with Some r => Some r | None => last_result T1 end.
Proof.
  unfold last_result, evaluate_results. rewrite flat_map_app, rev_app_distr.
  destruct (rev (flat_map _ T2)); reflexivity.
Qed.

(** The loop of [train]: the "Test Loss" an iteration logs is the loss
    of the result [evaluate] returned last, in this iteration or before
    it in the loop, and of the binding of [res] at the start of the loop
    when there is none. *)
Lemma train_loop_test_loss (self : Trainer) (xs : list Z) :
  forall (loc : Locals) s T s' (loc' : Locals),
    runs (for_each xs (train_body self) loc) s T s' loc' ->
    forall pre e evs post,
      loop_iterations xs (train_body self) loc s = pre ++ (e, evs) :: post ->
      exists r,
        scalars "Test Loss" evs = [(loss r, e)] /\
        match last_result (List.concat (map snd pre) ++ evs) with
        | Some r' => Some r'
        | None => res loc
        end = Some r.
Proof.
  induction xs as [| x xs IH]; intros loc s T s' loc' H pre e evs post Hsplit.
  - destruct pre; discriminate Hsplit.
  - rewrite for_each_cons in H.
    apply runs_bind in H. destruct H as (loc1 & T1 & s1 & T2 & Hbody & Hrest & ->).
    rewrite (loop_iterations_cons _ _ _ _ _ _ _ _ Hbody) in Hsplit.
    apply body_test_loss in Hbody. destruct Hbody as (r1 & Hres1 & Hlog & Hcase).
    destruct pre as [| p pre].
    + cbn [app] in Hsplit. inversion Hsplit; subst. clear Hsplit.
      exists r1. split; [exact Hlog |]. cbn [map List.concat app].
      unfold last_result. destruct (evaluation_due e).
      * rewrite Hcase. reflexivity.
      * destruct Hcase as (-> & <-). exact Hres1.
    + cbn [app] in Hsplit. inversion Hsplit as [[Hp Hrest']]. subst p.
      destruct (IH _ _ _ _ _ Hrest _ _ _ _ Hrest') as (r & Hlog' & Hlast).
      exists r. split; [exact Hlog' |].
      cbn [map List.concat snd]. rewrite <- app_assoc, last_result_app.
      destruct (last_result (List.concat (map snd pre) ++ evs)) as [r' |];
        [exact Hlast |].
      rewrite Hres1 in Hlast. inversion Hlast; subst r1.
      unfold last_result. destruct (evaluation_due x).
      * rewrite Hcase. reflexivity.
      * destruct Hcase as (-> & <-). exact Hres1.
Qed.

(** C2, as amended.  [res['loss']] is read in every iteration, outside
    the test that guards the evaluation, and the read never fails: no
    call of [train] raises [UnboundLocalError], since the first
    iteration always evaluates and the local keeps its value.  In a run
    that completes, every iteration logs exactly one "Test Loss", with
    its own index as step, and the value is the loss of the result that
    [evaluate] returned last, in that iteration or in an earlier one; in
    an iteration with no evaluation due nothing is evaluated, so the
    value is a stale one. *)
Theorem test_loss_read_never_fails (self : Trainer) (s : State) :
  value (train self s) <> Raise UnboundLocalError /\
  (value (train self s) = Ok tt ->
   forall pre e evs post,
     train_iterations self s = pre ++ (e, evs) :: post ->
     (evaluate_calls evs <> [] <-> evaluation_due e = true) /\
     exists r,
       scalars "Test Loss" evs = [(loss r, e)] /\
       last_result (List.concat (map snd pre) ++ evs) = Some r).
Proof.
  split; [apply train_never_unbound |].
  intros Hok pre e evs post Hsplit. apply train_completes_inv in Hok.
  destruct Hok as (Tloop & s1 & loc1 & total & avg & Hloop & _).
  split.
  - assert (Hin : In (e, evs) (train_iterations self s)).
    { rewrite Hsplit. apply in_or_app. right. left. reflexivity. }
    unfold train_iterations in Hin.
    assert (Hc : evaluate_calls evs = if evaluation_due e then [e + 1] else []).
    { eapply (for_each_iterations_all (train_body self)
                (fun e evs => evaluate_calls evs
                              = if evaluation_due e then [e + 1] else []));
        [| exact Hloop | exact Hin].
      intros x acc s0 T s0' acc' Hb. eapply body_evaluate_calls. exact Hb. }
    rewrite Hc. destruct (evaluation_due e); split; intros H;
      try reflexivity; try discriminate; contradiction.
  - destruct (train_loop_test_loss self _ _ _ _ _ _ Hloop _ _ _ _ Hsplit)
      as (r & Hlog & Hlast).
    exists r. split; [exact Hlog |].
    destruct (last_result (List.concat (map snd pre) ++ evs)); [exact Hlast |].
    discriminate Hlast.
Qed.

End TestLoss.

Section Totality.
Context {fw : Framework}.

Lemma train_epoch_total (self : Trainer) (ep : Z) (v : bool) s (e : exn) :
  batch_size self <> 0 -> value (train_epoch self ep v s) = Raise e -> False.
Proof.
  intros Hbs. unfold train_epoch. intros H. raise_step H.
  - unfold int_div in H. destruct (Z.eqb_spec (batch_size self) 0); [contradiction |].
    discriminate H.
  - apply raises_for_each in H. destruct H as (? & ? & ? & H).
    apply train_batch_total in H. contradiction.
Qed.

Lemma view_total (self : Trainer) (t : Tensor storage) (e : exn) :
  numel t = 1 * 2048 * 3 -> view [1; 2048; 3] (to_device self t) = Raise e -> False.
Proof.
  intros Hn. unfold view. rewrite numel_to_device, Hn. cbn. discriminate.
Qed.

Lemma evaluate_total (self : Trainer) (ep : Z) s (e : exn) :
  has_sample (test_loader self) -> has_sample (train_loader self) ->
  value (evaluate self ep s) = Raise e -> False.
Proof.
  intros (ts & rt & Hts & Hnts) (tr & rtr & Htr & Hntr).
  unfold evaluate. rewrite Hts, Htr. intros H. raise_step H.
  - apply raises_for_each in H. destruct H as (? & ? & ? & H).
    apply eval_batch_total in H. contradiction.
  - match goal with Heq : ts :: rt = _ :: _ |- _ => inversion Heq; subst end.
    eapply view_total; [| exact H]. exact Hnts.
  - match goal with Heq : tr :: rtr = _ :: _ |- _ => inversion Heq; subst end.
    eapply view_total; [| exact H]. exact Hntr.
Qed.

(** The conditional evaluation of one iteration leaves the history
    alone and binds [res] when it evaluates. *)
Lemma runs_eval_part (self : Trainer) (ep : Z) (loc : Locals) s T s' (loc1 : Locals) :
  runs (if ((ep + 1) mod 10 =? 0) || (ep =? 0) then
          bind (evaluate self (ep + 1)) (fun r =>
            if flt (loss r) (best_loss loc) then
              bind (_snapshot self (TagStr "best")) (fun _ =>
                ret (mkLocals (loss r) (Some r)))
            else ret (mkLocals (best_loss loc) (Some r)))
        else ret loc) s T s' loc1 ->
  train_hist s' = train_hist s /\
  (if ((ep + 1) mod 10 =? 0) || (ep =? 0) then res loc1 <> None else loc1 = loc).
Proof.
  destruct (((ep + 1) mod 10 =? 0) || (ep =? 0)); intros H.
  - apply runs_bind in H. destruct H as (r & Te & se & Te' & He & Hb & ->).
    apply evaluate_skeleton in He. destruct He as (_ & Hh & _).
    destruct (flt (loss r) (best_loss loc)); run_step Hb; subst;
      (split; [exact Hh | discriminate]).
  - run_step H. subst. split; reflexivity.
Qed.

Lemma runs_sched_part (m : Z) s T s' u :
  runs (if m =? 0 then call_scheduler_step else ret tt) s T s' u ->
  train_hist s' = train_hist s.
Proof. destruct (m =? 0); intros H; run_step H; subst; reflexivity. Qed.

Lemma runs_snap_part (self : Trainer) (t : Tag) (m : Z) s T s' u :
  runs (if m =? 0 then _snapshot self t else ret tt) s T s' u ->
  train_hist s' = train_hist s.
Proof. destruct (m =? 0); intros H; run_step H; subst; reflexivity. Qed.

Lemma last_item_snoc {A : Type} (l : list A) (a : A) s (e : exn) :
  value (last_item (l ++ [a]) s) = Raise e -> False.
Proof. unfold last_item. rewrite rev_app_distr. cbn. discriminate. Qed.

(** With a good configuration, an iteration of the loop of [train]
    raises nothing when an evaluation is due in it or [res] is bound. *)
Lemma train_body_total (self : Trainer) (ep : Z) (loc : Locals) s (e : exn) :
  well_configured self ->
  evaluation_due ep = true \/ res loc <> None ->
  value (train_body self ep loc s) = Raise e -> False.
Proof.
  intros (Hbs & HK & HM & Htest & Htrain) Hstart.
  unfold train_body, evaluation_due in *. intros H. raise_step H.
  all: try (eapply train_epoch_total; [exact Hbs | exact H]).
  all: try (eapply evaluate_total; [exact Htest | exact Htrain | exact H]).
  all: try (unfold py_mod in H;
            match type of H with
            | context [?b =? 0] =>
                destruct (Z.eqb_spec b 0); [contradiction | discriminate H]
            end).
  all: repeat match goal with
         | Hr : runs (train_epoch _ _ _) _ _ _ _ |- _ =>
             apply train_epoch_spec in Hr; destruct Hr as (_ & _ & (? & ? & ?) & _ & _)
         | Hr : runs (if _ || _ then _ else _) _ _ _ _ |- _ =>
             apply runs_eval_part in Hr; destruct Hr as (? & ?)
         | Hr : runs (if _ =? 0 then call_scheduler_step else _) _ _ _ _ |- _ =>
             apply runs_sched_part in Hr
         | Hr : runs (if _ =? 0 then _snapshot _ _ else _) _ _ _ _ |- _ =>
             apply runs_snap_part in Hr
         end; subst.
  - repeat match goal with
           | Hx : train_hist _ = _ |- _ => rewrite Hx in H; clear Hx
           end.
    cbn [hist_loss] in H. eapply last_item_snoc. exact H.
  - apply raises_read_res in H.
    destruct (((ep + 1) mod 10 =? 0) || (ep =? 0)).
    + contradiction.
    + subst. destruct Hstart as [Hd | Hres]; [discriminate Hd | contradiction].
Qed.

(** With a good configuration the loop of [train] raises nothing when
    [res] is bound at its start or an evaluation is due in its first
    iteration. *)
Lemma train_loop_total (self : Trainer) (e : exn) (xs : list Z) :
  well_configured self ->
  forall (loc : Locals) s,
    res loc <> None \/ match xs with [] => True | x :: _ => evaluation_due x = true end ->
    value (for_each xs (train_body self) loc s) = Raise e -> False.
Proof.
  intros Hcfg. induction xs as [| x xs IH]; intros loc s Hstart H.
  - rewrite for_each_nil in H. discriminate H.
  - rewrite for_each_cons in H. apply raises_bind in H.
    destruct H as [H | (loc1 & T1 & s1 & Hbody & H)].
    + eapply train_body_total; [exact Hcfg | | exact H].
      destruct Hstart as [Hb | Hd]; [right; exact Hb | left; exact Hd].
    + apply train_body_spec in Hbody.
      destruct Hbody as (_ & _ & _ & _ & _ & Se & n1 & l & lr & r' & _ & Hres & _).
      apply (IH loc1 s1); [| exact H]. left. rewrite Hres. discriminate.
Qed.

(** A call of [train] with a good configuration returns. *)
Lemma train_completes (self : Trainer) (s : State) :
  well_configured self -> value (train self s) = Ok tt.
Proof.
  intros Hcfg. destruct (value (train self s)) as [[] | e] eqn:H; [reflexivity |].
  exfalso. unfold train in H. raise_step H.
  - eapply train_loop_total; [exact Hcfg | | exact H].
    destruct (range_head (epoch self)) as [-> | (rest & ->)]; right;
      [exact I | reflexivity].
  - subst. cbn [train_hist total_time] in H.
    match type of H with
    | value (first (?l ++ _) _) = _ => destruct l; discriminate H
    end.
Qed.

(** An iteration in which an evaluation is due completes only if both
    datasets start with a sample that [view(1, 2048, 3)] accepts. *)
Lemma body_samples (self : Trainer) (ep : Z) (loc : Locals) s T s' (loc' : Locals) :
  evaluation_due ep = true ->
  runs (train_body self ep loc) s T s' loc' ->
  has_sample (test_loader self) /\ has_sample (train_loader self).
Proof.
  unfold train_body, evaluation_due. intros Hdue H.
  apply runs_bind in H. destruct H as (u0 & T0 & s0 & T0' & _ & H & _).
  apply runs_bind in H. destruct H as (loc1 & T1 & s1 & T1' & Heval & _ & _).
  rewrite Hdue in Heval.
  apply runs_bind in Heval. destruct Heval as (r & Te & se & Te' & He & _ & _).
  apply evaluate_spec in He.
  destruct He as (ts & rt & tr & rtr & Hts & Htr & Hnts & Hntr & _).
  split; [exists ts, rt | exists tr, rtr]; split; assumption.
Qed.

(** A call of [train] for at least one epoch returns exactly with the
    good configurations. *)
Lemma train_completes_iff (self : Trainer) (s : State) :
  1 <= epoch self ->
  (value (train self s) = Ok tt <-> well_configured self).
Proof.
  intros HN. split; [| apply train_completes].
  intros Hok. apply train_completes_inv in Hok.
  destruct Hok as (Tloop & s1 & loc1 & total & avg & Hloop & _).
  destruct (range_head (epoch self)) as [Hnil | (rest & Hcons)].
  - exfalso. assert (Hin : In 0 (range (epoch self))) by (apply in_range; lia).
    rewrite Hnil in Hin. contradiction.
  - rewrite Hcons, for_each_cons in Hloop.
    apply runs_bind in Hloop. destruct Hloop as (l0 & T0 & s0 & T0' & Hbody & _ & _).
    destruct (body_samples self 0 _ _ _ _ _ eq_refl Hbody) as (Htest & Htrain).
    apply train_body_spec in Hbody. destruct Hbody as (Hbs & HK & HM & _).
    repeat split; assumption.
Qed.

End Totality.

(** * Concrete runs of the stub *)

Lemma qlt_lt (a b : Q) : Stub.qlt a b = true <-> (a < b)%Q.
Proof.
  unfold Stub.qlt. rewrite negb_true_iff. split.
  - intros H. apply Qnot_le_lt. intros Hle. apply Qle_bool_iff in Hle. congruence.
  - intros H. destruct (Qle_bool b a) eqn:E; [| reflexivity].
    apply Qle_bool_iff in E. exfalso. exact (Qlt_not_le _ _ H E).
Qed.

(** In the stub with a nan the numbers are the floats other than nan,
    and [<] orders them. *)
Lemma nan_stub_is_number (x : option Q) : @is_number NanStub.fw x <-> x <> None.
Proof.
  split.
  - intros (y & [H | H]) ->; [| destruct y]; discriminate H.
  - intros Hx. destruct x as [q |]; [| contradiction Hx; reflexivity].
    exists (Some (q + 1)%Q). left. cbn. apply qlt_lt.
    destruct q as [n d]. unfold Qlt. cbn. nia.
Qed.

Lemma nan_stub_numbers_ordered : @numbers_ordered NanStub.fw.
Proof.
  split.
  - intros [a |] [b |] [c |]; cbn; intros H1 H2; try discriminate.
    apply qlt_lt. apply qlt_lt in H1, H2. exact (Qlt_trans _ _ _ H1 H2).
  - intros [a |] [b |] c Hc; cbn; intros H1 H2; try discriminate.
    apply nan_stub_is_number in Hc. destruct c as [c |]; [| contradiction Hc; reflexivity].
    cbn in *. apply qlt_lt. apply qlt_lt in H1.
    unfold Stub.qlt in H2. apply negb_false_iff in H2. apply Qle_bool_iff in H2.
    exact (Qlt_le_trans _ _ _ H1 H2).
Qed.

(** So floats of which none is nan are ordered by [<]. *)
Lemma ordered_numbers (l : list (option Q)) :
  Forall (fun x => x <> None) l -> @ordered NanStub.fw l.
Proof.
  intros Hl. apply numbers_are_ordered; [exact nan_stub_numbers_ordered |].
  eapply Forall_impl; [| exact Hl]. intros x Hx. apply nan_stub_is_number. exact Hx.
Qed.

(** C1.  [evaluate] averages the losses of the batches of the train
    loader: with train batches of loss 3 and 1 and a test batch of loss
    7 it returns 2, the mean over the train loader, where the mean over
    the test loader is 7. *)
Theorem evaluate_averages_the_train_loader :
  value (evaluate Stub.run2 1 Stub.start) = Ok (@mkRes Stub.fw 2%Q) /\
  np_mean (eval_losses Stub.run2 Stub.start (train_loader Stub.run2)) = 2%Q /\
  np_mean (eval_losses Stub.run2 Stub.start (test_loader Stub.run2)) = 7%Q.
Proof. vm_compute. repeat split; reflexivity. Qed.

(** C2, the claim as stated fails: in a run of two epochs the second
    iteration enters no [evaluate], yet the run completes and that
    iteration logs a "Test Loss", the one of the first iteration. *)
Lemma test_loss_logged_without_evaluation :
  value (train Stub.run2 Stub.start) = Ok tt /\
  map (fun it => (fst it, evaluate_calls (snd it), scalars "Test Loss" (snd it)))
      (train_iterations Stub.run2 Stub.start)
  = [(0, [1], [(2%Q, 0)]); (1, [], [(2%Q, 1)])].
Proof. vm_compute. split; reflexivity. Qed.

(** C3, the claim as stated fails: the only evaluation of this run
    returns the loss 2000000000, there is no earlier evaluation, and no
    "best" checkpoint is written: the only checkpoint of the run is the
    numbered one. *)
Lemma first_evaluation_without_best_checkpoint :
  value (train Stub.huge_loss Stub.start) = Ok tt /\
  map (fun it => (fst it, evaluate_results (snd it), snapshot_tags (snd it)))
      (train_iterations Stub.huge_loss Stub.start)
  = [(0, [@mkRes Stub.fw 2000000000%Q], [TagInt 1])] /\
  ~ best_saved (emitted (train Stub.huge_loss Stub.start)).
Proof.
  split; [vm_compute; reflexivity |]. split; [vm_compute; reflexivity |].
  unfold best_saved. vm_compute. intros [H | []]. discriminate H.
Qed.

(** The proviso of the amended C3 is needed.  With the losses 5, nan
    and 3 the third evaluation writes a "best" checkpoint, its loss
    being below the [best_loss] 5 that the nan has not replaced, though
    it is not below the nan of the second evaluation; on these losses
    [<] is not an order. *)
Lemma nan_loss_defeats_the_rule :
  value (train NanStub.with_nan NanStub.start) = Ok tt /\
  NanStub.evaluations (train_iterations NanStub.with_nan NanStub.start)
  = [(0, [Some 5%Q], [TagStr "best"]);
     (9, [None], []);
     (19, [Some 3%Q], [TagStr "best"])] /\
  @flt NanStub.fw (Some 3%Q) None = false /\
  ~ ordered (compared_losses NanStub.with_nan NanStub.start).
Proof.
  split; [vm_compute; reflexivity |]. split; [vm_compute; reflexivity |].
  split; [reflexivity |].
  intros (_ & Htot).
  assert (Hl : compared_losses NanStub.with_nan NanStub.start
               = [Some (inject_Z 1000000000); Some 5%Q; None; Some 3%Q])
    by (vm_compute; reflexivity).
  rewrite Hl in Htot.
  specialize (Htot (Some 3%Q) (Some 5%Q) None).
  cbn [In] in Htot.
  assert (H : @flt NanStub.fw (Some 3%Q) None = true).
  { apply Htot; auto 10. }
  discriminate H.
Qed.

(** C4, the claim as stated fails: in a fresh process, where autograd
    is on, [evaluate] returns, and each of its four forward passes and
    two losses was computed with autograd on. *)
Lemma evaluate_runs_with_autograd_on :
  value (evaluate Stub.run2 1 Stub.start) = Ok (@mkRes Stub.fw 2%Q) /\
  autograd_flags (emitted (evaluate Stub.run2 1 Stub.start))
  = [true; true; true; true; true; true].
Proof. vm_compute. split; reflexivity. Qed.

(** C6, the claim as stated fails: a run of 90 epochs evaluates ten
    times; the original of the test sample, [test_0.png], is written by
    the second evaluation (tag 10), not by the tenth (tag 90). *)
Lemma test_0_written_by_second_evaluation :
  value (train Stub.run90 Stub.start) = Ok tt /\
  map (fun it => evaluate_calls (snd it))
      (Stub.evaluations (train_iterations Stub.run90 Stub.start))
  = [[1]; [10]; [20]; [30]; [40]; [50]; [60]; [70]; [80]; [90]] /\
  option_map (fun it => savefig_paths (snd it))
             (nth_error (Stub.evaluations (train_iterations Stub.run90 Stub.start)) 9)
  = Some ["results/test_90.png"; "results/train_90.png";
          "results/train_90_origin.png"]%string /\
  option_map (fun it => savefig_paths (snd it))
             (nth_error (Stub.evaluations (train_iterations Stub.run90 Stub.start)) 1)
  = Some ["results/test_10.png"; "results/test_0.png"; "results/train_10.png";
          "results/train_10_origin.png"]%string.
Proof. vm_compute. repeat split; reflexivity. Qed.

(** ** The theorems at concrete runs *)

(** A run of 12 epochs completes; it evaluates at the one-based epochs
    1 and 10. *)
Lemma evaluate_exactly_when_due_witness :
  value (train Stub.run12 Stub.start) = Ok tt /\
  (forall t,
      In t (evaluate_calls (emitted (train Stub.run12 Stub.start))) <->
      1 <= t <= epoch Stub.run12 /\ (t = 1 \/ (10 | t))).
Proof.
  assert (Hok : value (train Stub.run12 Stub.start) = Ok tt) by (vm_compute; reflexivity).
  split; [exact Hok |].
  exact (proj2 (proj2 (evaluate_exactly_when_due Stub.run12 Stub.start Hok))).
Defined.

(** The same run, with the snapshot interval 4, writes the numbered
    checkpoints 4, 8 and 12. *)
Lemma snapshot_exactly_at_multiples_witness :
  value (train Stub.run12 Stub.start) = Ok tt /\
  (forall t,
      In t (epoch_snapshots (emitted (train Stub.run12 Stub.start))) <->
      1 <= t <= epoch Stub.run12 /\ (snapshot_interval Stub.run12 | t)).
Proof.
  assert (Hok : value (train Stub.run12 Stub.start) = Ok tt) by (vm_compute; reflexivity).
  split; [exact Hok |].
  exact (proj2 (snapshot_exactly_at_multiples Stub.run12 Stub.start Hok)).
Defined.

(** The same run, with the scheduler interval 5, has the iterations 0
    to 11 and steps the scheduler three times, in the iterations 0, 5
    and 10. *)
Lemma scheduler_steps_exactly_at_multiples_witness :
  value (train Stub.run12 Stub.start) = Ok tt /\
  map fst (train_iterations Stub.run12 Stub.start) = [0; 1; 2; 3; 4; 5; 6; 7; 8; 9; 10; 11] /\
  Z.of_nat (List.length (scheduler_steps (emitted (train Stub.run12 Stub.start)))) = 3 /\
  (forall e,
      (exists evs, In (e, evs) (train_iterations Stub.run12 Stub.start) /\
                   scheduler_steps evs = [tt]) <->
      0 <= e < 12 /\ (5 | e)) /\
  map (fun it => (fst it, List.length (scheduler_steps (snd it))))
      (train_iterations Stub.run12 Stub.start)
  = [(0, 1%nat); (1, 0%nat); (2, 0%nat); (3, 0%nat); (4, 0%nat); (5, 1%nat);
     (6, 0%nat); (7, 0%nat); (8, 0%nat); (9, 0%nat); (10, 1%nat); (11, 0%nat)].
Proof.
  assert (Hok : value (train Stub.run12 Stub.start) = Ok tt) by (vm_compute; reflexivity).
  split; [exact Hok |].
  destruct (scheduler_steps_exactly_at_multiples Stub.run12 Stub.start Hok)
    as (Hfst & _ & _ & Hexact & _ & Hcount).
  split; [rewrite Hfst; reflexivity |].
  split; [rewrite Hcount; reflexivity |].
  split; [exact Hexact | vm_compute; reflexivity].
Defined.

(** The same run leaves 12 losses, 12 epoch times and one total time. *)
Lemma history_has_one_entry_per_epoch_witness :
  value (train Stub.run12 Stub.start) = Ok tt /\
  List.length (hist_loss (train_hist (final (train Stub.run12 Stub.start)))) = 12%nat /\
  List.length (per_epoch_time (train_hist (final (train Stub.run12 Stub.start)))) = 12%nat /\
  List.length (total_time (train_hist (final (train Stub.run12 Stub.start)))) = 1%nat.
Proof.
  assert (Hok : value (train Stub.run12 Stub.start) = Ok tt) by (vm_compute; reflexivity).
  split; [exact Hok |].
  exact (proj1 (history_has_one_entry_per_epoch Stub.run12 Stub.start Hok)).
Defined.

(** The stub samples hold 2048 points and [evaluate] returns on them,
    whatever [num_points] is. *)
Lemma evaluate_needs_2048_points_witness :
  (exists r, value (evaluate Stub.run12 1 Stub.start) = Ok r) /\
  (forall n, evaluate (with_num_points Stub.run12 n) 1 Stub.start
             = evaluate Stub.run12 1 Stub.start) /\
  (exists ts tr,
      hd_error (loader_dataset (test_loader Stub.run12)) = Some ts /\
      hd_error (loader_dataset (train_loader Stub.run12)) = Some tr /\
      numel (fst ts) = 1 * 2048 * 3 /\
      numel (fst tr) = 1 * 2048 * 3).
Proof.
  assert (Hok : exists r, value (evaluate Stub.run12 1 Stub.start) = Ok r)
    by (eexists; vm_compute; reflexivity).
  split; [exact Hok |].
  destruct (evaluate_needs_2048_points Stub.run12 1 Stub.start Hok)
    as ((ts & tr & Hts & Htr & Hn1 & Hn2 & _) & Hnum).
  split; [exact Hnum |]. exists ts, tr. auto.
Defined.

(** The run of 12 epochs logs a "Test Loss" in each iteration. *)
Lemma test_loss_read_never_fails_witness :
  value (train Stub.run12 Stub.start) = Ok tt /\
  value (train Stub.run12 Stub.start) <> Raise UnboundLocalError /\
  (forall pre e evs post,
      train_iterations Stub.run12 Stub.start = pre ++ (e, evs) :: post ->
      (evaluate_calls evs <> [] <-> evaluation_due e = true) /\
      exists r,
        scalars "Test Loss" evs = [(loss r, e)] /\
        last_result (List.concat (map snd pre) ++ evs) = Some r).
Proof.
  assert (Hok : value (train Stub.run12 Stub.start) = Ok tt) by (vm_compute; reflexivity).
  split; [exact Hok |].
  destruct (test_loss_read_never_fails Stub.run12 Stub.start) as (Hnever & Hlog).
  split; [exact Hnever | exact (Hlog Hok)].
Defined.

(** With floats that have a nan: a run of 20 epochs whose evaluations
    return the numbers 5, 3 and 4 completes, and the "best" checkpoint
    follows the rule; it is written after the epochs 1 and 10 and not
    after the epoch 20. *)
Lemma best_checkpoint_iff_new_minimum_witness :
  value (train NanStub.numbers NanStub.start) = Ok tt /\
  ordered (compared_losses NanStub.numbers NanStub.start) /\
  NanStub.evaluations (train_iterations NanStub.numbers NanStub.start)
  = [(0, [Some 5%Q], [TagStr "best"]);
     (9, [Some 3%Q], [TagStr "best"]);
     (19, [Some 4%Q], [])] /\
  (forall pre e evs post,
      train_iterations NanStub.numbers NanStub.start = pre ++ (e, evs) :: post ->
      (best_saved evs <->
       exists r,
         evaluate_results evs = [r] /\
         flt (loss r) (of_int 1000000000) = true /\
         forall e' evs' r',
           In (e', evs') pre -> In r' (evaluate_results evs') ->
           flt (loss r) (loss r') = true)).
Proof.
  assert (Hok : value (train NanStub.numbers NanStub.start) = Ok tt)
    by (vm_compute; reflexivity).
  assert (Hord : ordered (compared_losses NanStub.numbers NanStub.start)).
  { apply ordered_numbers. vm_compute. repeat constructor; discriminate. }
  split; [exact Hok |]. split; [exact Hord |]. split; [vm_compute; reflexivity |].
  exact (best_checkpoint_iff_new_minimum NanStub.numbers NanStub.start Hok Hord).
Defined.

(** A call of [evaluate] in a fresh process returns; autograd stays on
    and the model is in evaluation mode in every forward pass. *)
Lemma evaluate_keeps_grad_switch_witness :
  value (evaluate Stub.run12 1 Stub.start) = Ok (@mkRes Stub.fw 2%Q) /\
  Forall (grad_is (grad_enabled Stub.start)) (emitted (evaluate Stub.run12 1 Stub.start)) /\
  grad_enabled (final (evaluate Stub.run12 1 Stub.start)) = grad_enabled Stub.start /\
  Forall in_eval_mode (emitted (evaluate Stub.run12 1 Stub.start)).
Proof.
  assert (Hok : value (evaluate Stub.run12 1 Stub.start) = Ok (@mkRes Stub.fw 2%Q))
    by (vm_compute; reflexivity).
  split; [exact Hok |].
  destruct (evaluate_keeps_grad_switch Stub.run12 1 Stub.start) as (HT & Hg & Hmode).
  split; [exact HT |]. split; [exact Hg | exact (Hmode _ Hok)].
Defined.

(** The pictures of [evaluate] with the tag 10, and those of the
    iterations of a run of 12 epochs. *)
Lemma evaluate_pictures_witness :
  (exists r, value (evaluate Stub.run12 10 Stub.start) = Ok r) /\
  value (train Stub.run12 Stub.start) = Ok tt /\
  savefig_paths (emitted (evaluate Stub.run12 10 Stub.start))
  = ["results/test_10.png"; "results/test_0.png"; "results/train_10.png";
     "results/train_10_origin.png"]%string /\
  (forall i evs,
     In (i, evs) (train_iterations Stub.run12 Stub.start) ->
     savefig_paths evs = if evaluation_due i then pictures Stub.run12 (i + 1) else []).
Proof.
  assert (Hev : exists r, value (evaluate Stub.run12 10 Stub.start) = Ok r)
    by (eexists; vm_compute; reflexivity).
  assert (Hok : value (train Stub.run12 Stub.start) = Ok tt) by (vm_compute; reflexivity).
  split; [exact Hev |]. split; [exact Hok |].
  destruct (evaluate_pictures Stub.run12 Stub.start) as (Hcall & Hrun & _).
  split; [exact (Hcall 10 Hev) | exact (Hrun Hok)].
Defined.

(** * Further properties *)

(** ** Runs that raise *)

Section Failing.
Context {fw : Framework}.

Lemma fails_intro {A : Type} (m : M A) (s : State) (e : exn) :
  value (m s) = Raise e -> fails m s (emitted (m s)) (final (m s)) e.
Proof.
  unfold fails. destruct (m s) as [T s' v]; simpl. intros ->. reflexivity.
Qed.

Lemma fails_value {A : Type} (m : M A) s T s' (e : exn) :
  fails m s T s' e -> value (m s) = Raise e.
Proof. unfold fails. intros ->. reflexivity. Qed.

Lemma fails_bind {A B : Type} (m : M A) (f : A -> M B) s T s' (e : exn) :
  fails (bind m f) s T s' e ->
  fails m s T s' e \/
  exists a T1 s1 T2, runs m s T1 s1 a /\ fails (f a) s1 T2 s' e /\ T = T1 ++ T2.
Proof.
  unfold fails, runs, bind. destruct (m s) as [T1 s1 [a | e0]]; simpl.
  - destruct (f a s1) as [T2 s2 v] eqn:Hf; simpl. intros H. inversion H; subst.
    right. exists a, T1, s1, T2. rewrite Hf. auto.
  - intros H. inversion H; subst. left. reflexivity.
Qed.

Lemma fails_lift {A : Type} (r : result A) s T s' (e : exn) :
  fails (lift r) s T s' e -> r = Raise e /\ T = [] /\ s' = s.
Proof.
  destruct r as [a | e0]; unfold fails; cbn; intros H; inversion H; auto.
Qed.

Lemma fails_first {A : Type} (l : list A) s T s' (e : exn) :
  fails (first l) s T s' e -> l = [] /\ e = IndexError /\ T = [] /\ s' = s.
Proof.
  destruct l as [| x rest]; unfold fails; cbn; intros H; inversion H; auto.
Qed.

Lemma fails_for_each {X Acc : Type} (body : X -> Acc -> M Acc) (e : exn) (xs : list X) :
  forall acc s T s',
    fails (for_each xs body acc) s T s' e ->
    exists pre x post acc0 T0 s0 T1,
      xs = pre ++ x :: post /\
      runs (for_each pre body acc) s T0 s0 acc0 /\
      fails (body x acc0) s0 T1 s' e /\
      T = T0 ++ T1.
Proof.
  induction xs as [| x xs IH]; intros acc s T s' H.
  - rewrite for_each_nil in H. unfold fails in H. cbn in H. discriminate H.
  - rewrite for_each_cons in H. apply fails_bind in H.
    destruct H as [H | (acc1 & T1 & s1 & T2 & Hbody & H & ->)].
    + exists [], x, xs, acc, [], s, T. repeat split; try assumption.
    + apply IH in H.
      destruct H as (pre & y & post & acc0 & T0 & s0 & T3 & -> & Hpre & Hy & ->).
      exists (x :: pre), y, post, acc0, (T1 ++ T0), s0, T3.
      split; [reflexivity |]. split.
      * rewrite for_each_cons. eapply bind_runs; eassumption.
      * split; [exact Hy | apply app_assoc].
Qed.

End Failing.

(** Analysis of a run that raises, statement by statement, with the
    events emitted and the state left. *)
Ltac fail_step H :=
  match type of H with
  | fails (bind _ _) _ _ _ _ =>
      let Hrun := fresh "Hrun" in
      let HT := fresh "HT" in
      apply fails_bind in H;
      destruct H as [H | (? & ? & ? & ? & Hrun & H & HT)];
      [fail_step H | run_step Hrun; fail_step H]
  | fails (if ?c then _ else _) _ _ _ _ =>
      destruct c eqn:?; fail_step H
  | fails (lift _) _ _ _ _ =>
      apply fails_lift in H; destruct H as (? & ? & ?)
  | fails (first _) _ _ _ _ =>
      apply fails_first in H; destruct H as (? & ? & ? & ?)
  | fails (for_each _ _ _) _ _ _ _ => idtac
  | fails (train_epoch _ _ _) _ _ _ _ => idtac
  | fails (evaluate _ _) _ _ _ _ => idtac
  | fails (last_item _) _ _ _ _ => idtac
  | fails (read_res _) _ _ _ _ => idtac
  | fails _ _ _ _ _ => exfalso; apply fails_value in H; cbn in H; discriminate H
  | _ => idtac
  end.

(** ** [train_epoch] *)

Section TrainEpochRuns.
Context {fw : Framework}.

(** One step of the batch loop of [train_epoch], in full. *)
Lemma train_batch_run (self : Trainer) (ep num_batch : Z) (t0 : float)
      (x : Z * (Tensor storage * label)) (acc : list float) s T s' (acc' : list float) :
  runs (train_batch self ep num_batch t0 x acc) s T s' acc' ->
  net s' = update self (training s) (net s) (snd x) /\
  acc' = acc ++ [update_loss self (training s) (net s) (snd x)] /\
  training s' = training s /\
  optimizer_steps T = [tt] /\
  forward_modes T = [training s] /\
  progress_lines T = (if ((fst x + 1) mod 10 =? 0) && verbose self then [fst x + 1] else []) /\
  epoch_lines T = [].
Proof.
  unfold train_batch. cbv zeta. intros H.
  apply runs_bind in H. destruct H as (? & ? & ? & ? & Hz & H & ->).
  apply runs_bind in H. destruct H as (? & ? & ? & ? & Hm & H & ->).
  apply runs_bind in H. destruct H as (? & ? & ? & ? & Hl & H & ->).
  apply runs_bind in H. destruct H as (? & ? & ? & ? & Hb & H & ->).
  apply runs_bind in H. destruct H as (? & ? & ? & ? & Ho & H & ->).
  apply runs_bind in H. destruct H as (? & ? & ? & ? & Hp & H & ->).
  run_step Hz. run_step Hm. run_step Hl. run_step Hb. run_step Ho. run_step H.
  destruct (((fst x + 1) mod 10 =? 0) && verbose self); run_step Hp; subst;
    repeat split; reflexivity.
Qed.


Lemma optimizer_steps_app (T1 T2 : list event) :
  optimizer_steps (T1 ++ T2) = optimizer_steps T1 ++ optimizer_steps T2.
Proof. apply flat_map_app. Qed.

Lemma forward_modes_app (T1 T2 : list event) :
  forward_modes (T1 ++ T2) = forward_modes T1 ++ forward_modes T2.
Proof. apply flat_map_app. Qed.

Lemma progress_lines_app (T1 T2 : list event) :
  progress_lines (T1 ++ T2) = progress_lines T1 ++ progress_lines T2.
Proof. apply flat_map_app. Qed.

Lemma epoch_lines_app (T1 T2 : list event) :
  epoch_lines (T1 ++ T2) = epoch_lines T1 ++ epoch_lines T2.
Proof. apply flat_map_app. Qed.

(** The batch loop of [train_epoch], in full: one update per batch, in
    the order of the loader, each loss taken before its update; a
    progress line for each batch whose number is a multiple of 10 when
    [self.verbose] is set. *)
Lemma batch_loop_run (self : Trainer) (ep num_batch : Z) (t0 : float)
      (xs : list (Z * (Tensor storage * label))) :
  forall (acc : list float) s T s' (acc' : list float),
    runs (for_each xs (train_batch self ep num_batch t0) acc) s T s' acc' ->
    net s' = fold_left (update self (training s)) (map snd xs) (net s) /\
    acc' = acc ++ epoch_losses self (training s) (net s) (map snd xs) /\
    training s' = training s /\
    optimizer_steps T = repeat tt (List.length xs) /\
    forward_modes T = repeat (training s) (List.length xs) /\
    progress_lines T
    = (if verbose self
       then filter (fun i => i mod 10 =? 0) (map (fun x => fst x + 1) xs)
       else []) /\
    epoch_lines T = [].
Proof.
  induction xs as [| x xs IH]; intros acc s T s' acc' H.
  - rewrite for_each_nil in H. run_step H. subst. cbn. rewrite app_nil_r.
    destruct (verbose self); repeat split; reflexivity.
  - rewrite for_each_cons in H.
    apply runs_bind in H. destruct H as (acc1 & T1 & s1 & T2 & Hbody & Hrest & ->).
    apply IH in Hrest. destruct Hrest as (Hn & Ha & Htr & Ho & Hf & Hp & He).
    apply train_batch_run in Hbody.
    destruct Hbody as (Hn1 & Ha1 & Htr1 & Ho1 & Hf1 & Hp1 & He1).
    rewrite optimizer_steps_app, forward_modes_app, progress_lines_app, epoch_lines_app.
    rewrite Hn, Ha, Htr, Ho, Hf, Hp, He, Hn1, Ha1, Htr1, Ho1, Hf1, Hp1, He1.
    cbn [map fold_left epoch_losses List.length repeat app filter snd fst].
    rewrite <- app_assoc. cbn [app].
    destruct (verbose self); rewrite ?andb_true_r, ?andb_false_r;
      [destruct ((fst x + 1) mod 10 =? 0) |]; repeat split; reflexivity.
Qed.

Lemma map_fst_enumerate {A : Type} (xs : list A) :
  map fst (enumerate xs) = range (Z.of_nat (List.length xs)).
Proof.
  unfold enumerate.
  assert (H : forall (l : list Z) (ys : list A),
             List.length l = List.length ys -> map fst (combine l ys) = l).
  { induction l as [| z l IH]; destruct ys as [| y ys]; simpl; try discriminate; auto.
    intros H. f_equal. apply IH. lia. }
  apply H. rewrite length_range. lia.
Qed.

Lemma length_enumerate {A : Type} (xs : list A) :
  List.length (enumerate xs) = List.length xs.
Proof. rewrite <- (map_snd_enumerate xs) at 2. rewrite length_map. reflexivity. Qed.

(** A completed [train_epoch], in full. *)
Lemma train_epoch_run (self : Trainer) (ep : Z) (v : bool) s T s' u :
  runs (train_epoch self ep v) s T s' u ->
  let bs := batches (train_loader self) in
  net s' = fold_left (update self (training s)) bs (net s) /\
  hist_loss (train_hist s')
  = hist_loss (train_hist s) ++ [np_mean (epoch_losses self (training s) (net s) bs)] /\
  training s' = training s /\
  optimizer_steps T = repeat tt (List.length bs) /\
  forward_modes T = repeat (training s) (List.length bs) /\
  progress_lines T
  = (if verbose self
     then filter (fun i => i mod 10 =? 0) (map Z.succ (range (Z.of_nat (List.length bs))))
     else []) /\
  epoch_lines T = [ep + 1].
Proof.
  intros H bs. subst bs. unfold train_epoch in H.
  apply runs_bind in H. destruct H as (t0 & T0 & s0 & T0' & H0 & H & ->).
  apply runs_bind in H. destruct H as (nb & T1 & s1 & T1' & H1 & H & ->).
  apply runs_bind in H. destruct H as (buf & T2 & s2 & T2' & H2 & H & ->).
  pose proof (train_epoch_loop _ _ _ _ _ _ _ _ _ _ H2) as (_ & Hh & _ & _).
  apply batch_loop_run in H2. destruct H2 as (Hn & Ha & Htr & Ho & Hf & Hp & He).
  rewrite map_snd_enumerate, length_enumerate in *.
  run_step H0. run_step H1. run_step H. subst.
  rewrite !optimizer_steps_app, !forward_modes_app, !progress_lines_app, !epoch_lines_app.
  rewrite Ho, Hf, Hp, He.
  cbn [train_hist net training grad_enabled ticks hist_loss per_epoch_time total_time].
  rewrite Hn, Htr, Hh.
  cbn [train_hist net training grad_enabled ticks hist_loss per_epoch_time total_time
       optimizer_steps forward_modes progress_lines epoch_lines flat_map app].
  rewrite !app_nil_r. rewrite <- map_fst_enumerate, map_map.
  repeat split; reflexivity.
Qed.

End TrainEpochRuns.

Section TrainEpochTheorems.
Context {fw : Framework}.

(** X1.  A call of [train_epoch] that returns has made one update per
    batch of the train loader, in order, in the mode the model is in,
    which it does not change; the loss it has appended to the history is
    the mean of the losses each batch had before its own update; and the
    batch size was not zero. *)
Theorem train_epoch_updates (self : Trainer) (ep : Z) (v : bool) (s : State) :
  value (train_epoch self ep v s) = Ok tt ->
  batch_size self <> 0 /\
  net (final (train_epoch self ep v s))
  = fold_left (update self (training s)) (batches (train_loader self)) (net s) /\
  hist_loss (train_hist (final (train_epoch self ep v s)))
  = hist_loss (train_hist s)
    ++ [np_mean (epoch_losses self (training s) (net s) (batches (train_loader self)))] /\
  training (final (train_epoch self ep v s)) = training s /\
  optimizer_steps (emitted (train_epoch self ep v s))
  = repeat tt (List.length (batches (train_loader self))) /\
  forward_modes (emitted (train_epoch self ep v s))
  = repeat (training s) (List.length (batches (train_loader self))).
Proof.
  intros Hv. apply runs_intro in Hv.
  pose proof (train_epoch_spec _ _ _ _ _ _ _ Hv) as (Hbs & _).
  apply train_epoch_run in Hv.
  destruct Hv as (Hn & Hh & Htr & Ho & Hf & _ & _).
  split; [exact Hbs |]. split; [exact Hn |]. split; [exact Hh |].
  split; [exact Htr |]. split; [exact Ho | exact Hf].
Qed.


End TrainEpochTheorems.

(** ** [evaluate] *)

Section EvaluateFails.
Context {fw : Framework}.

Lemma check_sample_ok (self : Trainer) (l : DataLoader storage label) t rest v :
  loader_dataset l = t :: rest ->
  view [1; 2048; 3] (to_device self (fst t)) = Ok v ->
  check_sample l = Ok tt.
Proof.
  intros Hl Hv. unfold check_sample. rewrite Hl.
  unfold view in *. rewrite numel_to_device in Hv.
  destruct (numel (fst t) =? prod_dims [1; 2048; 3]); [reflexivity | discriminate Hv].
Qed.

Lemma check_sample_raise (self : Trainer) (l : DataLoader storage label) t rest e :
  loader_dataset l = t :: rest ->
  view [1; 2048; 3] (to_device self (fst t)) = Raise e ->
  check_sample l = Raise e.
Proof.
  intros Hl Hv. unfold check_sample. rewrite Hl.
  unfold view in *. rewrite numel_to_device in Hv.
  destruct (numel (fst t) =? prod_dims [1; 2048; 3]); [discriminate Hv |].
  inversion Hv. reflexivity.
Qed.

(** A call of [evaluate] that raises: the loss loop has run in full;
    the exception is that of the first bad sample, the test set's before
    the train set's; the model is left in evaluation mode. *)
Lemma evaluate_fails (self : Trainer) (ep : Z) s T s' (e : exn) :
  fails (evaluate self ep) s T s' e ->
  s' = eval_state s /\
  ((check_sample (test_loader self) = Raise e /\
    T = EvEvaluate ep
        :: flat_map (eval_batch_events self (eval_state s)) (batches (train_loader self))) \/
   (exists ts rest,
       loader_dataset (test_loader self) = ts :: rest /\
       check_sample (test_loader self) = Ok tt /\
       check_sample (train_loader self) = Raise e /\
       T = EvEvaluate ep
           :: flat_map (eval_batch_events self (eval_state s)) (batches (train_loader self))
           ++ test_figures self s ep (to_device self (fst ts)))).
Proof.
  unfold evaluate. intros H.
  apply fails_bind in H. destruct H as [H | (u0 & T0 & s0 & T0' & H0 & H & ->)];
    [fail_step H |].
  run_step H0. subst.
  apply fails_bind in H. destruct H as [H | (u1 & T1 & s1 & T1' & H1 & H & ->)];
    [fail_step H |].
  run_step H1. subst.
  apply fails_bind in H. destruct H as [H | (buf & T2 & s2 & T2' & H2 & H & ->)].
  { unfold fails in H. rewrite evaluate_loop in H. discriminate H. }
  unfold runs in H2. rewrite evaluate_loop in H2. inversion H2; subst; clear H2.
  rewrite map_snd_enumerate in *.
  fail_step H.
  - subst. split; [reflexivity |]. left. split.
    + unfold check_sample. rewrite H. reflexivity.
    + cbn [app]. rewrite app_nil_r. reflexivity.
  - subst. split; [reflexivity |]. left. split.
    + eapply check_sample_raise; eassumption.
    + cbn [app]. rewrite app_nil_r. reflexivity.
  - pose proof (check_sample_ok _ _ _ _ _ H0 H3) as Htest.
    apply view_ok in H3. destruct H3 as (_ & ->).
    split; [destruct (ep =? 10); run_step Hrun; subst; reflexivity |].
    right. exists x, x3. split; [exact H0 |]. split; [exact Htest |].
    split; [unfold check_sample; rewrite H, H11; reflexivity |].
    unfold test_figures, reconstruction, reshaped, eval_state.
    destruct (ep =? 10); run_step Hrun; subst; cbn [app];
      rewrite ?app_nil_r; reflexivity.
  - pose proof (check_sample_ok _ _ _ _ _ H0 H3) as Htest.
    apply view_ok in H3. destruct H3 as (_ & ->).
    split; [destruct (ep =? 10); run_step Hrun; subst; reflexivity |].
    right. exists x, x3. split; [exact H0 |]. split; [exact Htest |].
    split; [eapply check_sample_raise; eassumption |].
    unfold test_figures, reconstruction, reshaped, eval_state.
    destruct (ep =? 10); run_step Hrun; subst; cbn [app];
      rewrite ?app_nil_r; reflexivity.
Qed.


Lemma eval_batches_forward_modes (self : Trainer) (st : State)
      (bs : list (Tensor storage * label)) :
  forward_modes (flat_map (eval_batch_events self st) bs)
  = repeat (training st) (List.length bs).
Proof.
  induction bs as [| b bs IH]; [reflexivity |].
  cbn [flat_map]. rewrite forward_modes_app, IH. reflexivity.
Qed.

Lemma eval_batches_optimizer_steps (self : Trainer) (st : State)
      (bs : list (Tensor storage * label)) :
  optimizer_steps (flat_map (eval_batch_events self st) bs) = [].
Proof.
  induction bs as [| b bs IH]; [reflexivity |].
  cbn [flat_map]. rewrite optimizer_steps_app, IH. reflexivity.
Qed.

Lemma eval_batches_savefig (self : Trainer) (st : State)
      (bs : list (Tensor storage * label)) :
  savefig_paths (flat_map (eval_batch_events self st) bs) = [].
Proof.
  induction bs as [| b bs IH]; [reflexivity |].
  cbn [flat_map]. rewrite savefig_paths_app, IH. reflexivity.
Qed.

Lemma check_sample_has (l : DataLoader storage label) t rest :
  loader_dataset l = t :: rest -> numel (fst t) = 6144 -> check_sample l = Ok tt.
Proof.
  intros Hl Hn. unfold check_sample, view. rewrite Hl, Hn. reflexivity.
Qed.

(** X4.  [evaluate] changes nothing but the mode of the model, which it
    leaves in training mode when it returns, whatever it was on entry,
    and in evaluation mode when it raises; it takes no optimizer step. *)
Theorem evaluate_changes_only_the_mode (self : Trainer) (ep : Z) (s : State) :
  final (evaluate self ep s)
  = mkState (net s)
            (match value (evaluate self ep s) with Ok _ => true | Raise _ => false end)
            (grad_enabled s) (train_hist s) (ticks s) /\
  optimizer_steps (emitted (evaluate self ep s)) = [].
Proof.
  destruct (value (evaluate self ep s)) as [r | e] eqn:Hv.
  - apply runs_intro in Hv. apply evaluate_spec in Hv.
    destruct Hv as (ts & rt & tr & rtr & _ & _ & _ & _ & -> & -> & _).
    split; [reflexivity |].
    change (EvEvaluate ep :: ?l) with ([EvEvaluate ep] ++ l).
    rewrite !optimizer_steps_app, eval_batches_optimizer_steps.
    unfold test_figures. destruct (ep =? 10); reflexivity.
  - apply fails_intro in Hv. apply evaluate_fails in Hv.
    destruct Hv as (-> & [(_ & ->) | (ts & rt & _ & _ & _ & ->)]); (split; [reflexivity |]).
    + change (EvEvaluate ep :: ?l) with ([EvEvaluate ep] ++ l).
      rewrite !optimizer_steps_app, eval_batches_optimizer_steps. reflexivity.
    + change (EvEvaluate ep :: ?l) with ([EvEvaluate ep] ++ l).
      rewrite !optimizer_steps_app, eval_batches_optimizer_steps.
      unfold test_figures. destruct (ep =? 10); reflexivity.
Qed.

(** The outcome of [evaluate] in this model, where [view] looks at the
    number of elements only. *)
Lemma evaluate_value (self : Trainer) (ep : Z) (s : State) :
  value (evaluate self ep s)
  = match check_sample (test_loader self) with
    | Raise e => Raise e
    | Ok _ =>
        match check_sample (train_loader self) with
        | Raise e => Raise e
        | Ok _ => Ok (mkRes (evaluated_loss self (net s)))
        end
    end.
Proof.
  destruct (value (evaluate self ep s)) as [r | e] eqn:Hv.
  - apply runs_intro in Hv. apply evaluate_spec in Hv.
    destruct Hv as (ts & rt & tr & rtr & Hts & Htr & Hnts & Hntr & _ & _ & ->).
    rewrite (check_sample_has _ _ _ Hts Hnts), (check_sample_has _ _ _ Htr Hntr).
    reflexivity.
  - apply fails_intro in Hv. apply evaluate_fails in Hv.
    destruct Hv as (_ & [(-> & _) | (ts & rt & _ & -> & -> & _)]); reflexivity.
Qed.

Lemma Forall_repeat {A : Type} (P : A -> Prop) (a : A) (n : nat) :
  P a -> Forall P (repeat a n).
Proof.
  intros Ha. apply Forall_forall. intros x Hx. apply repeat_spec in Hx. subst. exact Ha.
Qed.

(** X5.  [evaluate] reaches the first sample of the test set only after
    its loss loop: when the test set is empty ([IndexError]) or its
    first sample is not of 1 * 2048 * 3 numbers ([RuntimeError]), the
    exception is raised after one forward pass per batch of the train
    loader, all in evaluation mode, and before any picture is written.
    Whenever [evaluate] raises, the loss loop has run in full, every
    forward pass was in evaluation mode, the pictures written are none
    or those of the test sample, the network is untouched and the model
    is left in evaluation mode. *)
Theorem evaluate_raises_for_first_bad_sample (self : Trainer) (ep : Z) (s : State) :
  (forall e,
      check_sample (test_loader self) = Raise e ->
      value (evaluate self ep s) = Raise e /\
      forward_modes (emitted (evaluate self ep s))
      = repeat false (List.length (batches (train_loader self))) /\
      savefig_paths (emitted (evaluate self ep s)) = []) /\
  (forall e,
      value (evaluate self ep s) = Raise e ->
      (List.length (batches (train_loader self))
       <= List.length (forward_modes (emitted (evaluate self ep s))))%nat /\
      Forall (fun mode => mode = false) (forward_modes (emitted (evaluate self ep s))) /\
      (savefig_paths (emitted (evaluate self ep s)) = [] \/
       savefig_paths (emitted (evaluate self ep s))
       = [(result_dir self ++ "test_" ++ str_int ep ++ ".png")%string]
         ++ (if ep =? 10 then [(result_dir self ++ "test_0.png")%string] else [])) /\
      net (final (evaluate self ep s)) = net s /\
      training (final (evaluate self ep s)) = false).
Proof.
  assert (Hraise : forall e,
             value (evaluate self ep s) = Raise e ->
             final (evaluate self ep s) = eval_state s /\
             ((check_sample (test_loader self) = Raise e /\
               forward_modes (emitted (evaluate self ep s))
               = repeat false (List.length (batches (train_loader self))) /\
               savefig_paths (emitted (evaluate self ep s)) = []) \/
              (check_sample (test_loader self) = Ok tt /\
               forward_modes (emitted (evaluate self ep s))
               = repeat false (List.length (batches (train_loader self))) ++ [false] /\
               savefig_paths (emitted (evaluate self ep s))
               = [(result_dir self ++ "test_" ++ str_int ep ++ ".png")%string]
                 ++ (if ep =? 10 then [(result_dir self ++ "test_0.png")%string]
                     else [])))).
  { intros e Hv. apply fails_intro in Hv. apply evaluate_fails in Hv.
    destruct Hv as (-> & [(Ht & ->) | (ts & rt & _ & Ht & _ & ->)]);
      (split; [reflexivity |]).
    - left. split; [exact Ht |].
      change (EvEvaluate ep :: ?l) with ([EvEvaluate ep] ++ l).
      rewrite forward_modes_app, savefig_paths_app, eval_batches_forward_modes,
        eval_batches_savefig.
      split; reflexivity.
    - right. split; [exact Ht |].
      change (EvEvaluate ep :: ?l) with ([EvEvaluate ep] ++ l).
      rewrite !forward_modes_app, !savefig_paths_app, eval_batches_forward_modes,
        eval_batches_savefig.
      unfold test_figures. destruct (ep =? 10); split; reflexivity. }
  split.
  - intros e Ht.
    assert (Hv : value (evaluate self ep s) = Raise e) by (rewrite evaluate_value, Ht; reflexivity).
    split; [exact Hv |].
    destruct (Hraise e Hv) as (_ & [(_ & Hf & Hp) | (Hok & _)]); [split; assumption |].
    rewrite Hok in Ht. discriminate Ht.
  - intros e Hv.
    destruct (Hraise e Hv) as (Hfin & [(_ & Hf & Hp) | (_ & Hf & Hp)]); rewrite Hf, Hp, Hfin.
    + split; [rewrite repeat_length; lia |].
      split; [apply Forall_repeat; reflexivity |].
      split; [left; reflexivity |]. split; reflexivity.
    + split; [rewrite length_app, repeat_length; lia |].
      split; [apply Forall_app; split; [apply Forall_repeat; reflexivity | repeat constructor] |].
      split; [right; reflexivity |]. split; reflexivity.
Qed.

End EvaluateFails.

(** ** The iterations of [train] *)

Section TrainBodyRuns.
Context {fw : Framework}.

Lemma eval_part_run (self : Trainer) (ep : Z) (loc : Locals) s T s' (loc1 : Locals) :
  runs (if ((ep + 1) mod 10 =? 0) || (ep =? 0) then
          bind (evaluate self (ep + 1)) (fun r =>
            if flt (loss r) (best_loss loc) then
              bind (_snapshot self (TagStr "best")) (fun _ =>
                ret (mkLocals (loss r) (Some r)))
            else ret (mkLocals (best_loss loc) (Some r)))
        else ret loc) s T s' loc1 ->
  net s' = net s /\
  train_hist s' = train_hist s /\
  training s' = (if evaluation_due ep then true else training s) /\
  forward_modes T
  = (if evaluation_due ep
     then repeat false (List.length (batches (train_loader self)) + 2)
     else []) /\
  optimizer_steps T = [] /\
  skeleton T
  = (if evaluation_due ep then
       [EvEvaluate (ep + 1); EvEvaluated (ep + 1) (mkRes (evaluated_loss self (net s)))]
       ++ (if flt (evaluated_loss self (net s)) (best_loss loc)
           then [EvTorchSave (TagStr "best") (snapshot_path self (TagStr "best")) (net s)]
           else [])
     else []) /\
  (if evaluation_due ep
   then loc1 = mkLocals (if flt (evaluated_loss self (net s)) (best_loss loc)
                         then evaluated_loss self (net s) else best_loss loc)
                        (Some (mkRes (evaluated_loss self (net s))))
   else loc1 = loc).
Proof.
  unfold evaluation_due.
  destruct (((ep + 1) mod 10 =? 0) || (ep =? 0)); intros H.
  - apply runs_bind in H. destruct H as (r & Te & se & Te' & He & Hb & ->).
    pose proof (evaluate_skeleton _ _ _ _ _ _ He) as (Hsk & _ & _ & _).
    apply evaluate_spec in He.
    destruct He as (ts & rt & tr & rtr & _ & _ & _ & _ & HTe & -> & ->).
    assert (Hf : forward_modes Te
                 = repeat false (List.length (batches (train_loader self)) + 2)).
    { rewrite HTe. change (EvEvaluate (ep + 1) :: ?l) with ([EvEvaluate (ep + 1)] ++ l).
      rewrite !forward_modes_app, eval_batches_forward_modes, repeat_app.
      unfold test_figures. destruct (ep + 1 =? 10); reflexivity. }
    assert (Ho : optimizer_steps Te = []).
    { rewrite HTe. change (EvEvaluate (ep + 1) :: ?l) with ([EvEvaluate (ep + 1)] ++ l).
      rewrite !optimizer_steps_app, eval_batches_optimizer_steps.
      unfold test_figures. destruct (ep + 1 =? 10); reflexivity. }
    change (np_mean (eval_losses self s (train_loader self)))
      with (evaluated_loss self (net s)) in *.
    cbn [loss] in *.
    destruct (flt (evaluated_loss self (net s)) (best_loss loc)); run_step Hb; subst;
      rewrite ?forward_modes_app, ?optimizer_steps_app, ?skeleton_app, Hf, Ho, Hsk;
      cbn [net train_hist training]; rewrite ?app_nil_r; repeat split; reflexivity.
  - run_step H. subst. repeat split; reflexivity.
Qed.

Lemma sched_part_run (m : Z) s T s' u :
  runs (if m =? 0 then call_scheduler_step else ret tt) s T s' u ->
  s' = mkState (if m =? 0 then scheduler_step (net s) else net s) (training s)
               (grad_enabled s) (train_hist s) (ticks s) /\
  T = (if m =? 0 then [EvSchedulerStep] else []).
Proof.
  destruct (m =? 0); intros H; run_step H; subst; [split; reflexivity |].
  destruct s; split; reflexivity.
Qed.

Lemma snap_part_run (self : Trainer) (t : Tag) (m : Z) s T s' u :
  runs (if m =? 0 then _snapshot self t else ret tt) s T s' u ->
  s' = s /\
  T = (if m =? 0
       then [EvTorchSave t (snapshot_path self t) (net s);
             EvPrint (MsgSaved (snapshot_path self t))]
       else []).
Proof. destruct (m =? 0); intros H; run_step H; subst; split; reflexivity. Qed.

(** One completed iteration of the loop of [train], in full. *)
Lemma train_body_run (self : Trainer) (ep : Z) (loc : Locals) s T s' (loc' : Locals) :
  runs (train_body self ep loc) s T s' loc' ->
  net s' = stepped self ep (epoch_net self (training s) (net s)) /\
  training s' = (if evaluation_due ep then true else training s) /\
  hist_loss (train_hist s')
  = hist_loss (train_hist s) ++ [epoch_loss self (training s) (net s)] /\
  forward_modes T
  = repeat (training s) (List.length (batches (train_loader self)))
    ++ (if evaluation_due ep
        then repeat false (List.length (batches (train_loader self)) + 2)
        else []) /\
  optimizer_steps T = repeat tt (List.length (batches (train_loader self))) /\
  exists r',
    res loc' = Some r' /\
    skeleton T = iteration_skeleton self ep (training s) (net s) loc r'.
Proof.
  unfold train_body. intros H.
  apply runs_bind in H. destruct H as (u0 & T0 & s0 & T0' & Htrain & H & ->).
  apply runs_bind in H. destruct H as (loc1 & T1 & s1 & T1' & Heval & H & ->).
  apply runs_bind in H. destruct H as (m & T2 & s2 & T2' & Hm & H & ->).
  apply runs_bind in H. destruct H as (u3 & T3 & s3 & T3' & Hsched & H & ->).
  apply runs_bind in H. destruct H as (m' & T4 & s4 & T4' & Hm' & H & ->).
  apply runs_bind in H. destruct H as (u5 & T5 & s5 & T5' & Hsnap & H & ->).
  pose proof (train_epoch_spec _ _ _ _ _ _ _ Htrain) as (_ & HT0 & _).
  apply train_epoch_run in Htrain.
  destruct Htrain as (Hn0 & Hh0 & Htr0 & Ho0 & Hf0 & _ & _).
  apply eval_part_run in Heval.
  destruct Heval as (Hn1 & Hh1 & Htr1 & Hf1 & Ho1 & Hsk1 & Hloc1).
  run_step Hm. run_step Hm'.
  match goal with Hx : py_mod ep _ = Ok _ |- _ =>
    apply runs_py_mod in Hx; destruct Hx as (HK & ->) end.
  match goal with Hx : py_mod (ep + 1) _ = Ok _ |- _ =>
    apply runs_py_mod in Hx; destruct Hx as (HM & ->) end.
  apply sched_part_run in Hsched. destruct Hsched as (Hs3 & HT3).
  apply snap_part_run in Hsnap. destruct Hsnap as (Hs5 & HT5).
  run_step H.
  match goal with
  | Hl : hist_loss (train_hist _) = ?front ++ [?l] |- _ =>
      assert (Hlast : l = epoch_loss self (training s) (net s));
      [ subst; cbn [train_hist] in Hl; rewrite Hh1, Hh0 in Hl;
        apply app_inj_tail in Hl; destruct Hl as (_ & Hl); symmetry; exact Hl |]
  end.
  subst.
  cbn [net training train_hist].
  rewrite Hn1, Hn0, Htr1, Htr0, Hh1, Hh0.
  split; [reflexivity |]. split; [reflexivity |]. split; [reflexivity |].
  assert (Hsnapf : forall n,
             forward_modes (if (ep + 1) mod snapshot_interval self =? 0
                            then [EvTorchSave (TagInt (ep + 1))
                                    (snapshot_path self (TagInt (ep + 1))) n;
                                  EvPrint (MsgSaved (snapshot_path self (TagInt (ep + 1))))]
                            else []) = [] /\
             optimizer_steps (if (ep + 1) mod snapshot_interval self =? 0
                            then [EvTorchSave (TagInt (ep + 1))
                                    (snapshot_path self (TagInt (ep + 1))) n;
                                  EvPrint (MsgSaved (snapshot_path self (TagInt (ep + 1))))]
                            else []) = [] /\
             skeleton (if (ep + 1) mod snapshot_interval self =? 0
                            then [EvTorchSave (TagInt (ep + 1))
                                    (snapshot_path self (TagInt (ep + 1))) n;
                                  EvPrint (MsgSaved (snapshot_path self (TagInt (ep + 1))))]
                            else [])
             = (if (ep + 1) mod snapshot_interval self =? 0
                then [EvTorchSave (TagInt (ep + 1))
                        (snapshot_path self (TagInt (ep + 1))) n]
                else [])).
  { intros n. destruct ((ep + 1) mod snapshot_interval self =? 0); repeat split; reflexivity. }
  assert (Hschedf :
             forward_modes (if ep mod scheduler_interval self =? 0
                            then [EvSchedulerStep] else []) = [] /\
             optimizer_steps (if ep mod scheduler_interval self =? 0
                              then [EvSchedulerStep] else []) = [] /\
             skeleton (if ep mod scheduler_interval self =? 0
                       then [EvSchedulerStep] else [])
             = (if ep mod scheduler_interval self =? 0 then [EvSchedulerStep] else [])).
  { destruct (ep mod scheduler_interval self =? 0); repeat split; reflexivity. }
  destruct Hschedf as (Hf3 & Ho3 & Hsk3).
  rewrite Hn0 in Hsk1.
  cbn [app].
  split.
  { rewrite !forward_modes_app, Hf0, Hf1, Hf3, (proj1 (Hsnapf _)).
    cbn [forward_modes flat_map app]. rewrite !app_nil_r. reflexivity. }
  split.
  { rewrite !optimizer_steps_app, Ho0, Ho1, Ho3, (proj1 (proj2 (Hsnapf _))).
    cbn [optimizer_steps flat_map app]. rewrite !app_nil_r. reflexivity. }
  match goal with Hr : res loc1 = Some ?r |- _ => exists r; split; [exact Hr |] end.
  rewrite !skeleton_app, (skeleton_training _ HT0), Hsk1, Hsk3, (proj2 (proj2 (Hsnapf _))).
  unfold iteration_skeleton, stepped, epoch_net. reflexivity.
Qed.

End TrainBodyRuns.

Section TrainRuns.
Context {fw : Framework}.

Lemma trained_cons (self : Trainer) (n : Net) (e : Z) (eps : list Z) :
  trained self n (e :: eps) = trained self (stepped self e (epoch_net self true n)) eps.
Proof. reflexivity. Qed.

Lemma trained_snoc (self : Trainer) (n : Net) (eps : list Z) (e : Z) :
  trained self n (eps ++ [e]) = stepped self e (epoch_net self true (trained self n eps)).
Proof. unfold trained. rewrite fold_left_app. reflexivity. Qed.

(** The loop of [train], started with the model in training mode: each
    iteration starts in training mode with the network the earlier
    iterations have trained. *)
Lemma train_loop_run (self : Trainer) (xs : list Z) :
  forall (loc : Locals) s T s' (loc' : Locals),
    training s = true ->
    runs (for_each xs (train_body self) loc) s T s' loc' ->
    net s' = trained self (net s) xs /\
    training s' = true /\
    forall pre e evs post,
      loop_iterations xs (train_body self) loc s = pre ++ (e, evs) :: post ->
      forward_modes evs
      = repeat true (List.length (batches (train_loader self)))
        ++ (if evaluation_due e
            then repeat false (List.length (batches (train_loader self)) + 2)
            else []) /\
      optimizer_steps evs = repeat tt (List.length (batches (train_loader self))) /\
      exists loc0 r',
        skeleton evs
        = iteration_skeleton self e true (trained self (net s) (map fst pre)) loc0 r'.
Proof.
  induction xs as [| x xs IH]; intros loc s T s' loc' Hmode H.
  - rewrite for_each_nil in H. run_step H. subst.
    split; [reflexivity |]. split; [exact Hmode |].
    intros pre e evs post Hsplit. destruct pre; discriminate Hsplit.
  - rewrite for_each_cons in H.
    apply runs_bind in H. destruct H as (loc1 & T1 & s1 & T2 & Hbody & Hrest & ->).
    pose proof (loop_iterations_cons _ xs _ _ _ _ _ _ Hbody) as Hits.
    apply train_body_run in Hbody.
    destruct Hbody as (Hn & Htr & _ & Hf & Ho & r' & _ & Hsk).
    rewrite Hmode in *.
    assert (Hmode1 : training s1 = true).
    { rewrite Htr. destruct (evaluation_due x); reflexivity. }
    destruct (IH _ _ _ _ _ Hmode1 Hrest) as (Hn' & Htr' & Hiter).
    split; [rewrite Hn', Hn; reflexivity |]. split; [exact Htr' |].
    intros pre e evs post Hsplit. rewrite Hits in Hsplit.
    destruct pre as [| p pre].
    + cbn [app] in Hsplit. inversion Hsplit; subst.
      split; [exact Hf |]. split; [exact Ho |]. exists loc, r'. exact Hsk.
    + cbn [app] in Hsplit. inversion Hsplit as [[Hp Hrest']]. subst p.
      destruct (Hiter _ _ _ _ Hrest') as (Hf' & Ho' & loc0 & r0 & Hsk').
      split; [exact Hf' |]. split; [exact Ho' |]. exists loc0, r0.
      cbn [map fst]. rewrite trained_cons, <- Hn. exact Hsk'.
Qed.

(** A completed [train], with the state it leaves. *)
Lemma train_run (self : Trainer) s T s' u :
  runs (train self) s T s' u ->
  exists Tloop s1 loc1,
    runs (for_each (range (epoch self)) (train_body self) initial_locals)
         (train_start s) Tloop s1 loc1 /\
    net s' = net s1 /\
    training s' = training s1 /\
    hist_loss (train_hist s') = hist_loss (train_hist s1).
Proof.
  unfold train. intros H.
  apply runs_bind in H. destruct H as (? & ? & ? & ? & H0 & H & ->).
  apply runs_bind in H. destruct H as (? & ? & ? & ? & H1 & H & ->).
  apply runs_bind in H. destruct H as (? & ? & ? & ? & H2 & H & ->).
  apply runs_bind in H. destruct H as (? & ? & ? & ? & H3 & H & ->).
  apply runs_bind in H. destruct H as (loc1 & Tloop & s1 & ? & Hloop & H & ->).
  run_step H0. run_step H1. run_step H2. run_step H3. subst.
  run_step H. subst.
  exists Tloop, s1, loc1. split; [exact Hloop |]. repeat split; reflexivity.
Qed.

Lemma range_prefix_gen (a : list Z) :
  forall k m e b,
    map Z.of_nat (seq k m) = a ++ e :: b ->
    a = map Z.of_nat (seq k (List.length a)) /\ e = Z.of_nat (k + List.length a).
Proof.
  induction a as [| y a IH]; intros k m e b H.
  - destruct m as [| m]; [discriminate H |]. cbn in H. inversion H; subst.
    split; [reflexivity |]. cbn. f_equal. lia.
  - destruct m as [| m]; [discriminate H |]. cbn [seq map app] in H.
    inversion H as [[Hy Hrest]]. apply IH in Hrest. destruct Hrest as (Ha & He).
    cbn [List.length seq map]. split; [f_equal; exact Ha |].
    rewrite He. f_equal. lia.
Qed.

(** The elements of [range(n)] before the element [e] are [range(e)]. *)
Lemma range_prefix (n : Z) (a : list Z) (e : Z) (b : list Z) :
  range n = a ++ e :: b -> a = range e /\ range (e + 1) = a ++ [e].
Proof.
  unfold range. intros H. apply range_prefix_gen in H. destruct H as (Ha & He).
  cbn [Nat.add] in He. subst e. rewrite Nat2Z.id.
  split; [exact Ha |].
  replace (Z.to_nat (Z.of_nat (List.length a) + 1)) with (List.length a + 1)%nat by lia.
  rewrite seq_app, map_app. cbn [Nat.add seq map]. rewrite <- Ha. reflexivity.
Qed.

Lemma map_fst_split {A B : Type} (l : list (A * B)) pre (e : A) (evs : B) post :
  l = pre ++ (e, evs) :: post -> map fst l = map fst pre ++ e :: map fst post.
Proof. intros ->. rewrite map_app. reflexivity. Qed.


Lemma saves_skeleton (T : list event) : saves T = saves (skeleton T).
Proof. apply flat_map_skeleton. intros [m | | | | | | | | |]; try discriminate; reflexivity. Qed.

(** What is read off the control events of an iteration. *)
Lemma iteration_skeleton_saves (self : Trainer) (e : Z) (mode : bool) (n : Net)
      (loc : Locals) (r' : Res) :
  saves (iteration_skeleton self e mode n loc r')
  = (if evaluation_due e && flt (evaluated_loss self (epoch_net self mode n)) (best_loss loc)
     then [(TagStr "best", snapshot_path self (TagStr "best"), epoch_net self mode n)]
     else [])
    ++ (if (e + 1) mod snapshot_interval self =? 0
        then [(TagInt (e + 1), snapshot_path self (TagInt (e + 1)),
               stepped self e (epoch_net self mode n))]
        else []).
Proof.
  unfold iteration_skeleton, saves. cbv zeta. rewrite !flat_map_app.
  destruct (evaluation_due e);
    destruct (flt (evaluated_loss self (epoch_net self mode n)) (best_loss loc));
    destruct (e mod scheduler_interval self =? 0);
    destruct ((e + 1) mod snapshot_interval self =? 0); reflexivity.
Qed.

Lemma iteration_skeleton_results (self : Trainer) (e : Z) (mode : bool) (n : Net)
      (loc : Locals) (r' : Res) :
  evaluate_results (iteration_skeleton self e mode n loc r')
  = (if evaluation_due e then [mkRes (evaluated_loss self (epoch_net self mode n))] else []).
Proof.
  unfold iteration_skeleton, evaluate_results. cbv zeta. rewrite !flat_map_app.
  destruct (evaluation_due e);
    destruct (flt (evaluated_loss self (epoch_net self mode n)) (best_loss loc));
    destruct (e mod scheduler_interval self =? 0);
    destruct ((e + 1) mod snapshot_interval self =? 0); reflexivity.
Qed.

Lemma iteration_skeleton_scalars (self : Trainer) (e : Z) (mode : bool) (n : Net)
      (loc : Locals) (r' : Res) :
  scalars "Train Loss" (iteration_skeleton self e mode n loc r')
  = [(epoch_loss self mode n, e)] /\
  scalars "Learning Rate" (iteration_skeleton self e mode n loc r')
  = [(get_lr (stepped self e (epoch_net self mode n)), e)].
Proof.
  unfold iteration_skeleton, scalars. cbv zeta. rewrite !flat_map_app.
  destruct (evaluation_due e);
    destruct (flt (evaluated_loss self (epoch_net self mode n)) (best_loss loc));
    destruct (e mod scheduler_interval self =? 0);
    destruct ((e + 1) mod snapshot_interval self =? 0); split; reflexivity.
Qed.

(** The iterations of a completed [train]: each one, with the network
    it starts from. *)
Lemma train_iterations_run (self : Trainer) (s : State) :
  value (train self s) = Ok tt ->
  net (final (train self s)) = trained self (net s) (range (epoch self)) /\
  training (final (train self s)) = true /\
  forall e evs,
    In (e, evs) (train_iterations self s) ->
    0 <= e < epoch self /\
    forward_modes evs
    = repeat true (List.length (batches (train_loader self)))
      ++ (if evaluation_due e
          then repeat false (List.length (batches (train_loader self)) + 2)
          else []) /\
    optimizer_steps evs = repeat tt (List.length (batches (train_loader self))) /\
    exists loc0 r',
      skeleton evs
      = iteration_skeleton self e true (trained self (net s) (range e)) loc0 r' /\
    trained self (net s) (range (e + 1))
    = stepped self e (epoch_net self true (trained self (net s) (range e))).
Proof.
  intros Hok. apply runs_intro in Hok. apply train_run in Hok.
  destruct Hok as (Tloop & s1 & loc1 & Hloop & Hn & Htr & _).
  destruct (for_each_iterations _ _ _ _ _ _ _ Hloop) as (_ & Hfst).
  apply train_loop_run in Hloop; [| reflexivity].
  destruct Hloop as (Hn1 & Htr1 & Hiter).
  split; [rewrite Hn, Hn1; reflexivity |]. split; [rewrite Htr; exact Htr1 |].
  intros e evs Hin. unfold train_iterations in Hin.
  apply in_split in Hin. destruct Hin as (pre & post & Hsplit).
  destruct (Hiter _ _ _ _ Hsplit) as (Hf & Ho & loc0 & r' & Hsk).
  apply map_fst_split in Hsplit. rewrite Hfst in Hsplit.
  assert (He : In e (range (epoch self))).
  { rewrite Hsplit. apply in_or_app. right. left. reflexivity. }
  apply in_range in He.
  apply range_prefix in Hsplit. destruct Hsplit as (Hpre & Hsucc).
  split; [exact He |]. split; [exact Hf |]. split; [exact Ho |].
  exists loc0, r'. cbn [net train_start] in Hsk. rewrite Hpre in Hsk.
  split; [exact Hsk |]. rewrite Hsucc, trained_snoc, <- Hpre. reflexivity.
Qed.

End TrainRuns.

Section TrainTheorems.
Context {fw : Framework}.

(** X6.  When [train] completes, the network is the one that the epochs of
    updates and the scheduler steps make of the initial network:
    evaluations, checkpoints and logging leave no mark on it; and the
    model is left in training mode. *)
Theorem train_leaves_the_trained_network (self : Trainer) (s : State) :
  value (train self s) = Ok tt ->
  net (final (train self s)) = trained self (net s) (range (epoch self)) /\
  training (final (train self s)) = true.
Proof.
  intros Hok. destruct (train_iterations_run self s Hok) as (Hn & Htr & _).
  split; assumption.
Qed.

(** X7.  In a run of [train] that completes, whatever the mode of the model
    when [train] is called, every iteration makes its updates, one
    optimizer step per batch of the train loader, with the model in
    training mode, and when an evaluation is due follows them with the
    forward passes of [evaluate], one per batch and two for the
    pictures, in evaluation mode. *)
Theorem updates_run_in_training_mode (self : Trainer) (s : State) :
  value (train self s) = Ok tt ->
  forall e evs,
    In (e, evs) (train_iterations self s) ->
    forward_modes evs
    = repeat true (List.length (batches (train_loader self)))
      ++ (if evaluation_due e
          then repeat false (List.length (batches (train_loader self)) + 2)
          else []) /\
    optimizer_steps evs = repeat tt (List.length (batches (train_loader self))).
Proof.
  intros Hok e evs Hin.
  destruct (train_iterations_run self s Hok) as (_ & _ & Hiter).
  destruct (Hiter e evs Hin) as (_ & Hf & Ho & _). split; assumption.
Qed.

(** X8.  In a run of [train] that completes, a checkpoint is written to the
    file of its tag.  The numbered checkpoint of the iteration [e]
    holds the network after [e + 1] epochs, scheduler steps included;
    the "best" checkpoint holds the network as [evaluate] has just
    measured it, after the updates of the epoch and before the scheduler
    step of the iteration, and the result of that evaluation is its
    loss. *)
Theorem checkpoints_hold_the_network_of_their_epoch (self : Trainer) (s : State) :
  value (train self s) = Ok tt ->
  forall e evs,
    In (e, evs) (train_iterations self s) ->
    forall t p n,
      In (t, p, n) (saves evs) ->
      p = snapshot_path self t /\
      ((t = TagInt (e + 1) /\ n = trained self (net s) (range (e + 1))) \/
       (t = TagStr "best" /\
        n = epoch_net self true (trained self (net s) (range e)) /\
        evaluate_results evs = [mkRes (evaluated_loss self n)])).
Proof.
  intros Hok e evs Hin t p n Hsave.
  destruct (train_iterations_run self s Hok) as (_ & _ & Hiter).
  destruct (Hiter e evs Hin) as (_ & _ & _ & loc0 & r' & Hsk & Hsucc).
  rewrite saves_skeleton, Hsk, iteration_skeleton_saves in Hsave.
  rewrite evaluate_results_skeleton, Hsk, iteration_skeleton_results.
  apply in_app_or in Hsave. destruct Hsave as [Hbest | Hnum].
  - destruct (evaluation_due e); [| contradiction].
    cbn [andb] in Hbest.
    destruct (flt _ _); [| contradiction].
    destruct Hbest as [Heq | []]. inversion Heq; subst.
    split; [reflexivity |]. right. repeat split; reflexivity.
  - destruct ((e + 1) mod snapshot_interval self =? 0); [| contradiction].
    destruct Hnum as [Heq | []]. inversion Heq; subst.
    split; [reflexivity |]. left. split; [reflexivity |]. symmetry. exact Hsucc.
Qed.

Lemma scalars_app (name : string) (T1 T2 : list event) :
  scalars name (T1 ++ T2) = scalars name T1 ++ scalars name T2.
Proof. apply flat_map_app. Qed.

Lemma combine_fst_snd {A B : Type} (l : list (A * B)) :
  combine (map fst l) (map snd l) = l.
Proof. induction l as [| [a b] l IH]; [reflexivity |]. cbn. rewrite IH. reflexivity. Qed.

(** The loop of [train] appends to the history of losses the values it
    logs as "Train Loss", one per iteration, with the loop variable as
    step. *)
Lemma train_loop_losses (self : Trainer) (xs : list Z) :
  forall (loc : Locals) s T s' (loc' : Locals),
    runs (for_each xs (train_body self) loc) s T s' loc' ->
    hist_loss (train_hist s')
    = hist_loss (train_hist s) ++ map fst (scalars "Train Loss" T) /\
    map snd (scalars "Train Loss" T) = xs.
Proof.
  induction xs as [| x xs IH]; intros loc s T s' loc' H.
  - rewrite for_each_nil in H. run_step H. subst. cbn. rewrite app_nil_r.
    split; reflexivity.
  - rewrite for_each_cons in H.
    apply runs_bind in H. destruct H as (loc1 & T1 & s1 & T2 & Hbody & Hrest & ->).
    apply IH in Hrest. destruct Hrest as (Hh & Hs).
    apply train_body_run in Hbody.
    destruct Hbody as (_ & _ & Hh1 & _ & _ & r' & _ & Hsk).
    assert (H1 : scalars "Train Loss" T1 = [(epoch_loss self (training s) (net s), x)]).
    { rewrite scalars_skeleton, Hsk. apply iteration_skeleton_scalars. }
    rewrite scalars_app, !map_app, H1, Hh, Hh1, Hs, <- app_assoc. split; reflexivity.
Qed.

(** X9.  In a run of [train] that completes, the "Train Loss" logged in the
    iteration [e] is the loss that epoch's updates recorded, and the
    "Learning Rate" is that of the network at the end of the iteration,
    after the scheduler step when one is taken: at step 0 it is the rate
    after the first scheduler step.  The "Train Loss" series of the run
    is the history of losses, with the steps 0, 1, ..., N - 1. *)
Theorem logged_series (self : Trainer) (s : State) :
  value (train self s) = Ok tt ->
  (forall e evs,
      In (e, evs) (train_iterations self s) ->
      scalars "Train Loss" evs
      = [(epoch_loss self true (trained self (net s) (range e)), e)] /\
      scalars "Learning Rate" evs
      = [(get_lr (trained self (net s) (range (e + 1))), e)]) /\
  scalars "Train Loss" (emitted (train self s))
  = combine (hist_loss (train_hist (final (train self s)))) (range (epoch self)).
Proof.
  intros Hok. split.
  - intros e evs Hin.
    destruct (train_iterations_run self s Hok) as (_ & _ & Hiter).
    destruct (Hiter e evs Hin) as (_ & _ & _ & loc0 & r' & Hsk & Hsucc).
    rewrite !(scalars_skeleton _ evs), Hsk, Hsucc. apply iteration_skeleton_scalars.
  - apply train_completes_inv in Hok.
    destruct Hok as (Tloop & s1 & loc1 & total & avg & Hloop & _ & _ & HT & Hh).
    apply train_loop_losses in Hloop. destruct Hloop as (Hl & Hs).
    rewrite HT, Hh, !scalars_app. cbn [hist_loss]. rewrite Hl.
    cbn [train_start train_hist hist_loss app scalars flat_map].
    rewrite app_nil_r, <- Hs. symmetry. apply combine_fst_snd.
Qed.

End TrainTheorems.

(** ** The outcome of [train] *)

Section TrainFails.
Context {fw : Framework}.

Lemma train_epoch_zero (self : Trainer) (ep : Z) (v : bool) (s : State) :
  batch_size self = 0 ->
  train_epoch self ep v s
  = mkOutcome [] (mkState (net s) (training s) (grad_enabled s) (train_hist s) (S (ticks s)))
              (Raise ZeroDivisionError).
Proof. intros H0. unfold train_epoch. rewrite H0. reflexivity. Qed.

Lemma train_epoch_fails (self : Trainer) (ep : Z) (v : bool) s T s' (e : exn) :
  fails (train_epoch self ep v) s T s' e ->
  batch_size self = 0 /\ e = ZeroDivisionError /\ T = [] /\ train_hist s' = train_hist s.
Proof.
  intros H.
  assert (H0 : batch_size self = 0).
  { destruct (Z.eq_dec (batch_size self) 0) as [H0 | Hn]; [exact H0 |].
    exfalso. apply fails_value in H. eapply train_epoch_total; eassumption. }
  unfold fails in H. rewrite (train_epoch_zero _ _ _ _ H0) in H.
  inversion H; subst. split; [exact H0 |]. repeat split; reflexivity.
Qed.

Lemma fails_last_item {A : Type} (l : list A) s T s' (e : exn) :
  fails (last_item l) s T s' e -> l = [].
Proof.
  unfold fails, last_item. destruct (rev l) as [| x rest] eqn:E; cbn; [| discriminate].
  intros _. rewrite <- (rev_involutive l), E. reflexivity.
Qed.

Lemma fails_read_res (loc : Locals) s T s' (e : exn) :
  fails (read_res loc) s T s' e -> res loc = None /\ e = UnboundLocalError.
Proof.
  unfold fails, read_res. destruct (res loc); cbn; intros H; inversion H. auto.
Qed.

(** The conditional evaluation of an iteration in which one is due
    completes only with two good samples. *)
Lemma eval_part_samples (self : Trainer) (ep : Z) (loc : Locals) s T s' (loc1 : Locals) :
  evaluation_due ep = true ->
  runs (if ((ep + 1) mod 10 =? 0) || (ep =? 0) then
          bind (evaluate self (ep + 1)) (fun r =>
            if flt (loss r) (best_loss loc) then
              bind (_snapshot self (TagStr "best")) (fun _ =>
                ret (mkLocals (loss r) (Some r)))
            else ret (mkLocals (best_loss loc) (Some r)))
        else ret loc) s T s' loc1 ->
  check_sample (test_loader self) = Ok tt /\
  check_sample (train_loader self) = Ok tt /\
  res loc1 <> None.
Proof.
  unfold evaluation_due. intros Hdue H. rewrite Hdue in H.
  apply runs_bind in H. destruct H as (r & Te & se & Te' & He & Hb & ->).
  apply evaluate_spec in He.
  destruct He as (ts & rt & tr & rtr & Hts & Htr & Hnts & Hntr & _).
  split; [eapply check_sample_has; eassumption |].
  split; [eapply check_sample_has; eassumption |].
  destruct (flt (loss r) (best_loss loc)); run_step Hb; subst; discriminate.
Qed.

Lemma quiet_app (T1 T2 : list event) :
  (forall name, scalars name T1 = []) /\ epoch_snapshots T1 = [] ->
  (forall name, scalars name T2 = []) /\ epoch_snapshots T2 = [] ->
  (forall name, scalars name (T1 ++ T2) = []) /\ epoch_snapshots (T1 ++ T2) = [].
Proof.
  intros (Hs1 & He1) (Hs2 & He2). split.
  - intros name. rewrite scalars_app, Hs1, Hs2. reflexivity.
  - unfold epoch_snapshots in *. rewrite flat_map_app, He1, He2. reflexivity.
Qed.

Lemma quiet_skeleton (T : list event) :
  (forall name, scalars name (skeleton T) = []) /\ epoch_snapshots (skeleton T) = [] ->
  (forall name, scalars name T = []) /\ epoch_snapshots T = [].
Proof.
  intros (Hs & He). split.
  - intros name. rewrite scalars_skeleton. apply Hs.
  - rewrite epoch_snapshots_skeleton. exact He.
Qed.

Lemma quiet_nil : (forall name, scalars name [] = []) /\ epoch_snapshots [] = [].
Proof. split; reflexivity. Qed.

(** An iteration of the loop of [train] in which an evaluation is due
    raises the exception of the first check of [configuration_check]
    that fails; it has then logged no scalar and written no numbered
    checkpoint, and the history has at most one more loss. *)
Lemma train_body_fails (self : Trainer) (ep : Z) (loc : Locals) s T s' (e : exn) :
  evaluation_due ep = true ->
  fails (train_body self ep loc) s T s' e ->
  configuration_check self = Raise e /\
  ((forall name, scalars name T = []) /\ epoch_snapshots T = []) /\
  (List.length (hist_loss (train_hist s')) <= S (List.length (hist_loss (train_hist s))))%nat.
Proof.
  intros Hdue H. unfold train_body in H.
  apply fails_bind in H. destruct H as [H | (u0 & T0 & s0 & T0' & Htrain & H & ->)].
  { apply train_epoch_fails in H. destruct H as (H0 & -> & -> & ->).
    split; [unfold configuration_check; rewrite H0; reflexivity |].
    split; [apply quiet_nil | lia]. }
  apply train_epoch_spec in Htrain. destruct Htrain as (Hbs & HT0 & (l0 & t0 & Hh0) & _).
  assert (Hq0 : (forall name, scalars name T0 = []) /\ epoch_snapshots T0 = []).
  { apply quiet_skeleton. rewrite (skeleton_training _ HT0). apply quiet_nil. }
  assert (Hlen : forall h, h = train_hist s0 ->
                   (List.length (hist_loss h) <= S (List.length (hist_loss (train_hist s))))%nat).
  { intros h ->. rewrite Hh0. cbn [hist_loss]. rewrite length_app. cbn. lia. }
  assert (Hb : (batch_size self =? 0) = false) by (apply Z.eqb_neq; exact Hbs).
  apply fails_bind in H. destruct H as [H | (loc1 & T1 & s1 & T1' & Heval & H & ->)].
  { unfold evaluation_due in Hdue. rewrite Hdue in H.
    apply fails_bind in H. destruct H as [H | (r & Te & se & Te' & _ & H & _)].
    - apply evaluate_fails in H.
      destruct H as (-> & [(Ht & ->) | (ts & rt & _ & Ht & Htr & ->)]).
      + split; [unfold configuration_check; rewrite Hb, Ht; reflexivity |].
        split; [| apply Hlen; reflexivity].
        apply quiet_app; [exact Hq0 |]. apply quiet_skeleton.
        change (EvEvaluate (ep + 1) :: ?l) with ([EvEvaluate (ep + 1)] ++ l).
        rewrite skeleton_app, skeleton_eval_batches. split; reflexivity.
      + split; [unfold configuration_check; rewrite Hb, Ht, Htr; reflexivity |].
        split; [| apply Hlen; reflexivity].
        apply quiet_app; [exact Hq0 |]. apply quiet_skeleton.
        change (EvEvaluate (ep + 1) :: ?l) with ([EvEvaluate (ep + 1)] ++ l).
        rewrite !skeleton_app, skeleton_eval_batches.
        unfold test_figures. destruct (ep + 1 =? 10); split; reflexivity.
    - exfalso. destruct (flt (loss r) (best_loss loc)); fail_step H. }
  pose proof (runs_eval_part _ _ _ _ _ _ _ Heval) as (Hh1 & _).
  pose proof (eval_part_run _ _ _ _ _ _ _ Heval) as (_ & _ & _ & _ & _ & Hsk1 & _).
  assert (Hq1 : (forall name, scalars name T1 = []) /\ epoch_snapshots T1 = []).
  { apply quiet_skeleton. rewrite Hsk1.
    destruct (evaluation_due ep); [| apply quiet_nil].
    destruct (flt _ _); split; reflexivity. }
  apply (eval_part_samples _ _ _ _ _ _ _ Hdue) in Heval.
  destruct Heval as (Htest & Htrain & Hres).
  apply fails_bind in H. destruct H as [H | (m & T2 & s2 & T2' & Hm & H & ->)].
  { apply fails_lift in H. destruct H as (H & -> & ->).
    unfold py_mod in H. destruct (scheduler_interval self =? 0) eqn:HK; [| discriminate H].
    inversion H; subst.
    split; [unfold configuration_check; rewrite Hb, Htest, Htrain, HK; reflexivity |].
    split; [| apply Hlen; exact Hh1].
    apply quiet_app; [exact Hq0 |]. apply quiet_app; [exact Hq1 | apply quiet_nil]. }
  run_step Hm.
  match goal with Hx : py_mod ep _ = Ok _ |- _ =>
    apply runs_py_mod in Hx; destruct Hx as (HK & ->) end.
  apply Z.eqb_neq in HK. subst.
  apply fails_bind in H. destruct H as [H | (u3 & T3 & s3 & T3' & Hsched & H & ->)].
  { exfalso. destruct (ep mod scheduler_interval self =? 0); fail_step H. }
  pose proof (sched_part_run _ _ _ _ _ Hsched) as (_ & HT3).
  apply runs_sched_part in Hsched.
  apply fails_bind in H. destruct H as [H | (m' & T4 & s4 & T4' & Hm' & H & ->)].
  { apply fails_lift in H. destruct H as (H & -> & ->).
    unfold py_mod in H. destruct (snapshot_interval self =? 0) eqn:HM; [| discriminate H].
    inversion H; subst.
    split; [unfold configuration_check; rewrite Hb, Htest, Htrain, HK, HM; reflexivity |].
    split; [| apply Hlen; rewrite Hsched; exact Hh1].
    apply quiet_app; [exact Hq0 |]. apply quiet_app; [exact Hq1 |].
    apply quiet_app; [apply quiet_nil |]. apply quiet_app; [| apply quiet_nil].
    destruct (ep mod scheduler_interval self =? 0); split; reflexivity. }
  run_step Hm'.
  exfalso.
  apply fails_bind in H. destruct H as [H | (u5 & T5 & s5 & T5' & Hsnap & H & ->)].
  { destruct (_ =? 0); fail_step H. }
  apply runs_snap_part in Hsnap.
  apply fails_bind in H. destruct H as [H | (s6 & T6 & s6' & T6' & Hget & H & ->)];
    [fail_step H |].
  run_step Hget. subst.
  apply fails_bind in H. destruct H as [H | (l & T7 & s7 & T7' & Hl & H & ->)].
  { apply fails_last_item in H. rewrite Hsnap, Hsched, Hh1, Hh0 in H.
    cbn [hist_loss] in H. destruct (hist_loss (train_hist s)); discriminate H. }
  apply fails_bind in H. destruct H as [H | (? & ? & ? & ? & _ & H & _)]; [fail_step H |].
  apply fails_bind in H. destruct H as [H | (? & ? & ? & ? & _ & H & _)]; [fail_step H |].
  apply fails_bind in H. destruct H as [H | (? & ? & ? & ? & _ & H & _)].
  { apply fails_read_res in H. destruct H as (H & _). contradiction. }
  apply fails_bind in H. destruct H as [H | (? & ? & ? & ? & _ & H & _)]; fail_step H.
Qed.

(** A call of [train] that raises does so in the first iteration of its
    loop. *)
Lemma train_fails (self : Trainer) s T s' (e : exn) :
  fails (train self) s T s' e ->
  exists T0,
    1 <= epoch self /\
    fails (train_body self 0 initial_locals) (train_start s) T0 s' e /\
    T = EvPrint MsgTrainingStart :: T0.
Proof.
  unfold train. intros H.
  apply fails_bind in H. destruct H as [H | (? & ? & ? & ? & H0 & H & ->)]; [fail_step H |].
  apply fails_bind in H. destruct H as [H | (? & ? & ? & ? & H1 & H & ->)]; [fail_step H |].
  apply fails_bind in H. destruct H as [H | (? & ? & ? & ? & H2 & H & ->)]; [fail_step H |].
  apply fails_bind in H. destruct H as [H | (? & ? & ? & ? & H3 & H & ->)]; [fail_step H |].
  run_step H0. run_step H1. run_step H2. run_step H3. subst.
  cbn [net training grad_enabled train_hist ticks] in H.
  change (mkState (net s) true (grad_enabled s) (mkHist [] [] []) (S (ticks s)))
    with (train_start s) in H.
  change (mkLocals (of_int 1000000000) None) with initial_locals in H.
  apply fails_bind in H. destruct H as [H | (loc1 & Tloop & s1 & ? & Hloop & H & ->)].
  - destruct (range_head (epoch self)) as [Hnil | (rest & Hcons)].
    { exfalso. rewrite Hnil, for_each_nil in H. fail_step H. }
    assert (HN : 1 <= epoch self).
    { assert (Hin : In 0 (range (epoch self))) by (rewrite Hcons; left; reflexivity).
      apply in_range in Hin. lia. }
    rewrite Hcons, for_each_cons in H.
    apply fails_bind in H. destruct H as [H | (l0 & T0 & s0 & T0' & Hbody & H & ->)].
    + eexists. split; [exact HN |]. split; [exact H | reflexivity].
    + exfalso.
      destruct (body_samples self 0 _ _ _ _ _ eq_refl Hbody) as (Htest & Htrain).
      apply train_body_spec in Hbody.
      destruct Hbody as (Hbs & HK & HM & _ & _ & Se & n1 & l & lr & r' & _ & Hres & _).
      apply fails_value in H.
      eapply (train_loop_total self e rest); [| | exact H].
      * repeat split; assumption.
      * left. rewrite Hres. discriminate.
  - exfalso. fail_step H. subst.
    cbn [train_hist total_time] in *.
    match goal with
    | Hx : total_time _ ++ _ = [] |- _ => destruct (total_time (train_hist s1)); discriminate Hx
    end.
Qed.

Lemma well_configured_check (self : Trainer) :
  well_configured self -> configuration_check self = Ok tt.
Proof.
  intros (Hbs & HK & HM & (ts & rt & Hts & Hnts) & (tr & rtr & Htr & Hntr)).
  unfold configuration_check.
  rewrite (check_sample_has _ _ _ Hts Hnts), (check_sample_has _ _ _ Htr Hntr).
  apply Z.eqb_neq in Hbs, HK, HM. rewrite Hbs, HK, HM. reflexivity.
Qed.

End TrainFails.

Section TrainOutcome.
Context {fw : Framework}.

Lemma train_no_epochs (self : Trainer) (s : State) :
  epoch self <= 0 ->
  train self s
  = mkOutcome
      [EvPrint MsgTrainingStart;
       EvPrint (MsgSummary (np_mean []) (epoch self)
                           (fsub (clock (S (ticks s))) (clock (ticks s))));
       EvPrint MsgFinish]
      (mkState (net s) true (grad_enabled s)
               (mkHist [] [] [fsub (clock (S (ticks s))) (clock (ticks s))])
               (S (S (ticks s))))
      (Ok tt).
Proof.
  intros HN.
  assert (Hr : range (epoch self) = []).
  { unfold range. replace (Z.to_nat (epoch self)) with 0%nat by lia. reflexivity. }
  unfold train. rewrite Hr. reflexivity.
Qed.

(** X3.  With a batch size of zero [train_epoch] raises [ZeroDivisionError]
    at the division of line 81, which comes before the batch loop:
    nothing has been computed or printed, and neither the network nor
    the history has changed.  So a call of [train] with at least one
    epoch to run raises it in its first epoch, after its first printed
    line: the network is untouched and the history, which [train] has
    reset, is empty. *)
Theorem train_epoch_zero_batch_size (self : Trainer) (ep : Z) (v : bool) (s : State) :
  batch_size self = 0 ->
  (value (train_epoch self ep v s) = Raise ZeroDivisionError /\
   emitted (train_epoch self ep v s) = [] /\
   net (final (train_epoch self ep v s)) = net s /\
   train_hist (final (train_epoch self ep v s)) = train_hist s /\
   training (final (train_epoch self ep v s)) = training s) /\
  (0 < epoch self ->
   value (train self s) = Raise ZeroDivisionError /\
   emitted (train self s) = [EvPrint MsgTrainingStart] /\
   net (final (train self s)) = net s /\
   train_hist (final (train self s)) = mkHist [] [] []).
Proof.
  intros H0.
  split; [rewrite (train_epoch_zero _ _ _ _ H0); repeat split; reflexivity |].
  intros HN.
  destruct (value (train self s)) as [[] | e] eqn:Hv.
  { exfalso. apply train_completes_iff in Hv; [| lia].
    destruct Hv as (Hbs & _). contradiction. }
  apply fails_intro in Hv. apply train_fails in Hv.
  destruct Hv as (T0 & _ & Hbody & ->).
  unfold train_body in Hbody.
  apply fails_bind in Hbody.
  destruct Hbody as [H | (u0 & T1 & s1 & T2 & Htrain & _ & _)].
  - unfold fails in H. rewrite (train_epoch_zero _ _ _ _ H0) in H.
    pose proof (f_equal emitted H) as HT. pose proof (f_equal final H) as Hs.
    pose proof (f_equal value H) as He. cbn [emitted final value] in HT, Hs, He.
    rewrite <- HT, <- Hs, <- He. repeat split; reflexivity.
  - exfalso. apply train_epoch_spec in Htrain. destruct Htrain as (Hbs & _). contradiction.
Qed.

(** X10.  With no epoch to run, [train] returns whatever the rest of the
    configuration is: it prints its three lines, resets the history,
    records the total time and leaves the model in training mode; the
    network is not touched and nothing is evaluated, saved or logged.
    The average epoch time printed is the mean of an empty list. *)
Theorem train_without_epochs (self : Trainer) (s : State) :
  epoch self <= 0 ->
  value (train self s) = Ok tt /\
  emitted (train self s)
  = [EvPrint MsgTrainingStart;
     EvPrint (MsgSummary (np_mean []) (epoch self)
                         (fsub (clock (S (ticks s))) (clock (ticks s))));
     EvPrint MsgFinish] /\
  net (final (train self s)) = net s /\
  training (final (train self s)) = true /\
  train_hist (final (train self s))
  = mkHist [] [] [fsub (clock (S (ticks s))) (clock (ticks s))].
Proof.
  intros HN. rewrite (train_no_epochs self s HN). repeat split; reflexivity.
Qed.

(** X11.  A call of [train] that returns after at least one epoch had a
    configuration that passes every check of the first iteration: the
    batch size and the two intervals are not zero, and both datasets
    start with a sample of 1 * 2048 * 3 numbers.  A configuration that
    fails one of them is never trained to the end. *)
Theorem train_returns_only_when_configured (self : Trainer) (s : State) :
  value (train self s) = Ok tt ->
  0 < epoch self ->
  batch_size self <> 0 /\
  scheduler_interval self <> 0 /\
  snapshot_interval self <> 0 /\
  has_sample (test_loader self) /\
  has_sample (train_loader self) /\
  configuration_check self = Ok tt.
Proof.
  intros Hok HN. apply train_completes_iff in Hok; [| lia].
  pose proof (well_configured_check self Hok) as Hc.
  destruct Hok as (Hbs & HK & HM & Hts & Htr). repeat split; assumption.
Qed.

(** X12.  A call of [train] that raises does so in the first iteration of its
    loop, with the exception that this iteration raises: no scalar has
    been logged, no numbered checkpoint written, and the history holds
    at most one loss.  A call whose first iteration completes returns. *)
Theorem train_fails_in_the_first_iteration (self : Trainer) (s : State) :
  (forall e,
      value (train self s) = Raise e ->
      1 <= epoch self /\
      value (train_body self 0 initial_locals (train_start s)) = Raise e /\
      emitted (train self s)
      = EvPrint MsgTrainingStart
        :: emitted (train_body self 0 initial_locals (train_start s)) /\
      (forall name, scalars name (emitted (train self s)) = []) /\
      epoch_snapshots (emitted (train self s)) = [] /\
      (List.length (hist_loss (train_hist (final (train self s)))) <= 1)%nat) /\
  ((exists loc, value (train_body self 0 initial_locals (train_start s)) = Ok loc) ->
   value (train self s) = Ok tt).
Proof.
  split.
  - intros e Hv. apply fails_intro in Hv. apply train_fails in Hv.
    destruct Hv as (T0 & HN & Hbody & HT).
    pose proof (train_body_fails self 0 _ _ _ _ _ eq_refl Hbody) as (_ & (Hs & Hsn) & Hlen).
    split; [exact HN |]. rewrite HT.
    unfold fails in Hbody. rewrite Hbody. cbn [value emitted].
    split; [reflexivity |]. split; [reflexivity |].
    split; [intros name; exact (Hs name) |]. split; [exact Hsn | exact Hlen].
  - intros (loc & Hv).
    destruct (value (train self s)) as [[] | e] eqn:Ht; [reflexivity |].
    apply fails_intro in Ht. apply train_fails in Ht.
    destruct Ht as (T0 & _ & Hbody & _). apply fails_value in Hbody. congruence.
Qed.

End TrainOutcome.

(** ** The files of the checkpoints *)

Section Strings.

Lemma to_int_not_nil (z : Z) :
  Z.to_int z <> Decimal.Pos Decimal.Nil /\ Z.to_int z <> Decimal.Neg Decimal.Nil.
Proof.
  destruct z as [| p | p]; cbn; split; intros H; inversion H as [H'];
    exact (DecimalPos.Unsigned.to_uint_nonnil p H').
Qed.

Lemma int_of_str_int (z : Z) : NilZero.int_of_string (str_int z) = Some (Z.to_int z).
Proof.
  unfold str_int. destruct (to_int_not_nil z) as (H1 & H2). apply NilZero.isi; assumption.
Qed.

(** [str] of an integer determines the integer. *)
Lemma str_int_inj (a b : Z) : str_int a = str_int b -> a = b.
Proof.
  intros H. apply DecimalZ.to_int_inj.
  pose proof (int_of_str_int a) as Ha. rewrite H, int_of_str_int in Ha.
  inversion Ha. reflexivity.
Qed.

Lemma str_int_not_best (a : Z) : str_int a <> "best"%string.
Proof.
  intros H. pose proof (int_of_str_int a) as Ha. rewrite H in Ha. discriminate Ha.
Qed.

Lemma append_inj_l (a b c : string) : (a ++ b)%string = (a ++ c)%string -> b = c.
Proof. induction a as [| x a IH]; cbn; intros H; [exact H |]. inversion H. auto. Qed.

Lemma length_append (a b : string) :
  String.length (a ++ b) = (String.length a + String.length b)%nat.
Proof. induction a as [| x a IH]; cbn; [reflexivity |]. rewrite IH. reflexivity. Qed.

Lemma append_inj_r (c : string) (a : string) :
  forall b, (a ++ c)%string = (b ++ c)%string -> a = b.
Proof.
  induction a as [| x a IH]; intros [| y b] H; cbn in H.
  - reflexivity.
  - exfalso. apply (f_equal String.length) in H. cbn in H. rewrite length_append in H. lia.
  - exfalso. apply (f_equal String.length) in H. cbn in H. rewrite length_append in H. lia.
  - inversion H. f_equal. apply IH. assumption.
Qed.

End Strings.

Section Files.
Context {fw : Framework}.

Lemma snapshot_path_inj (self : Trainer) (t1 t2 : Tag) :
  snapshot_path self t1 = snapshot_path self t2 -> str t1 = str t2.
Proof.
  unfold snapshot_path. intros H.
  apply append_inj_l in H. apply append_inj_l in H. apply append_inj_r in H. exact H.
Qed.

(** X13.  The files of [_snapshot]: two epoch numbers never share a file, and
    no epoch number has the file of the "best" checkpoint. *)
Theorem snapshot_files_are_distinct (self : Trainer) :
  (forall a b, snapshot_path self (TagInt a) = snapshot_path self (TagInt b) -> a = b) /\
  (forall a, snapshot_path self (TagInt a) <> snapshot_path self (TagStr "best")).
Proof.
  split.
  - intros a b H. apply snapshot_path_inj in H. apply str_int_inj. exact H.
  - intros a H. apply snapshot_path_inj in H. exact (str_int_not_best a H).
Qed.


Lemma writes_to_app (p : string) (T1 T2 : list event) :
  writes_to p (T1 ++ T2) = writes_to p T1 ++ writes_to p T2.
Proof. apply flat_map_app. Qed.

Lemma writes_to_skeleton (p : string) (T : list event) :
  writes_to p T = writes_to p (skeleton T).
Proof. apply flat_map_skeleton. intros [m | | | | | | | | |]; try discriminate; reflexivity. Qed.

Lemma snapshot_path_eqb_int (self : Trainer) (a b : Z) :
  String.eqb (snapshot_path self (TagInt a)) (snapshot_path self (TagInt b)) = (a =? b).
Proof.
  destruct (Z.eqb_spec a b) as [-> | Hne].
  - apply String.eqb_refl.
  - apply String.eqb_neq. intros H. apply snapshot_path_inj in H.
    apply str_int_inj in H. contradiction.
Qed.

Lemma snapshot_path_eqb_best (self : Trainer) (b : Z) :
  String.eqb (snapshot_path self (TagStr "best")) (snapshot_path self (TagInt b)) = false.
Proof.
  apply String.eqb_neq. intros H. apply snapshot_path_inj in H.
  symmetry in H. exact (str_int_not_best b H).
Qed.

(** The checkpoints an iteration writes to the file of the number [t]. *)
Lemma iteration_skeleton_writes (self : Trainer) (e : Z) (mode : bool) (n : Net)
      (loc : Locals) (r' : Res) (t : Z) :
  writes_to (snapshot_path self (TagInt t)) (iteration_skeleton self e mode n loc r')
  = (if (e + 1 =? t) && (t mod snapshot_interval self =? 0)
     then [(TagInt t, stepped self e (epoch_net self mode n))]
     else []).
Proof.
  unfold iteration_skeleton, writes_to. cbv zeta. rewrite !flat_map_app.
  destruct (Z.eqb_spec (e + 1) t) as [<- | Hne].
  - destruct (evaluation_due e);
      destruct (flt (evaluated_loss self (epoch_net self mode n)) (best_loss loc));
      destruct (e mod scheduler_interval self =? 0);
      destruct ((e + 1) mod snapshot_interval self =? 0);
      cbn [flat_map app andb];
      rewrite ?snapshot_path_eqb_best, ?snapshot_path_eqb_int, ?Z.eqb_refl; reflexivity.
  - apply Z.eqb_neq in Hne.
    destruct (evaluation_due e);
      destruct (flt (evaluated_loss self (epoch_net self mode n)) (best_loss loc));
      destruct (e mod scheduler_interval self =? 0);
      destruct ((e + 1) mod snapshot_interval self =? 0);
      cbn [flat_map app andb];
      rewrite ?snapshot_path_eqb_best, ?snapshot_path_eqb_int, ?Hne; reflexivity.
Qed.

Lemma flat_map_seq_single {A : Type} (t : Z) (c : bool) (v : A) (k : nat) :
  flat_map (fun e => if (e + 1 =? t) && c then [v] else []) (map Z.of_nat (seq 0 k))
  = (if (1 <=? t) && (t <=? Z.of_nat k) && c then [v] else []).
Proof.
  induction k as [| k IH].
  - cbn. destruct (Z.leb_spec 1 t), (Z.leb_spec t 0); try reflexivity. lia.
  - rewrite seq_S, map_app, flat_map_app, IH. cbn [Nat.add map flat_map].
    rewrite app_nil_r.
    destruct c; rewrite ?andb_true_r, ?andb_false_r; [| reflexivity].
    destruct (Z.leb_spec 1 t), (Z.leb_spec t (Z.of_nat k)),
      (Z.leb_spec t (Z.of_nat (S k))), (Z.eqb_spec (Z.of_nat k + 1) t);
      cbn; try reflexivity; lia.
Qed.

Lemma flat_map_range_single {A : Type} (t : Z) (c : bool) (v : A) (n : Z) :
  flat_map (fun e => if (e + 1 =? t) && c then [v] else []) (range n)
  = (if (1 <=? t) && (t <=? n) && c then [v] else []).
Proof.
  unfold range. rewrite flat_map_seq_single.
  destruct (Z.leb_spec 1 t); [| reflexivity].
  destruct (Z.leb_spec t (Z.of_nat (Z.to_nat n))), (Z.leb_spec t n); try reflexivity; lia.
Qed.

(** X14.  In a run of [train] that completes, the file of the checkpoint
    number [t] is written once when [t] is an epoch of the run and a
    multiple of the snapshot interval, and then with the network after
    [t] epochs; it is never written otherwise: neither a later numbered
    checkpoint nor a "best" checkpoint overwrites it. *)
Theorem numbered_checkpoints_are_written_once (self : Trainer) (s : State) :
  value (train self s) = Ok tt ->
  forall t,
    writes_to (snapshot_path self (TagInt t)) (emitted (train self s))
    = (if (1 <=? t) && (t <=? epoch self) && (t mod snapshot_interval self =? 0)
       then [(TagInt t, trained self (net s) (range t))]
       else []).
Proof.
  intros Hok t.
  destruct (train_iterations_run self s Hok) as (_ & _ & Hiter).
  apply train_completes_inv in Hok.
  destruct Hok as (Tloop & s1 & loc1 & total & avg & _ & HTloop & Hfst & HT & _).
  rewrite HT, !writes_to_app, HTloop. cbn [writes_to flat_map app]. rewrite app_nil_r.
  unfold writes_to.
  rewrite (flat_map_iterations _
             (fun e => if (e + 1 =? t) && (t mod snapshot_interval self =? 0)
                       then [(TagInt t, trained self (net s) (range t))] else [])).
  - rewrite Hfst. apply flat_map_range_single.
  - intros e evs Hin.
    destruct (Hiter e evs Hin) as (_ & _ & _ & loc0 & r' & Hsk & Hsucc).
    change (writes_to (snapshot_path self (TagInt t)) evs
            = (if (e + 1 =? t) && (t mod snapshot_interval self =? 0)
               then [(TagInt t, trained self (net s) (range t))] else [])).
    rewrite writes_to_skeleton, Hsk, iteration_skeleton_writes.
    destruct (Z.eqb_spec (e + 1) t) as [<- | Hne]; [| reflexivity].
    rewrite Hsucc. reflexivity.
Qed.

End Files.

(** ** The tensors given to the model *)

Section Inputs.
Context {fw : Framework}.










End Inputs.

(** ** The files of the pictures *)

Section PictureNames.

(** A decimal numeral followed by [".png"] is never one followed by
    ["_origin.png"]. *)
Lemma uint_png_origin (d1 : Decimal.uint) :
  forall d2,
    (NilEmpty.string_of_uint d1 ++ ".png")%string
    = (NilEmpty.string_of_uint d2 ++ "_origin.png")%string -> False.
Proof.
  induction d1 as [| d1 IH | d1 IH | d1 IH | d1 IH | d1 IH | d1 IH | d1 IH | d1 IH
                   | d1 IH | d1 IH];
    intros [| d2 | d2 | d2 | d2 | d2 | d2 | d2 | d2 | d2 | d2]; cbn;
    intros H; try discriminate H;
    inversion H as [H']; exact (IH _ H').
Qed.

Lemma nilzero_png_origin (d1 d2 : Decimal.uint) :
  (NilZero.string_of_uint d1 ++ ".png")%string
  = (NilZero.string_of_uint d2 ++ "_origin.png")%string -> False.
Proof.
  destruct d1 as [| d1 | d1 | d1 | d1 | d1 | d1 | d1 | d1 | d1 | d1];
    destruct d2 as [| d2 | d2 | d2 | d2 | d2 | d2 | d2 | d2 | d2 | d2];
    cbn; intros H; try discriminate H;
    first [ exact (uint_png_origin _ _ H)
          | inversion H as [H'];
            first [ exact (uint_png_origin Decimal.Nil _ H')
                  | exact (uint_png_origin _ Decimal.Nil H')
                  | exact (uint_png_origin _ _ H') ] ].
Qed.

Lemma str_int_png_origin (a b : Z) :
  (str_int a ++ ".png")%string = (str_int b ++ "_origin.png")%string -> False.
Proof.
  unfold str_int, NilZero.string_of_int.
  destruct (Z.to_int a) as [d1 | d1], (Z.to_int b) as [d2 | d2]; intros H.
  - exact (nilzero_png_origin _ _ H).
  - destruct d1; cbn in H; discriminate H.
  - destruct d2; cbn in H; discriminate H.
  - cbn in H. inversion H as [H']. exact (nilzero_png_origin _ _ H').
Qed.

End PictureNames.

Section Pictures.
Context {fw : Framework}.

Lemma test_name_inj (a b : Z) :
  ("test_" ++ str_int a ++ ".png")%string = ("test_" ++ str_int b ++ ".png")%string -> a = b.
Proof.
  intros H. apply append_inj_l in H. apply append_inj_r in H. apply str_int_inj. exact H.
Qed.

Lemma train_name_inj (a b : Z) :
  ("train_" ++ str_int a ++ ".png")%string = ("train_" ++ str_int b ++ ".png")%string ->
  a = b.
Proof.
  intros H. apply append_inj_l in H. apply append_inj_r in H. apply str_int_inj. exact H.
Qed.

Lemma origin_name_inj (a b : Z) :
  ("train_" ++ str_int a ++ "_origin.png")%string
  = ("train_" ++ str_int b ++ "_origin.png")%string -> a = b.
Proof.
  intros H. apply append_inj_l in H. apply append_inj_r in H. apply str_int_inj. exact H.
Qed.

Lemma train_name_not_origin (a b : Z) :
  ("train_" ++ str_int a ++ ".png")%string
  <> ("train_" ++ str_int b ++ "_origin.png")%string.
Proof. intros H. apply append_inj_l in H. exact (str_int_png_origin _ _ H). Qed.

Lemma test_name_not_train (a : Z) (rest : string) :
  ("test_" ++ str_int a ++ ".png")%string <> ("train_" ++ rest)%string.
Proof. cbn. discriminate. Qed.

Lemma test_0_not_train (rest : string) :
  "test_0.png"%string <> ("train_" ++ rest)%string.
Proof. cbn. discriminate. Qed.

Lemma test_name_0 (a : Z) :
  ("test_" ++ str_int a ++ ".png")%string = "test_0.png"%string -> a = 0.
Proof. intros H. apply (test_name_inj a 0). exact H. Qed.

(** The file names of [pictures], without the directory. *)
Lemma in_pictures (self : Trainer) (t : Z) (p : string) :
  In p (pictures self t) ->
  exists name,
    p = (result_dir self ++ name)%string /\
    (name = ("test_" ++ str_int t ++ ".png")%string \/
     (t = 10 /\ name = "test_0.png"%string) \/
     name = ("train_" ++ str_int t ++ ".png")%string \/
     name = ("train_" ++ str_int t ++ "_origin.png")%string).
Proof.
  unfold pictures. destruct (Z.eqb_spec t 10) as [Ht | Ht]; cbn [app In];
    intros H; repeat (destruct H as [<- | H]); try contradiction;
    eexists; (split; [reflexivity |]); auto.
Qed.

(** Evaluations with different tags, none of them 0, write different
    files. *)
Lemma pictures_disjoint (self : Trainer) (t t' : Z) (p : string) :
  t <> 0 -> t' <> 0 ->
  In p (pictures self t) -> In p (pictures self t') -> t = t'.
Proof.
  intros Ht Ht' H H'.
  apply in_pictures in H. destruct H as (n & -> & Hn).
  apply in_pictures in H'. destruct H' as (n' & Heq & Hn').
  apply append_inj_l in Heq. subst n'.
  destruct Hn as [-> | [(-> & ->) | [-> | ->]]];
    destruct Hn' as [Hn' | [(-> & Hn') | [Hn' | Hn']]];
    try reflexivity;
    try (apply test_name_inj in Hn'; congruence);
    try (apply train_name_inj in Hn'; congruence);
    try (apply origin_name_inj in Hn'; congruence);
    try (apply test_name_0 in Hn'; congruence);
    try (symmetry in Hn'; apply test_name_0 in Hn'; congruence);
    try (exfalso; exact (test_name_not_train _ _ Hn'));
    try (exfalso; symmetry in Hn'; exact (test_name_not_train _ _ Hn'));
    try (exfalso; exact (test_0_not_train _ Hn'));
    try (exfalso; symmetry in Hn'; exact (test_0_not_train _ Hn'));
    try (exfalso; exact (train_name_not_origin _ _ Hn'));
    try (exfalso; symmetry in Hn'; exact (train_name_not_origin _ _ Hn')).
Qed.

Lemma append_neq (a b c : string) : b <> c -> (a ++ b)%string <> (a ++ c)%string.
Proof. intros Hne H. apply append_inj_l in H. contradiction. Qed.

(** One call of [evaluate] writes each of its files once. *)
Lemma pictures_NoDup (self : Trainer) (t : Z) : NoDup (pictures self t).
Proof.
  unfold pictures. destruct (Z.eqb_spec t 10) as [-> | Ht]; cbn [app].
  - repeat constructor; cbn [In]; intros H;
      repeat (destruct H as [H | H]); try contradiction;
      apply append_inj_l in H; revert H; cbn; discriminate.
  - assert (H1 : ("test_" ++ str_int t ++ ".png")%string
                 <> ("train_" ++ str_int t ++ ".png")%string)
      by apply test_name_not_train.
    assert (H2 : ("test_" ++ str_int t ++ ".png")%string
                 <> ("train_" ++ str_int t ++ "_origin.png")%string)
      by apply test_name_not_train.
    pose proof (train_name_not_origin t t) as H3.
    repeat constructor; cbn [In]; intros H;
      repeat (destruct H as [H | H]); try contradiction;
      apply append_inj_l in H; first [contradiction | symmetry in H; contradiction].
Qed.

Lemma NoDup_flat_map {A B : Type} (f : A -> list B) (xs : list A) :
  NoDup xs ->
  (forall x, In x xs -> NoDup (f x)) ->
  (forall x y b, In x xs -> In y xs -> In b (f x) -> In b (f y) -> x = y) ->
  NoDup (flat_map f xs).
Proof.
  induction 1 as [| x xs Hx Hnd IH]; intros Hf Hdis; [constructor |].
  cbn [flat_map]. apply NoDup_app.
  - apply Hf. left. reflexivity.
  - apply IH.
    + intros y Hy. apply Hf. right. exact Hy.
    + intros y z b Hy Hz. apply Hdis; right; assumption.
  - intros b Hb Hin. apply in_flat_map in Hin. destruct Hin as (y & Hy & Hby).
    assert (x = y)
      by (apply (Hdis x y b); [left; reflexivity | right; exact Hy | exact Hb | exact Hby]).
    subst y. contradiction.
Qed.

Lemma range_NoDup (n : Z) : NoDup (range n).
Proof.
  unfold range. generalize (seq_NoDup (Z.to_nat n) 0). generalize (seq 0 (Z.to_nat n)).
  induction 1 as [| x l Hx Hl IH]; [constructor |].
  cbn [map]. constructor; [| exact IH].
  intros Hin. apply in_map_iff in Hin. destruct Hin as (y & Heq & Hy).
  apply Nat2Z.inj in Heq. subst y. contradiction.
Qed.

(** X17.  In a run of [train] that completes, the pictures written are those
    of the evaluations, in order, and no file is written twice: no
    evaluation overwrites a picture of an earlier one, and
    [test_0.png], written with the tag 10, is no picture of another
    tag. *)
Theorem no_picture_is_overwritten (self : Trainer) (s : State) :
  value (train self s) = Ok tt ->
  savefig_paths (emitted (train self s))
  = flat_map (fun e => if evaluation_due e then pictures self (e + 1) else [])
             (range (epoch self)) /\
  NoDup (savefig_paths (emitted (train self s))).
Proof.
  intros Hok. apply train_completes_inv in Hok.
  destruct Hok as (Tloop & s1 & loc1 & total & avg & Hloop & HTloop & Hfst & HT & _).
  assert (Heq : savefig_paths (emitted (train self s))
                = flat_map (fun e => if evaluation_due e then pictures self (e + 1) else [])
                           (range (epoch self))).
  { rewrite HT, !savefig_paths_app, HTloop. cbn [savefig_paths flat_map app].
    rewrite app_nil_r. unfold savefig_paths.
    rewrite (flat_map_iterations _
               (fun e => if evaluation_due e then pictures self (e + 1) else [])).
    - rewrite Hfst. reflexivity.
    - intros e evs Hin. unfold train_iterations in Hin.
      eapply (for_each_iterations_all (train_body self)
                (fun e evs => savefig_paths evs
                              = if evaluation_due e then pictures self (e + 1) else []));
        [| exact Hloop | exact Hin].
      intros x acc s0 T s0' acc' Hb. eapply body_savefig. exact Hb. }
  split; [exact Heq |]. rewrite Heq.
  apply NoDup_flat_map.
  - apply range_NoDup.
  - intros e _. destruct (evaluation_due e); [apply pictures_NoDup | constructor].
  - intros x y p Hx Hy Hpx Hpy. apply in_range in Hx, Hy.
    destruct (evaluation_due x); [| contradiction].
    destruct (evaluation_due y); [| contradiction].
    assert (x + 1 = y + 1) by (eapply pictures_disjoint; [| | eassumption | eassumption]; lia).
    lia.
Qed.

End Pictures.

(** ** The further properties at concrete runs *)

(** An epoch of the two-epoch run from a fresh state returns: two
    updates, and the mean 2 of the losses 3 and 1 in the history. *)
Lemma train_epoch_updates_witness :
  value (train_epoch Stub.run2 0 false Stub.start) = Ok tt /\
  net (final (train_epoch Stub.run2 0 false Stub.start)) = 2%nat /\
  hist_loss (train_hist (final (train_epoch Stub.run2 0 false Stub.start))) = [2%Q] /\
  optimizer_steps (emitted (train_epoch Stub.run2 0 false Stub.start)) = [tt; tt].
Proof.
  assert (Hv : value (train_epoch Stub.run2 0 false Stub.start) = Ok tt)
    by (vm_compute; reflexivity).
  split; [exact Hv |].
  destruct (train_epoch_updates Stub.run2 0 false Stub.start Hv)
    as (_ & Hn & Hh & _ & Ho & _).
  split; [rewrite Hn; vm_compute; reflexivity |].
  split; [rewrite Hh; vm_compute; reflexivity |].
  rewrite Ho. reflexivity.
Defined.

(** With the batch size 0 the epoch raises before anything is done, and
    so does a run of three epochs. *)
Lemma train_epoch_zero_batch_size_witness :
  batch_size Cases.no_batch_size = 0 /\
  0 < epoch Cases.no_batch_size /\
  value (train_epoch Cases.no_batch_size 0 false Stub.start) = Raise ZeroDivisionError /\
  emitted (train_epoch Cases.no_batch_size 0 false Stub.start) = [] /\
  value (train Cases.no_batch_size Stub.start) = Raise ZeroDivisionError /\
  net (final (train Cases.no_batch_size Stub.start)) = net Stub.start.
Proof.
  assert (H0 : batch_size Cases.no_batch_size = 0) by reflexivity.
  assert (HN : 0 < epoch Cases.no_batch_size) by reflexivity.
  split; [exact H0 |]. split; [exact HN |].
  destruct (train_epoch_zero_batch_size Cases.no_batch_size 0 false Stub.start H0)
    as ((Hv & HT & _) & Htrain).
  destruct (Htrain HN) as (Hvt & _ & Hn & _).
  split; [exact Hv |]. split; [exact HT |]. split; [exact Hvt | exact Hn].
Defined.



(** An empty test set: [evaluate] raises [IndexError] after the two
    forward passes of the loss loop and writes no picture.  A train set
    whose first sample holds 1024 points: it raises [RuntimeError] after
    the loss loop and the test picture. *)
Lemma evaluate_raises_for_first_bad_sample_witness :
  check_sample (test_loader Cases.empty_test_set) = Raise IndexError /\
  value (evaluate Cases.empty_test_set 1 Stub.start) = Raise IndexError /\
  forward_modes (emitted (evaluate Cases.empty_test_set 1 Stub.start)) = [false; false] /\
  savefig_paths (emitted (evaluate Cases.empty_test_set 1 Stub.start)) = [] /\
  value (evaluate Cases.short_sample 1 Stub.start) = Raise RuntimeError /\
  (2 <= List.length (forward_modes (emitted (evaluate Cases.short_sample 1 Stub.start))))%nat /\
  savefig_paths (emitted (evaluate Cases.short_sample 1 Stub.start))
  = ["results/test_1.png"%string] /\
  training (final (evaluate Cases.short_sample 1 Stub.start)) = false.
Proof.
  assert (Hc : check_sample (test_loader Cases.empty_test_set) = Raise IndexError)
    by reflexivity.
  assert (He : value (evaluate Cases.short_sample 1 Stub.start) = Raise RuntimeError)
    by (vm_compute; reflexivity).
  destruct (evaluate_raises_for_first_bad_sample Cases.empty_test_set 1 Stub.start)
    as (Htest & _).
  destruct (evaluate_raises_for_first_bad_sample Cases.short_sample 1 Stub.start)
    as (_ & Hraise).
  destruct (Htest _ Hc) as (Hv & Hf & Hp).
  destruct (Hraise _ He) as (Hlen & _ & _ & _ & Htr).
  split; [exact Hc |]. split; [exact Hv |]. split; [rewrite Hf; reflexivity |].
  split; [exact Hp |]. split; [exact He |]. split; [exact Hlen |].
  split; [vm_compute; reflexivity | exact Htr].
Defined.

(** The run of 12 epochs returns: its configuration passes the checks. *)
Lemma train_returns_only_when_configured_witness :
  value (train Stub.run12 Stub.start) = Ok tt /\
  0 < epoch Stub.run12 /\
  configuration_check Stub.run12 = Ok tt.
Proof.
  assert (Hok : value (train Stub.run12 Stub.start) = Ok tt) by (vm_compute; reflexivity).
  assert (HN : 0 < epoch Stub.run12) by reflexivity.
  split; [exact Hok |]. split; [exact HN |].
  destruct (train_returns_only_when_configured Stub.run12 Stub.start Hok HN)
    as (_ & _ & _ & _ & _ & Hc).
  exact Hc.
Defined.

(** No epoch, a batch size and intervals of zero, empty datasets:
    [train] returns after its three lines. *)
Lemma train_without_epochs_witness :
  epoch Cases.no_epochs <= 0 /\
  value (train Cases.no_epochs Stub.start) = Ok tt /\
  List.length (emitted (train Cases.no_epochs Stub.start)) = 3%nat /\
  train_hist (final (train Cases.no_epochs Stub.start)) = @mkHist Stub.fw [] [] [1%Q].
Proof.
  assert (HN : epoch Cases.no_epochs <= 0) by (vm_compute; discriminate).
  split; [exact HN |].
  destruct (train_without_epochs Cases.no_epochs Stub.start HN) as (Hv & HT & _ & _ & Hh).
  split; [exact Hv |]. split; [rewrite HT; reflexivity |].
  rewrite Hh. vm_compute. reflexivity.
Defined.

(** A scheduler interval of zero: [train] raises in its first
    iteration, after one evaluation and before any scalar is logged. *)
Lemma train_fails_in_the_first_iteration_witness :
  value (train Cases.no_scheduler_interval Stub.start) = Raise ZeroDivisionError /\
  value (train_body Cases.no_scheduler_interval 0 initial_locals (train_start Stub.start))
  = Raise ZeroDivisionError /\
  evaluate_calls (emitted (train Cases.no_scheduler_interval Stub.start)) = [1] /\
  (forall name, scalars name (emitted (train Cases.no_scheduler_interval Stub.start)) = []).
Proof.
  assert (He : value (train Cases.no_scheduler_interval Stub.start) = Raise ZeroDivisionError)
    by (vm_compute; reflexivity).
  split; [exact He |].
  destruct (train_fails_in_the_first_iteration Cases.no_scheduler_interval Stub.start)
    as (Hfail & _).
  destruct (Hfail _ He) as (_ & Hbody & _ & Hs & _).
  split; [exact Hbody |]. split; [vm_compute; reflexivity | exact Hs].
Defined.

(** The run of 12 epochs over two batches leaves the network after 24
    updates, in training mode. *)
Lemma train_leaves_the_trained_network_witness :
  value (train Stub.run12 Stub.start) = Ok tt /\
  net (final (train Stub.run12 Stub.start)) = 24%nat /\
  training (final (train Stub.run12 Stub.start)) = true.
Proof.
  assert (Hok : value (train Stub.run12 Stub.start) = Ok tt) by (vm_compute; reflexivity).
  split; [exact Hok |].
  destruct (train_leaves_the_trained_network Stub.run12 Stub.start Hok) as (Hn & Htr).
  split; [rewrite Hn; vm_compute; reflexivity | exact Htr].
Defined.

(** The forward passes of the iterations of the run of 12 epochs. *)
Lemma updates_run_in_training_mode_witness :
  value (train Stub.run12 Stub.start) = Ok tt /\
  (forall e evs,
      In (e, evs) (train_iterations Stub.run12 Stub.start) ->
      forward_modes evs
      = repeat true (List.length (batches (train_loader Stub.run12)))
        ++ (if evaluation_due e
            then repeat false (List.length (batches (train_loader Stub.run12)) + 2)
            else []) /\
      optimizer_steps evs = repeat tt (List.length (batches (train_loader Stub.run12)))).
Proof.
  assert (Hok : value (train Stub.run12 Stub.start) = Ok tt) by (vm_compute; reflexivity).
  split; [exact Hok |].
  exact (updates_run_in_training_mode Stub.run12 Stub.start Hok).
Defined.

(** The checkpoints of the run of 12 epochs: the best one after the
    first epoch, the numbered ones after 4, 8 and 12 epochs. *)
Lemma checkpoints_hold_the_network_of_their_epoch_witness :
  value (train Stub.run12 Stub.start) = Ok tt /\
  (forall e evs,
      In (e, evs) (train_iterations Stub.run12 Stub.start) ->
      forall t p n,
        In (t, p, n) (saves evs) ->
        p = snapshot_path Stub.run12 t /\
        ((t = TagInt (e + 1) /\ n = trained Stub.run12 (net Stub.start) (range (e + 1))) \/
         (t = TagStr "best" /\
          n = epoch_net Stub.run12 true (trained Stub.run12 (net Stub.start) (range e)) /\
          evaluate_results evs = [mkRes (evaluated_loss Stub.run12 n)]))) /\
  saves (emitted (train Stub.run12 Stub.start))
  = [(TagStr "best", "snapshot/shapenet_best.pkl"%string, 2%nat);
     (TagInt 4, "snapshot/shapenet_4.pkl"%string, 8%nat);
     (TagInt 8, "snapshot/shapenet_8.pkl"%string, 16%nat);
     (TagInt 12, "snapshot/shapenet_12.pkl"%string, 24%nat)].
Proof.
  assert (Hok : value (train Stub.run12 Stub.start) = Ok tt) by (vm_compute; reflexivity).
  split; [exact Hok |].
  split; [exact (checkpoints_hold_the_network_of_their_epoch Stub.run12 Stub.start Hok) |].
  vm_compute. reflexivity.
Defined.

(** The two-epoch run logs the history of losses at the steps 0 and 1. *)
Lemma logged_series_witness :
  value (train Stub.run2 Stub.start) = Ok tt /\
  scalars "Train Loss" (emitted (train Stub.run2 Stub.start)) = [(2%Q, 0); (2%Q, 1)] /\
  hist_loss (train_hist (final (train Stub.run2 Stub.start))) = [2%Q; 2%Q].
Proof.
  assert (Hok : value (train Stub.run2 Stub.start) = Ok tt) by (vm_compute; reflexivity).
  split; [exact Hok |].
  destruct (logged_series Stub.run2 Stub.start Hok) as (_ & Hs).
  assert (Hh : hist_loss (train_hist (final (train Stub.run2 Stub.start))) = [2%Q; 2%Q])
    by (vm_compute; reflexivity).
  split; [rewrite Hs, Hh; vm_compute; reflexivity | exact Hh].
Defined.

(** The file of the checkpoint 4 of the stub. *)
Lemma snapshot_files_are_distinct_witness :
  snapshot_path Stub.run12 (TagInt 4) = "snapshot/shapenet_4.pkl"%string /\
  snapshot_path Stub.run12 (TagInt 4) <> snapshot_path Stub.run12 (TagStr "best") /\
  (forall b, snapshot_path Stub.run12 (TagInt 4) = snapshot_path Stub.run12 (TagInt b) ->
             4 = b).
Proof.
  destruct (snapshot_files_are_distinct Stub.run12) as (Hinj & Hbest).
  split; [vm_compute; reflexivity |]. split; [apply Hbest | apply Hinj].
Defined.

(** In the run of 12 epochs the file of the checkpoint 8 is written
    once, that of a checkpoint 9 never. *)
Lemma numbered_checkpoints_are_written_once_witness :
  value (train Stub.run12 Stub.start) = Ok tt /\
  writes_to "snapshot/shapenet_8.pkl" (emitted (train Stub.run12 Stub.start))
  = [(TagInt 8, 16%nat)] /\
  writes_to (snapshot_path Stub.run12 (TagInt 9)) (emitted (train Stub.run12 Stub.start))
  = [].
Proof.
  assert (Hok : value (train Stub.run12 Stub.start) = Ok tt) by (vm_compute; reflexivity).
  split; [exact Hok |].
  pose proof (numbered_checkpoints_are_written_once Stub.run12 Stub.start Hok) as H.
  split.
  - change "snapshot/shapenet_8.pkl"%string with (snapshot_path Stub.run12 (TagInt 8)).
    rewrite (H 8). vm_compute. reflexivity.
  - rewrite (H 9). reflexivity.
Defined.

(** The seven pictures of the run of 12 epochs. *)
Lemma no_picture_is_overwritten_witness :
  value (train Stub.run12 Stub.start) = Ok tt /\
  savefig_paths (emitted (train Stub.run12 Stub.start))
  = ["results/test_1.png"; "results/train_1.png"; "results/train_1_origin.png";
     "results/test_10.png"; "results/test_0.png"; "results/train_10.png";
     "results/train_10_origin.png"]%string /\
  NoDup (savefig_paths (emitted (train Stub.run12 Stub.start))).
Proof.
  assert (Hok : value (train Stub.run12 Stub.start) = Ok tt) by (vm_compute; reflexivity).
  split; [exact Hok |].
  destruct (no_picture_is_overwritten Stub.run12 Stub.start Hok) as (Heq & Hnd).
  split; [vm_compute; reflexivity | exact Hnd].
Defined.
